(** * dns-lookup-go: record decoder, timestamp codec and request layer

    A shallow embedding of the Go package [dnslookupapi] (models.go,
    options.go, client.go, dnslookup.go) together with the parts of the Go
    standard library the package calls ([encoding/json], [time], [net/url],
    [net/http]), followed by the properties of the package.

    Conventions.
    - A Go [string] is a Rocq [string]; a Go [[]byte] (and a
      [json.RawMessage]) is a [list ascii], written [bytes].  A nil slice and
      an empty slice are both the empty list.
    - A Go [int] is a [Z]; the 64-bit range is checked where a number enters
      (decoding).
    - A Go [error] is a value of the inductive type [error]; [nil] is [None].
    - A Go function that returns [(x, err)] returns a [result]: [Ok x] when
      the error is nil, [Err e] otherwise, [Panic] when it panics.  A method
      that updates its receiver returns the new receiver. *)

From Stdlib Require Import ZArith Ascii String List Lia Bool.
From stdpp Require Import gmap strings list.

Local Open Scope char_scope.
Local Open Scope string_scope.
Local Open Scope list_scope.

Abbreviation bytes := (list ascii).

(** The double quote character. *)
Definition dq : ascii := "034".
Definition backslash : ascii := "\".

(** [[]byte(s)] *)
Definition B (s : string) : bytes := list_ascii_of_string s.

(** [string(b)] *)
Definition S_ (b : bytes) : string := string_of_list_ascii b.

(** JSON texts are written with an apostrophe in place of every double quote:
    [jq "{'a':1}"] is the seven bytes of the JSON object with key a. *)
Definition jq (s : string) : bytes :=
  map (fun c => if (c =? "'")%char then dq else c) (B s).

Definition byte_val (c : ascii) : Z := Z.of_N (N_of_ascii c).
Definition byte_of (z : Z) : ascii := ascii_of_N (Z.to_N z).

Definition in_range (lo hi c : ascii) : bool :=
  (byte_val lo <=? byte_val c)%Z && (byte_val c <=? byte_val hi)%Z.

Definition isDigit (c : ascii) : bool := in_range "0" "9" c.
Definition isHex (c : ascii) : bool :=
  isDigit c || in_range "a" "f" c || in_range "A" "F" c.

(** ** Errors *)

(** The dynamic types of the [error] values that occur in the package. *)
Inductive error : Type :=
  (** [errors.New("unknown DNS type")], models.go *)
| ErrUnsupportedDNSType
  (** [*json.SyntaxError]; [Offset] bytes were read before the error *)
| SyntaxError (Offset : Z)
  (** [*json.UnmarshalTypeError]; the [Type] field is left out *)
| UnmarshalTypeError (Value : string) (Offset : Z) (Struct Field : string)
  (** [io.EOF] and [io.ErrUnexpectedEOF] *)
| EOF
| ErrUnexpectedEOF
  (** [*time.ParseError] *)
| TimeParseError (Layout Value LayoutElem ValueElem Message : string)
  (** [fmt.Errorf(msg + ": %w", err)] *)
| Wrapped (msg : string) (err : error)
  (** [*ErrorMessage], models.go *)
| ErrorMessageError (Code Message : string)
  (** [*ErrorResponse], client.go; of the response only the status code *)
| ErrorResponseError (StatusCode : Z) (Message : string)
  (** [*ArgError], dnslookup.go *)
| ArgError (Name Message : string)
  (** [*json.UnsupportedTypeError] and [*json.MarshalerError] *)
| UnsupportedTypeError
| MarshalerError (err : error)
  (** an error of the HTTP transport (connection, cancellation, read, close) *)
| TransportError (text : string).

(** The outcome of a Go function that returns a value and an [error], or that
    may panic (failed type assertion, nil dereference). *)
Inductive result (A : Type) : Type :=
| Ok (x : A)
| Err (e : error)
| Panic (msg : string).
Arguments Ok {A} x.
Arguments Err {A} e.
Arguments Panic {A} msg.

Definition result_bind {A C} (m : result A) (k : A -> result C) : result C :=
  match m with
  | Ok x => k x
  | Err e => Err e
  | Panic msg => Panic msg
  end.

Definition result_map {A C} (f : A -> C) (m : result A) : result C :=
  result_bind m (fun x => Ok (f x)).

(** ** encoding/json *)

Module json.

(** *** Syntax trees that keep every byte of the text *)

(** [w], [pre], [post], [mid1], [mid2] are runs of insignificant white space;
    a number keeps its literal, a string and a key keep the bytes between the
    quotes (escapes not yet interpreted). *)
Inductive value : Type :=
| Null
| True_
| False_
| Number (lit : bytes)
| String_ (body : bytes)
| Array (w : bytes) (es : elems)
| Object (w : bytes) (ms : members)
with elems : Type :=
| ENil
| ECons (v : value) (post : bytes) (sep : bytes) (es : elems)
with members : Type :=
| MNil
| MCons (key : bytes) (mid1 mid2 : bytes) (v : value) (post : bytes)
        (sep : bytes) (ms : members).

(** *** The scanner *)

(** Result of scanning a prefix of the input: [Fail at_] is a syntax error
    whose offending byte is the first byte of [at_] (the input ended when
    [at_] is empty); [Done x rest] returns what was read and the rest. *)
Inductive scan (A : Type) : Type :=
| Fail (at_ : bytes)
| Done (x : A) (rest : bytes).
Arguments Fail {A} at_.
Arguments Done {A} x rest.

Definition scan_bind {A C} (m : scan A) (k : A -> bytes -> scan C) : scan C :=
  match m with
  | Fail a => Fail a
  | Done x r => k x r
  end.

Definition scan_map {A C} (f : A -> C) (m : scan A) : scan C :=
  scan_bind m (fun x r => Done (f x) r).

(** scanner.go: [maxNestingDepth] *)
Definition maxNestingDepth : Z := 10000.

(** scanner.go: [isSpace] *)
Definition isSpace (c : ascii) : bool :=
  (c =? " ")%char || (c =? "009")%char || (c =? "013")%char || (c =? "010")%char.

Fixpoint span (p : ascii -> bool) (s : bytes) : bytes * bytes :=
  match s with
  | c :: r => if p c then let '(w, r') := span p r in (c :: w, r') else ([], s)
  | [] => ([], [])
  end.

(** [expect c s]: the next byte must be [c]. *)
Definition expect (c : ascii) (s : bytes) : scan unit :=
  match s with
  | x :: r => if (x =? c)%char then Done tt r else Fail s
  | [] => Fail []
  end.

Fixpoint expect_all (cs : bytes) (s : bytes) : scan unit :=
  match cs with
  | [] => Done tt s
  | c :: cs' => scan_bind (expect c s) (fun _ r => expect_all cs' r)
  end.

(** The characters that may follow a backslash, apart from [u]. *)
Definition isSimpleEscape (c : ascii) : bool :=
  (c =? dq)%char || (c =? backslash)%char || (c =? "/")%char || (c =? "b")%char ||
  (c =? "f")%char || (c =? "n")%char || (c =? "r")%char || (c =? "t")%char.

(** Four hexadecimal digits (states [stateInStringEscU] to [..U123]). *)
Fixpoint scan_hex (n : nat) (s : bytes) : scan bytes :=
  match n with
  | O => Done [] s
  | S n' =>
      match s with
      | h :: r => if isHex h then scan_map (cons h) (scan_hex n' r) else Fail s
      | [] => Fail []
      end
  end.

(** The bytes of a string literal after its opening quote, up to and without
    the closing quote (states [stateInString], [stateInStringEsc]). *)
Fixpoint scan_string (s : bytes) : scan bytes :=
  match s with
  | [] => Fail []
  | c :: r =>
      if (c =? dq)%char then Done [] r
      else if (c =? backslash)%char then
        match r with
        | [] => Fail []
        | e :: r1 =>
            if isSimpleEscape e then scan_map (fun x => c :: e :: x) (scan_string r1)
            else if (e =? "u")%char then
              match r1 with
              | h1 :: h2 :: h3 :: h4 :: r2 =>
                  if isHex h1 && isHex h2 && isHex h3 && isHex h4
                  then scan_map (fun x => c :: e :: h1 :: h2 :: h3 :: h4 :: x)
                                (scan_string r2)
                  else scan_bind (scan_hex 4 r1) (fun _ _ => Fail [])
              | _ => scan_bind (scan_hex 4 r1) (fun _ _ => Fail [])
              end
            else Fail r
        end
      else if (byte_val c <? 32)%Z then Fail s
      else scan_map (cons c) (scan_string r)
  end.

(** One or more digits. *)
Definition scan_digits1 (s : bytes) : scan bytes :=
  match s with
  | c :: _ => if isDigit c then let '(ds, r) := span isDigit s in Done ds r else Fail s
  | [] => Fail []
  end.

(** The exponent part, if any (states [stateE], [stateESign], [stateE0]). *)
Definition scan_exp (s : bytes) : scan bytes :=
  match s with
  | c :: r =>
      if (c =? "e")%char || (c =? "E")%char then
        match r with
        | g :: r1 =>
            if (g =? "+")%char || (g =? "-")%char
            then scan_map (fun ds => c :: g :: ds) (scan_digits1 r1)
            else scan_map (cons c) (scan_digits1 r)
        | [] => Fail []
        end
      else Done [] s
  | [] => Done [] s
  end.

(** The fraction part, if any (states [stateDot], [stateDot0]). *)
Definition scan_frac (s : bytes) : scan bytes :=
  match s with
  | c :: r => if (c =? ".")%char then scan_map (cons c) (scan_digits1 r) else Done [] s
  | [] => Done [] s
  end.

(** The integer part without its sign (states [state0], [state1]): a zero,
    or a digit from 1 to 9 and more digits. *)
Definition scan_unsigned (s : bytes) : scan bytes :=
  match s with
  | c :: r =>
      if (c =? "0")%char then Done [c] r
      else if isDigit c then let '(ds, r') := span isDigit r in Done (c :: ds) r'
      else Fail s
  | [] => Fail []
  end.

(** The integer part (state [stateNeg]). *)
Definition scan_int (s : bytes) : scan bytes :=
  match s with
  | c :: r => if (c =? "-")%char then scan_map (cons c) (scan_unsigned r) else scan_unsigned s
  | [] => Fail []
  end.

Definition scan_number (s : bytes) : scan bytes :=
  scan_bind (scan_int s) (fun i r =>
  scan_bind (scan_frac r) (fun f r =>
  scan_bind (scan_exp r) (fun e r => Done (i ++ f ++ e) r))).

(** A value at nesting depth [depth] (the number of arrays and objects that
    are open around it).  [fuel] bounds the recursion; [2 * length s + 2] is
    always enough (lemma [checkValid_show] below). *)
Fixpoint parse_value (fuel : nat) (depth : Z) (s : bytes) {struct fuel} : scan value :=
  match fuel with
  | O => Fail s
  | S fuel' =>
      match s with
      | [] => Fail []
      | c :: r =>
          if (c =? "[")%char then
            if (depth <? maxNestingDepth)%Z then
              let '(w, r1) := span isSpace r in
              match r1 with
              | [] => Fail []
              | c1 :: r2 =>
                  if (c1 =? "]")%char then Done (Array w ENil) r2
                  else scan_map (Array w) (parse_elems fuel' (depth + 1) r1)
              end
            else Fail s
          else if (c =? "{")%char then
            if (depth <? maxNestingDepth)%Z then
              let '(w, r1) := span isSpace r in
              match r1 with
              | [] => Fail []
              | c1 :: r2 =>
                  if (c1 =? "}")%char then Done (Object w MNil) r2
                  else scan_map (Object w) (parse_members fuel' (depth + 1) r1)
              end
            else Fail s
          else if (c =? dq)%char then scan_map String_ (scan_string r)
          else if (c =? "t")%char then scan_map (fun _ => True_) (expect_all (B "rue") r)
          else if (c =? "f")%char then scan_map (fun _ => False_) (expect_all (B "alse") r)
          else if (c =? "n")%char then scan_map (fun _ => Null) (expect_all (B "ull") r)
          else if (c =? "-")%char || isDigit c then scan_map Number (scan_number s)
          else Fail s
      end
  end

(** The elements of an array from its first element to the closing bracket. *)
with parse_elems (fuel : nat) (depth : Z) (s : bytes) {struct fuel} : scan elems :=
  match fuel with
  | O => Fail s
  | S fuel' =>
      scan_bind (parse_value fuel' depth s) (fun v r =>
      let '(post, r1) := span isSpace r in
      match r1 with
      | [] => Fail []
      | c :: r2 =>
          if (c =? "]")%char then Done (ECons v post [] ENil) r2
          else if (c =? ",")%char then
            let '(sep, r3) := span isSpace r2 in
            scan_map (ECons v post sep) (parse_elems fuel' depth r3)
          else Fail r1
      end)
  end

(** The members of an object from its first key to the closing brace. *)
with parse_members (fuel : nat) (depth : Z) (s : bytes) {struct fuel} : scan members :=
  match fuel with
  | O => Fail s
  | S fuel' =>
      scan_bind (expect dq s) (fun _ r =>
      scan_bind (scan_string r) (fun key r =>
      let '(mid1, r1) := span isSpace r in
      scan_bind (expect ":" r1) (fun _ r2 =>
      let '(mid2, r3) := span isSpace r2 in
      scan_bind (parse_value fuel' depth r3) (fun v r4 =>
      let '(post, r5) := span isSpace r4 in
      match r5 with
      | [] => Fail []
      | c :: r6 =>
          if (c =? "}")%char then Done (MCons key mid1 mid2 v post [] MNil) r6
          else if (c =? ",")%char then
            let '(sep, r7) := span isSpace r6 in
            scan_map (MCons key mid1 mid2 v post sep) (parse_members fuel' depth r7)
          else Fail r5
      end))))
  end.

(** *** The text of a tree *)

Definition quote (body : bytes) : bytes := dq :: body ++ [dq].

Fixpoint show (v : value) : bytes :=
  match v with
  | Null => B "null"
  | True_ => B "true"
  | False_ => B "false"
  | Number lit => lit
  | String_ body => quote body
  | Array w es => "["%char :: w ++ show_elems es
  | Object w ms => "{"%char :: w ++ show_members ms
  end
with show_elems (es : elems) : bytes :=
  match es with
  | ENil => ["]"%char]
  | ECons v post sep es' =>
      show v ++ post ++
      match es' with
      | ENil => ["]"%char]
      | _ => ","%char :: sep ++ show_elems es'
      end
  end
with show_members (ms : members) : bytes :=
  match ms with
  | MNil => ["}"%char]
  | MCons key mid1 mid2 v post sep ms' =>
      quote key ++ mid1 ++ ":"%char :: mid2 ++ show v ++ post ++
      match ms' with
      | MNil => ["}"%char]
      | _ => ","%char :: sep ++ show_members ms'
      end
  end.

(** A whole JSON text: white space, one value, white space, end of input
    (what [checkValid] accepts). *)
Definition parse_document (data : bytes) : scan value :=
  let '(_, r) := span isSpace data in
  scan_bind (parse_value (2 * length data + 2) 0 r) (fun v r1 =>
  let '(_, r2) := span isSpace r1 in
  match r2 with
  | [] => Done v []
  | _ => Fail r2
  end).

(** The offset a [SyntaxError] reports for a failure at [at_]. *)
Definition error_offset (data at_ : bytes) : Z :=
  match at_ with
  | [] => Z.of_nat (length data)
  | _ => Z.of_nat (length data) - Z.of_nat (length at_) + 1
  end.

(** decode.go: [checkValid], returning the tree on success *)
Definition checkValid (data : bytes) : result value :=
  match parse_document data with
  | Done v _ => Ok v
  | Fail a => Err (SyntaxError (error_offset data a))
  end.

(** *** String literals *)

Definition hexval (c : ascii) : Z :=
  if isDigit c then byte_val c - 48
  else if in_range "a" "f" c then byte_val c - 87
  else byte_val c - 55.

Definition hex4 (h1 h2 h3 h4 : ascii) : Z :=
  ((hexval h1 * 16 + hexval h2) * 16 + hexval h3) * 16 + hexval h4.

(** The bytes EF BF BD of U+FFFD, the replacement character. *)
Definition replacement : bytes := [byte_of 239; byte_of 191; byte_of 189].

Definition isSurrogate (r : Z) : bool := (55296 <=? r)%Z && (r <=? 57343)%Z.

(** utf8.EncodeRune *)
Definition EncodeRune (r : Z) : bytes :=
  if (r <? 0)%Z then replacement
  else if (r <? 128)%Z then [byte_of r]
  else if (r <? 2048)%Z then [byte_of (192 + r / 64); byte_of (128 + r mod 64)]
  else if (1114111 <? r)%Z || isSurrogate r then replacement
  else if (r <? 65536)%Z then
    [byte_of (224 + r / 4096); byte_of (128 + (r / 64) mod 64); byte_of (128 + r mod 64)]
  else
    [byte_of (240 + r / 262144); byte_of (128 + (r / 4096) mod 64);
     byte_of (128 + (r / 64) mod 64); byte_of (128 + r mod 64)].

(** utf16.DecodeRune *)
Definition DecodeSurrogates (r1 r2 : Z) : option Z :=
  if (55296 <=? r1)%Z && (r1 <? 56320)%Z && (56320 <=? r2)%Z && (r2 <? 57344)%Z
  then Some ((r1 - 55296) * 1024 + (r2 - 56320) + 65536)%Z
  else None.

Definition between (lo hi : Z) (c : ascii) : bool :=
  (lo <=? byte_val c)%Z && (byte_val c <=? hi)%Z.

(** utf8.DecodeRune on a text whose first byte is not ASCII: [Some n] when the
    text starts with a well-formed sequence of [1 + n] bytes, [None] when its
    first byte decodes to (RuneError, 1). *)
Definition utf8_tail (s : bytes) : option nat :=
  match s with
  | [] => None
  | c0 :: r =>
      let x := byte_val c0 in
      if (194 <=? x)%Z && (x <=? 223)%Z then
        match r with
        | c1 :: _ => if between 128 191 c1 then Some 1%nat else None
        | _ => None
        end
      else if (224 <=? x)%Z && (x <=? 239)%Z then
        let lo := if (x =? 224)%Z then 160%Z else 128%Z in
        let hi := if (x =? 237)%Z then 159%Z else 191%Z in
        match r with
        | c1 :: c2 :: _ =>
            if between lo hi c1 && between 128 191 c2 then Some 2%nat else None
        | _ => None
        end
      else if (240 <=? x)%Z && (x <=? 244)%Z then
        let lo := if (x =? 240)%Z then 144%Z else 128%Z in
        let hi := if (x =? 244)%Z then 143%Z else 191%Z in
        match r with
        | c1 :: c2 :: c3 :: _ =>
            if between lo hi c1 && between 128 191 c2 && between 128 191 c3
            then Some 3%nat else None
        | _ => None
        end
      else None
  end.

Definition unescape (e : ascii) : ascii :=
  if (e =? "b")%char then "008"%char
  else if (e =? "f")%char then "012"%char
  else if (e =? "n")%char then "010"%char
  else if (e =? "r")%char then "013"%char
  else if (e =? "t")%char then "009"%char
  else e.

(** decode.go: [unquoteBytes] on the bytes between the quotes.  [skip] counts
    the continuation bytes of a well-formed UTF-8 sequence still to be copied.
    Escapes are interpreted, a surrogate pair is combined, a lone surrogate
    and every byte that is not well-formed UTF-8 become U+FFFD. *)
Fixpoint unquote_from (skip : nat) (s : bytes) : bytes :=
  match s with
  | [] => []
  | c :: r =>
      match skip with
      | S k => c :: unquote_from k r
      | O =>
          if (c =? backslash)%char then
            match r with
            | [] => []
            | e :: r1 =>
                if (e =? "u")%char then
                  match r1 with
                  | h1 :: h2 :: h3 :: h4 :: r2 =>
                      let rr := hex4 h1 h2 h3 h4 in
                      if isSurrogate rr then
                        match r2 with
                        | b1 :: u1 :: l1 :: l2 :: l3 :: l4 :: r3 =>
                            if (b1 =? backslash)%char && (u1 =? "u")%char &&
                               isHex l1 && isHex l2 && isHex l3 && isHex l4
                            then
                              match DecodeSurrogates rr (hex4 l1 l2 l3 l4) with
                              | Some d => EncodeRune d ++ unquote_from 0 r3
                              | None => replacement ++ unquote_from 0 r2
                              end
                            else replacement ++ unquote_from 0 r2
                        | _ => replacement ++ unquote_from 0 r2
                        end
                      else EncodeRune rr ++ unquote_from 0 r2
                  | _ => []
                  end
                else unescape e :: unquote_from 0 r1
            end
          else if (byte_val c <? 128)%Z then c :: unquote_from 0 r
          else
            match utf8_tail s with
            | Some k => c :: unquote_from k r
            | None => replacement ++ unquote_from 0 r
            end
      end
  end.

Definition unquote (body : bytes) : string := S_ (unquote_from 0 body).

Definition hexdigit (n : Z) : ascii :=
  if (n <? 10)%Z then byte_of (48 + n) else byte_of (87 + n).

(** [\u00XX] *)
Definition u00 (c : ascii) : bytes :=
  B "\u00" ++ [hexdigit (byte_val c / 16); hexdigit (byte_val c mod 16)].

(** encode.go: [htmlSafeSet] *)
Definition htmlSafe (c : ascii) : bool :=
  (32 <=? byte_val c)%Z && (byte_val c <? 128)%Z &&
  negb ((c =? dq)%char || (c =? backslash)%char || (c =? "<")%char ||
        (c =? ">")%char || (c =? "&")%char).

(** The escape written for an ASCII byte that is not in [htmlSafeSet]. *)
Definition escape_ascii (c : ascii) : bytes :=
  if (c =? dq)%char || (c =? backslash)%char then [backslash; c]
  else if (c =? "010")%char then B "\n"
  else if (c =? "013")%char then B "\r"
  else if (c =? "009")%char then B "\t"
  else u00 c.

(** U+2028 and U+2029 are the byte sequences E2 80 A8 and E2 80 A9. *)
Definition isLineSep (s : bytes) : option ascii :=
  match s with
  | c0 :: c1 :: c2 :: _ =>
      if (byte_val c0 =? 226)%Z && (byte_val c1 =? 128)%Z &&
         ((byte_val c2 =? 168)%Z || (byte_val c2 =? 169)%Z)
      then Some (hexdigit (byte_val c2 mod 16)) else None
  | _ => None
  end.

(** What to do with the next bytes of the text being rewritten. *)
Inductive pending : Type :=
| Fresh
| Copy (k : nat)
| Drop (k : nat).

(** encode.go: [encodeState.string] with [escapeHTML] set, without the
    quotes (as in Go 1.17 to 1.21: backspace and form feed are written
    [\u0008] and [\u000c]). *)
Fixpoint encode_from (p : pending) (s : bytes) : bytes :=
  match s with
  | [] => []
  | c :: r =>
      match p with
      | Copy (S k) => c :: encode_from (Copy k) r
      | Drop (S k) => encode_from (Drop k) r
      | _ =>
          if (byte_val c <? 128)%Z then
            (if htmlSafe c then [c] else escape_ascii c) ++ encode_from Fresh r
          else
            match utf8_tail s with
            | None => backslash :: B "ufffd" ++ encode_from Fresh r
            | Some k =>
                match isLineSep s with
                | Some h => B "\u202" ++ h :: encode_from (Drop k) r
                | None => c :: encode_from (Copy k) r
                end
            end
      end
  end.

(** indent.go: what [compact] with [escape] set does to the bytes of a string
    literal: the three HTML characters and U+2028, U+2029 are escaped. *)
Fixpoint escapeHTML_from (drop : nat) (s : bytes) : bytes :=
  match s with
  | [] => []
  | c :: r =>
      match drop with
      | S k => escapeHTML_from k r
      | O =>
          if (c =? "<")%char || (c =? ">")%char || (c =? "&")%char
          then u00 c ++ escapeHTML_from 0 r
          else
            match isLineSep s with
            | Some h => B "\u202" ++ h :: escapeHTML_from 2 r
            | None => c :: escapeHTML_from 0 r
            end
      end
  end.

Definition escapeHTML (body : bytes) : bytes := escapeHTML_from 0 body.

(** indent.go: [compact] with [escape] set, on the tree of a valid text:
    insignificant white space is dropped, string literals are HTML-escaped. *)
Fixpoint compact (v : value) : value :=
  match v with
  | String_ body => String_ (escapeHTML body)
  | Array _ es => Array [] (compact_elems es)
  | Object _ ms => Object [] (compact_members ms)
  | _ => v
  end
with compact_elems (es : elems) : elems :=
  match es with
  | ENil => ENil
  | ECons v _ _ es' => ECons (compact v) [] [] (compact_elems es')
  end
with compact_members (ms : members) : members :=
  match ms with
  | MNil => MNil
  | MCons key _ _ v _ _ ms' =>
      MCons (escapeHTML key) [] [] (compact v) [] [] (compact_members ms')
  end.

(** [compact(dst, src, true)]: the tree of the compacted text; fails on a
    text that is not valid JSON. *)
Definition Compact (src : bytes) : result value :=
  result_map compact (checkValid src).

(** The number of arrays and objects nested in a value, itself included. *)
Fixpoint height (v : value) : Z :=
  match v with
  | Array _ es => 1 + height_elems es
  | Object _ ms => 1 + height_members ms
  | _ => 0
  end
with height_elems (es : elems) : Z :=
  match es with
  | ENil => 0
  | ECons v _ _ es' => Z.max (height v) (height_elems es')
  end
with height_members (ms : members) : Z :=
  match ms with
  | MNil => 0
  | MCons _ _ _ v _ _ ms' => Z.max (height v) (height_members ms')
  end.

(** *** Numbers *)

Definition digits_val (ds : bytes) : Z :=
  fold_left (fun a c => a * 10 + (byte_val c - 48))%Z ds 0%Z.

Definition strip_minus (lit : bytes) : bool * bytes :=
  match lit with
  | c :: r => if (c =? "-")%char then (true, r) else (false, lit)
  | [] => (false, [])
  end.

(** [strconv.ParseInt(s, 10, 64)] on a number literal: [None] when the
    literal has a fraction or an exponent or lies outside the int64 range. *)
Definition ParseInt (lit : bytes) : option Z :=
  let '(neg, ds) := strip_minus lit in
  if forallb isDigit ds && negb (Nat.eqb (length ds) 0) then
    let n := if neg then (- digits_val ds)%Z else digits_val ds in
    if (- 2 ^ 63 <=? n)%Z && (n <? 2 ^ 63)%Z then Some n else None
  else None.

(** A float64 is kept as the decimal number [mant * 10 ^ exp10] its literal
    denotes; rounding to binary64 is not modelled. *)
Record float64 : Type := Float64 { mant : Z; exp10 : Z }.

(** The least magnitude that rounds to infinity: 2^1024 - 2^970. *)
Definition float64_overflow : Z := 2 ^ 1024 - 2 ^ 970.

(** [strconv.ParseFloat(s, 64)] on a number literal: [None] is the range
    error, reported when the value rounds to an infinity. *)
Definition ParseFloat (lit : bytes) : option float64 :=
  let '(neg, s1) := strip_minus lit in
  let '(ip, s2) := span isDigit s1 in
  let '(fp, s3) :=
    match s2 with
    | c :: r => if (c =? ".")%char then span isDigit r else ([], s2)
    | [] => ([], s2)
    end in
  let e :=
    match s3 with
    | _ :: g :: ds =>
        if (g =? "-")%char then (- digits_val ds)%Z
        else if (g =? "+")%char then digits_val ds
        else digits_val (g :: ds)
    | _ => 0%Z
    end in
  let m := digits_val (ip ++ fp) in
  let e10 := (e - Z.of_nat (length fp))%Z in
  let too_big :=
    if (0 <=? e10)%Z then (float64_overflow <=? m * 10 ^ e10)%Z
    else (float64_overflow * 10 ^ (- e10) <=? m)%Z in
  if too_big then None
  else Some {| mant := if neg then (- m)%Z else m; exp10 := e10 |}.

Fixpoint digits_of (fuel : nat) (n : Z) (acc : bytes) : bytes :=
  match fuel with
  | O => acc
  | S fuel' =>
      if (n <? 10)%Z then byte_of (48 + n) :: acc
      else digits_of fuel' (n / 10) (byte_of (48 + n mod 10) :: acc)
  end.

(** [strconv.AppendInt(nil, n, 10)]; a number has no more decimal digits
    than binary digits. *)
Definition FormatInt (n : Z) : bytes :=
  let digits (m : Z) := digits_of (S (Z.to_nat (Z.log2 m))) m [] in
  if (n <? 0)%Z then "-"%char :: digits (- n)%Z else digits n.

(** *** Decoding into Go values *)

(** decode.go: [errorContext] *)
Record errorContext : Type :=
  { ec_Struct : string; ec_FieldStack : list string }.

Definition no_context : errorContext := {| ec_Struct := ""; ec_FieldStack := [] |}.

Fixpoint join (sep : string) (l : list string) : string :=
  match l with
  | [] => ""
  | [x] => x
  | x :: l' => x ++ sep ++ join sep l'
  end.

(** decode.go: [addErrorContext] *)
Definition addErrorContext (c : errorContext) (e : error) : error :=
  match e with
  | UnmarshalTypeError v off _ _ =>
      UnmarshalTypeError v off (ec_Struct c) (join "." (ec_FieldStack c))
  | _ => e
  end.

(** The state of a decode: [Err e] when an Unmarshaler failed (the decode
    stops at once), else the value so far and the first error saved by
    [saveError] (the decode goes on after a type mismatch). *)
Definition dec (T : Type) : Type := option error -> result (T * option error).

Definition dec_ret {T} (x : T) : dec T := fun s => Ok (x, s).

Definition dec_bind {T U} (m : dec T) (k : T -> dec U) : dec U :=
  fun s => result_bind (m s) (fun '(x, s') => k x s').

(** decode.go: [saveError] *)
Definition saveError (c : errorContext) (e : error) : dec unit :=
  fun s => Ok (tt, match s with
                   | None => Some (addErrorContext c e)
                   | Some _ => s
                   end).

Definition dec_fail {T} (c : errorContext) (e : error) : dec T :=
  fun _ => Err (addErrorContext c e).

(** Storing the value [v], found at byte offset [off] of the text, into a Go
    variable that holds [old]. *)
Definition store (T : Type) : Type := errorContext -> Z -> value -> T -> dec T.

Definition len (b : bytes) : Z := Z.of_nat (length b).

(** The type error for a value that does not fit the Go type. *)
Definition mismatch (off : Z) (v : value) : error :=
  match v with
  | Array _ _ => UnmarshalTypeError "array" (off + 1) "" ""
  | Object _ _ => UnmarshalTypeError "object" (off + 1) "" ""
  | String_ _ => UnmarshalTypeError "string" (off + len (show v)) "" ""
  | Number _ => UnmarshalTypeError "number" (off + len (show v)) "" ""
  | _ => UnmarshalTypeError "bool" (off + len (show v)) "" ""
  end.

Definition reject {T} (c : errorContext) (off : Z) (v : value) (old : T) : dec T :=
  dec_bind (saveError c (mismatch off v)) (fun _ => dec_ret old).

Definition store_string : store string :=
  fun c off v old =>
    match v with
    | Null => dec_ret old
    | String_ body => dec_ret (unquote body)
    | _ => reject c off v old
    end.

Definition bad_number {T} (c : errorContext) (off : Z) (lit : bytes) (old : T) : dec T :=
  dec_bind (saveError c (UnmarshalTypeError ("number " ++ S_ lit) (off + len lit) "" ""))
           (fun _ => dec_ret old).

Definition store_int : store Z :=
  fun c off v old =>
    match v with
    | Null => dec_ret old
    | Number lit =>
        match ParseInt lit with
        | Some n => dec_ret n
        | None => bad_number c off lit old
        end
    | _ => reject c off v old
    end.

Definition store_float64 : store float64 :=
  fun c off v old =>
    match v with
    | Null => dec_ret old
    | Number lit =>
        match ParseFloat lit with
        | Some x => dec_ret x
        | None => bad_number c off lit old
        end
    | _ => reject c off v old
    end.

(** decode.go: [array] on a slice.  The elements of the array, the first one
    at offset [off], are stored in place: element [i] of the array into
    element [i] of the slice [old] that the variable holds, and into a fresh
    zero value past the length of [old]; the slice is then cut to the length
    of the array.  (A slice is kept without spare capacity: what an earlier,
    longer array under the same key left behind the length of the slice is
    not kept.) *)
Fixpoint store_elems {T} (st : store T) (zero : T) (c : errorContext) (off : Z)
    (es : elems) (old : list T) : dec (list T) :=
  match es with
  | ENil => dec_ret []
  | ECons v post sep es' =>
      dec_bind (st c off v (hd zero old)) (fun x =>
      dec_bind (store_elems st zero c (off + len (show v) + len post + 1 + len sep) es'
                  (tl old))
               (fun xs => dec_ret (x :: xs)))
  end.

(** A slice: [null] sets it to nil, an array is stored element by element. *)
Definition store_slice {T} (st : store T) (zero : T) : store (list T) :=
  fun c off v old =>
    match v with
    | Null => dec_ret []
    | Array w es => store_elems st zero c (off + 1 + len w) es old
    | _ => reject c off v old
    end.

(** A type with an [UnmarshalJSON] method: the method gets the bytes of the
    value, whatever its kind, and its error stops the decode. *)
Definition store_unmarshaler {T} (UnmarshalJSON : bytes -> T -> result T) : store T :=
  fun c off v old =>
    match UnmarshalJSON (show v) old with
    | Ok x => dec_ret x
    | Err e => dec_fail c e
    | Panic msg => fun _ => Panic msg
    end.

(** A field of a struct of type [T]: its JSON name and how a value is
    stored into it. *)
Record field (T : Type) : Type := Field { f_name : string; f_store : store T }.
Arguments Field {T} f_name f_store.
Arguments f_name {T} f.
Arguments f_store {T} f.

Definition lift {T X} (get : T -> X) (set : X -> T -> T) (st : store X) : store T :=
  fun c off v t => dec_bind (st c off v (get t)) (fun x => dec_ret (set x t)).

(** The field [name] of type [X], read by [get] and written by [set]. *)
Definition mkField {T X} (name : string) (get : T -> X) (set : X -> T -> T)
    (st : store X) : field T :=
  Field name (lift get set st).

(** The promoted fields of an embedded struct. *)
Definition embed {T X} (get : T -> X) (set : X -> T -> T) (fs : list (field X))
  : list (field T) :=
  map (fun f => Field (f_name f) (lift get set (f_store f))) fs.

Definition upper (c : ascii) : ascii :=
  if in_range "a" "z" c then byte_of (byte_val c - 32) else c.

(** fold.go: the key under which names are compared when no field has
    exactly the name of the key: ASCII letters lose their case, and the two
    letters of Unicode that fold to ASCII letters, U+017F (C5 BF) and U+212A
    (E2 84 AA), become S and K. *)
Fixpoint foldName (s : bytes) : bytes :=
  match s with
  | [] => []
  | c :: r =>
      match r with
      | c1 :: r1 =>
          if (byte_val c =? 197)%Z && (byte_val c1 =? 191)%Z then "S"%char :: foldName r1
          else
            match r1 with
            | c2 :: r2 =>
                if (byte_val c =? 226)%Z && (byte_val c1 =? 132)%Z && (byte_val c2 =? 170)%Z
                then "K"%char :: foldName r2
                else upper c :: foldName r
            | [] => upper c :: foldName r
            end
      | [] => [upper c]
      end
  end.

Definition equalFold (a b : string) : bool :=
  bool_decide (foldName (B a) = foldName (B b)).

(** The field a key selects: the one of that exact name, else the first one
    whose name is equal to the key under folding. *)
Definition find_field {T} (fs : list (field T)) (key : string) : option (field T) :=
  match find (fun f => String.eqb (f_name f) key) fs with
  | Some f => Some f
  | None => find (fun f => equalFold (f_name f) key) fs
  end.

(** decode.go: [object] on a struct: the members in order, each stored into
    the field its key selects; a key that selects no field is skipped. *)
Fixpoint store_members {T} (sname : string) (fs : list (field T)) (c : errorContext)
    (off : Z) (ms : members) (t : T) : dec T :=
  match ms with
  | MNil => dec_ret t
  | MCons key mid1 mid2 v post sep ms' =>
      let voff := (off + len (quote key) + len mid1 + 1 + len mid2)%Z in
      let next := (voff + len (show v) + len post + 1 + len sep)%Z in
      match find_field fs (unquote key) with
      | Some f =>
          let c' := {| ec_Struct := sname;
                       ec_FieldStack := ec_FieldStack c ++ [f_name f] |} in
          dec_bind (f_store f c' voff v t) (store_members sname fs c next ms')
      | None => store_members sname fs c next ms' t
      end
  end.

(** A struct type named [sname] with the fields [fs]. *)
Definition store_struct {T} (sname : string) (fs : list (field T)) : store T :=
  fun c off v old =>
    match v with
    | Null => dec_ret old
    | Object w ms => store_members sname fs c (off + 1 + len w) ms old
    | _ => reject c off v old
    end.

(** [json.Unmarshal(data, &x)] where [x] holds [old]: the text is checked
    first, then stored.  On an error Go leaves a partly updated [x] behind;
    no caller in the package reads it, and the model drops it. *)
Definition finish {T} (r : result (T * option error)) : result T :=
  result_bind r (fun '(x, saved) =>
    match saved with
    | Some e => Err e
    | None => Ok x
    end).

Definition Unmarshal {T} (st : store T) (data : bytes) (old : T) : result T :=
  result_bind (checkValid data) (fun v =>
  finish (st no_context (len (fst (span isSpace data))) v old None)).

(** [json.RawMessage]: [UnmarshalJSON] keeps the bytes of the value. *)
Definition store_RawMessage : store bytes :=
  store_unmarshaler (fun data _ => Ok data).

(** The first value of a stream ([Decoder.readValue]): white space, then one
    value; what follows the value is not looked at. *)
Definition readValue (data : bytes) : result (Z * value) :=
  let '(w, r) := span isSpace data in
  match r with
  | [] => Err EOF
  | _ =>
      match parse_value (2 * length data + 2) 0 r with
      | Done v _ => Ok (len w, v)
      | Fail [] => Err ErrUnexpectedEOF
      | Fail a => Err (SyntaxError (error_offset data a))
      end
  end.

(** [json.NewDecoder(bytes.NewReader(data)).Decode(&x)] *)
Definition Decode {T} (st : store T) (data : bytes) (old : T) : result T :=
  result_bind (readValue data) (fun '(off, v) =>
  finish (st no_context off v old None)).

(** *** Encoding *)

(** [json.Marshal] is modelled by the tree of the text it writes, which has
    no white space; [show] gives the text. *)

Definition marshal_string (s : string) : value := String_ (encode_from Fresh (B s)).

Definition marshal_int (n : Z) : value := Number (FormatInt n).

(** A [json.RawMessage] under [json.Marshal]: a nil message is [null], any
    other is compacted, and a message that is not valid JSON is an error. *)
Definition marshal_RawMessage (m : bytes) : result value :=
  match m with
  | [] => Ok Null
  | _ =>
      match Compact m with
      | Err e => Err (MarshalerError e)
      | r => r
      end
  end.

Fixpoint to_elems (vs : list value) : elems :=
  match vs with
  | [] => ENil
  | v :: vs' => ECons v [] [] (to_elems vs')
  end.

Fixpoint marshal_all {T} (enc : T -> result value) (l : list T) : result (list value) :=
  match l with
  | [] => Ok []
  | x :: l' =>
      result_bind (enc x) (fun v =>
      result_bind (marshal_all enc l') (fun vs => Ok (v :: vs)))
  end.

(** A slice under [json.Marshal] (a nil slice is [null]). *)
Definition marshal_slice {T} (enc : T -> result value) (l : list T) : result value :=
  match l with
  | [] => Ok Null
  | _ => result_map (fun vs => Array [] (to_elems vs)) (marshal_all enc l)
  end.

Fixpoint to_members (fs : list (string * value)) : members :=
  match fs with
  | [] => MNil
  | (name, v) :: fs' => MCons (encode_from Fresh (B name)) [] [] v [] [] (to_members fs')
  end.

(** A struct under [json.Marshal]: the fields in order, each under its name. *)
Definition marshal_struct (fs : list (string * value)) : value :=
  Object [] (to_members fs).

(** *** Notions used to reason about the parser and the encoder *)

Scheme value_mut := Induction for value Sort Prop
with elems_mut := Induction for elems Sort Prop
with members_mut := Induction for members Sort Prop.

Combined Scheme tree_ind from value_mut, elems_mut, members_mut.

(** The bytes between the quotes of a string literal that the scanner
    accepts. *)
Inductive body_ok : bytes -> Prop :=
| body_nil : body_ok []
| body_plain c r :
    c <> dq -> c <> backslash -> (32 <= byte_val c)%Z -> body_ok r -> body_ok (c :: r)
| body_esc e r : isSimpleEscape e = true -> body_ok r -> body_ok (backslash :: e :: r)
| body_u h1 h2 h3 h4 r :
    isHex h1 = true -> isHex h2 = true -> isHex h3 = true -> isHex h4 = true ->
    body_ok r -> body_ok (backslash :: "u"%char :: h1 :: h2 :: h3 :: h4 :: r).

(** A number literal that the scanner accepts. *)
Definition number_ok (lit : bytes) : Prop := scan_number lit = Done lit [].

(** A run of white space. *)
Definition all_ws (w : bytes) : Prop := forallb isSpace w = true.

(** A tree that the parser can return. *)
Fixpoint wf (v : value) : Prop :=
  match v with
  | Number lit => number_ok lit
  | String_ body => body_ok body
  | Array w es => all_ws w /\ wf_elems es
  | Object w ms => all_ws w /\ wf_members ms
  | _ => True
  end
with wf_elems (es : elems) : Prop :=
  match es with
  | ENil => True
  | ECons v post sep es' =>
      wf v /\ all_ws post /\ all_ws sep /\ (es' = ENil -> sep = []) /\ wf_elems es'
  end
with wf_members (ms : members) : Prop :=
  match ms with
  | MNil => True
  | MCons key mid1 mid2 v post sep ms' =>
      body_ok key /\ all_ws mid1 /\ all_ws mid2 /\ wf v /\ all_ws post /\ all_ws sep /\
      (ms' = MNil -> sep = []) /\ wf_members ms'
  end.

(** The fuel that parsing a tree takes. *)
Fixpoint need (v : value) : nat :=
  match v with
  | Array _ es => S (need_elems es)
  | Object _ ms => S (need_members ms)
  | _ => 1
  end
with need_elems (es : elems) : nat :=
  match es with
  | ENil => 0
  | ECons v _ _ es' => S (Nat.max (need v) (need_elems es'))
  end
with need_members (ms : members) : nat :=
  match ms with
  | MNil => 0
  | MCons _ _ _ v _ _ ms' => S (Nat.max (need v) (need_members ms'))
  end.

(** A text before which a number literal ends. *)
Definition stops (r : bytes) : Prop :=
  match r with
  | [] => True
  | c :: _ => isDigit c = false /\ c <> "."%char /\ c <> "e"%char /\ c <> "E"%char
  end.

(** A text that does not start with a byte that [p] accepts. *)
Definition no_head (p : ascii -> bool) (r : bytes) : Prop :=
  match r with
  | [] => True
  | c :: _ => p c = false
  end.

(** A text that starts as a number literal does. *)
Definition starts_number (x : bytes) : Prop :=
  exists c t, x = c :: t /\ (c = "-"%char \/ isDigit c = true).

(** The letters that open an exponent. *)
Definition isE (c : ascii) : bool := (c =? "e")%char || (c =? "E")%char.

(** A nesting depth that the scanner has accepted. *)
Definition max_ok (d : Z) : Prop := (d <= maxNestingDepth)%Z.

(** The first byte of the text of a value. *)
Definition value_head (s : bytes) : Prop :=
  exists c t, s = c :: t /\ isSpace c = false /\ c <> "]"%char.

(** A text that may follow the text of [v]: after a number, a text at which
    the number ends. *)
Definition after_ok (v : value) (r : bytes) : Prop :=
  match v with
  | Number _ => stops r
  | _ => True
  end.

(** The next [k] bytes are bytes of a multi-byte sequence. *)
Fixpoint highs (k : nat) (s : bytes) : Prop :=
  match k with
  | O => True
  | S k' =>
      match s with
      | c :: r => (128 <= byte_val c)%Z /\ highs k' r
      | [] => False
      end
  end.

(** The bytes that [encode_from] is to copy are bytes of a multi-byte
    sequence. *)
Definition pending_ok (p : pending) (s : bytes) : Prop :=
  match p with
  | Copy k => highs k s
  | _ => True
  end.

(** The characters that [compact] escapes. *)
Definition isHTML (c : ascii) : bool :=
  (c =? "<")%char || (c =? ">")%char || (c =? "&")%char.

End json.

(** ** time *)

Module time.

(** A [*time.Location]: UTC (also the nil location), the location [Local] of
    the process, or a zone made by [FixedZone]. *)
Inductive Location : Type :=
| UTC
| Local
| FixedZone (name : string) (offset : Z).

(** What the process knows about [Local]: the abbreviation and the offset in
    force at a Unix time ([Location.lookup]), and the offset of a zone given
    by its abbreviation ([Location.lookupName]). *)
Record Zones : Type :=
  { lookup : Z -> string * Z;
    lookupName : string -> Z -> option Z }.

(** A [time.Time] without monotonic clock reading: [ext] is the number of
    seconds since January 1 of year 1, 00:00:00 UTC, [wall] the nanoseconds
    within the second.  The zero Time is [{0, 0, UTC}]. *)
Record Time : Type := mkTime { ext : Z; wall : Z; loc : Location }.

#[global] Instance Location_eq_dec : EqDecision Location.
Proof. solve_decision. Defined.

#[global] Instance Time_eq_dec : EqDecision Time.
Proof. solve_decision. Defined.

Definition unixToInternal : Z := 62135596800.

Definition isLeap (year : Z) : bool :=
  (year mod 4 =? 0)%Z && (negb (year mod 100 =? 0)%Z || (year mod 400 =? 0)%Z).

Definition daysIn (month year : Z) : Z :=
  if (month =? 2)%Z then (if isLeap year then 29 else 28)%Z
  else if (month =? 4)%Z || (month =? 6)%Z || (month =? 9)%Z || (month =? 11)%Z
       then 30%Z else 31%Z.

(** The days from January 1 of year 1 to January 1 of [year]. *)
Definition daysBeforeYear (year : Z) : Z :=
  let y := (year - 1)%Z in (365 * y + y / 4 - y / 100 + y / 400)%Z.

(** The days from January 1 of [year] to the first of [month]. *)
Fixpoint daysBefore (months : nat) (year : Z) : Z :=
  match months with
  | O => 0%Z
  | S k => (daysBefore k year + daysIn (Z.of_nat k + 1) year)%Z
  end.

(** [time.Date(year, month, day, hour, min, sec, nsec, time.UTC)] for a date
    and a clock that are in range. *)
Definition Date (year month day hour min sec nsec : Z) : Time :=
  let days := (daysBeforeYear year + daysBefore (Z.to_nat (month - 1)) year + (day - 1))%Z in
  {| ext := (days * 86400 + hour * 3600 + min * 60 + sec)%Z; wall := nsec; loc := UTC |}.

(** The year and the day within the year of a day count ([absDate]). *)
Definition yearOf (days : Z) : Z * Z :=
  let n400 := (days / 146097)%Z in
  let d1 := (days mod 146097)%Z in
  let n100 := Z.min (d1 / 36524) 3 in
  let d2 := (d1 - n100 * 36524)%Z in
  let n4 := (d2 / 1461)%Z in
  let d3 := (d2 mod 1461)%Z in
  let n1 := Z.min (d3 / 365) 3 in
  ((400 * n400 + 100 * n100 + 4 * n4 + n1 + 1)%Z, (d3 - n1 * 365)%Z).

(** The month and the day of the month of a day within [year]. *)
Fixpoint monthOf (fuel : nat) (month yday year : Z) : Z * Z :=
  match fuel with
  | O => (month, (yday + 1)%Z)
  | S k =>
      if (yday <? daysIn month year)%Z then (month, (yday + 1)%Z)
      else monthOf k (month + 1)%Z (yday - daysIn month year)%Z year
  end.

(** format.go: [appendInt]: at least [width] digits, a minus sign first. *)
Definition appendInt (x : Z) (width : nat) : bytes :=
  let ds := json.FormatInt (Z.abs x) in
  (if (x <? 0)%Z then ["-"%char] else []) ++
  repeat "0"%char (width - length ds) ++ ds.

(** The abbreviation and the offset of the zone of [t] ([Time.locabs]). *)
Definition zoneOf (local : Zones) (t : Time) : string * Z :=
  match loc t with
  | UTC => ("UTC", 0%Z)
  | Local => lookup local (ext t - unixToInternal)%Z
  | FixedZone name offset => (name, offset)
  end.

(** [t.Format("2006-01-02 15:04:05 MST")] *)
Definition Format (local : Zones) (t : Time) : string :=
  let '(name, offset) := zoneOf local t in
  let abs := (ext t + offset)%Z in
  let '(year, yday) := yearOf (abs / 86400) in
  let '(month, day) := monthOf 11 1 yday year in
  let clock := (abs mod 86400)%Z in
  let zone :=
    if String.eqb name "" then
      let z := (offset / 60)%Z in
      (if (z <? 0)%Z then "-"%char else "+"%char) ::
      appendInt (Z.abs z / 60) 2 ++ appendInt (Z.abs z mod 60) 2
    else B name in
  S_ (appendInt year 4 ++ "-"%char :: appendInt month 2 ++ "-"%char :: appendInt day 2 ++
      " "%char :: appendInt (clock / 3600) 2 ++ ":"%char ::
      appendInt (clock mod 3600 / 60) 2 ++ ":"%char :: appendInt (clock mod 60) 2 ++
      " "%char :: zone).

Definition layout : string := "2006-01-02 15:04:05 MST".

(** A step of the parse: the rest of the value, or the [*ParseError]. *)
Definition newParseError (value : string) (layoutElem : string) (valueElem : bytes)
    (message : string) : error :=
  TimeParseError layout value layoutElem (S_ valueElem) message.

(** format.go: [skip] for a prefix of one byte: a space of the layout
    stands for any number of spaces of the value, any other byte for itself. *)
Definition skip (value : bytes) (prefix : ascii) : option bytes :=
  if (prefix =? " ")%char then
    match value with
    | c :: _ => if (c =? " ")%char then Some (snd (json.span (fun x => (x =? " ")%char) value))
                else None
    | [] => Some []
    end
  else
    match value with
    | c :: r => if (c =? prefix)%char then Some r else None
    | [] => None
    end.

(** format.go: [getnum]: one or two digits, exactly two when [fixed]. *)
Definition getnum (s : bytes) (fixed : bool) : option (Z * bytes) :=
  match s with
  | c0 :: r =>
      if isDigit c0 then
        match r with
        | c1 :: r1 =>
            if isDigit c1 then Some (((byte_val c0 - 48) * 10 + (byte_val c1 - 48))%Z, r1)
            else if fixed then None else Some ((byte_val c0 - 48)%Z, r)
        | [] => if fixed then None else Some ((byte_val c0 - 48)%Z, r)
        end
      else None
  | [] => None
  end.

(** The four bytes of a year: a digit, then three more digits. *)
Definition getyear (s : bytes) : option (Z * bytes) :=
  match s with
  | c0 :: c1 :: c2 :: c3 :: r =>
      if isDigit c0 && isDigit c1 && isDigit c2 && isDigit c3
      then Some (json.digits_val [c0; c1; c2; c3], r) else None
  | _ => None
  end.

Definition commaOrPeriod (c : ascii) : bool := (c =? ".")%char || (c =? ",")%char.

(** A fraction of a second in the value where the layout has none: the
    digits are read, the first nine count ([parseNanoseconds]). *)
Definition fraction (value : bytes) : Z * bytes :=
  match value with
  | c :: d :: r =>
      if commaOrPeriod c && isDigit d then
        let '(ds, rest) := json.span isDigit (d :: r) in
        let ds9 := firstn 9 ds in
        ((json.digits_val ds9 * 10 ^ (9 - Z.of_nat (length ds9)))%Z, rest)
      else (0%Z, value)
  | _ => (0%Z, value)
  end.

Definition isUpper (c : ascii) : bool := in_range "A" "Z" c.

(** format.go: [parseSignedOffset]: the length of a sign and an hour that
    is at most 23, else zero. *)
Definition parseSignedOffset (value : bytes) : nat :=
  match value with
  | sign :: r =>
      if (sign =? "-")%char || (sign =? "+")%char then
        let '(ds, _) := json.span isDigit r in
        match ds with
        | [] => O
        | _ => if (23 <? json.digits_val ds)%Z then O else S (length ds)
        end
      else O
  | [] => O
  end.

(** format.go: [parseTimeZone]: the length of the zone abbreviation the
    value starts with. *)
Definition parseTimeZone (value : bytes) : option nat :=
  if (length value <? 3)%nat then None
  else if bool_decide (firstn 4 value = B "ChST") || bool_decide (firstn 4 value = B "MeST")
  then Some 4%nat
  else if bool_decide (firstn 3 value = B "GMT") then
    match skipn 3 value with
    | [] => Some 3%nat
    | rest => Some (3 + parseSignedOffset rest)%nat
    end
  else
    match value with
    | c :: _ =>
        if (c =? "+")%char || (c =? "-")%char then
          match parseSignedOffset value with
          | O => None
          | n => Some n
          end
        else
          let nUpper := length (fst (json.span isUpper (firstn 6 value))) in
          match nUpper with
          | 3%nat => Some 3%nat
          | 4%nat =>
              if bool_decide (nth_error value 3 = Some "T"%char) ||
                 bool_decide (firstn 4 value = B "WITA")
              then Some 4%nat else None
          | 5%nat => if bool_decide (nth_error value 4 = Some "T"%char) then Some 5%nat else None
          | _ => None
          end
    | [] => None
    end.

(** The hours after GMT in an abbreviation such as GMT+3 ([atoi]). *)
Definition gmtOffset (zoneName : bytes) : Z :=
  if (3 <? length zoneName)%nat && bool_decide (firstn 3 zoneName = B "GMT") then
    match skipn 3 zoneName with
    | sign :: ds =>
        ((if (sign =? "-")%char then - json.digits_val ds else json.digits_val ds) * 3600)%Z
    | [] => 0%Z
    end
  else 0%Z.

Definition out_of_range (value : string) (elem : string) (rest : bytes) (what : string)
  : result Time :=
  Err (newParseError value elem rest (": " ++ what ++ " out of range")).

(** [time.Parse("2006-01-02 15:04:05 MST", value)]: the elements of the
    layout in turn, each after the literal text before it. *)
Definition Parse (local : Zones) (value : string) : result Time :=
  let bad (elem : string) (at_ : bytes) : result Time :=
    Err (newParseError value elem at_ "") in
  let v0 := B value in
  match getyear v0 with
  | None => bad "2006" v0
  | Some (year, v1) =>
  match skip v1 "-" with
  | None => bad "-" v1
  | Some v1' =>
  match getnum v1' true with
  | None => bad "01" v1'
  | Some (month, v2) =>
  if (month <=? 0)%Z || (12 <? month)%Z then out_of_range value "01" v2 "month" else
  match skip v2 "-" with
  | None => bad "-" v2
  | Some v2' =>
  match getnum v2' true with
  | None => bad "02" v2'
  | Some (day, v3) =>
  match skip v3 " " with
  | None => bad " " v3
  | Some v3' =>
  match getnum v3' false with
  | None => bad "15" v3'
  | Some (hour, v4) =>
  if (24 <=? hour)%Z then out_of_range value "15" v4 "hour" else
  match skip v4 ":" with
  | None => bad ":" v4
  | Some v4' =>
  match getnum v4' true with
  | None => bad "04" v4'
  | Some (min, v5) =>
  if (60 <=? min)%Z then out_of_range value "04" v5 "minute" else
  match skip v5 ":" with
  | None => bad ":" v5
  | Some v5' =>
  match getnum v5' true with
  | None => bad "05" v5'
  | Some (sec, v6) =>
  if (60 <=? sec)%Z then out_of_range value "05" v6 "second" else
  let '(nsec, v7) := fraction v6 in
  match skip v7 " " with
  | None => bad " " v7
  | Some v7' =>
  let finish (rest : bytes) (t : Time) : result Time :=
    match rest with
    | _ :: _ => Err (newParseError value "" rest (": extra text: " ++ S_ (json.quote rest)))
    | [] =>
        if (day <? 1)%Z || (daysIn month year <? day)%Z
        then Err (newParseError value "" [] ": day out of range")
        else Ok t
    end in
  let t := Date year month day hour min sec nsec in
  if bool_decide (firstn 3 v7' = B "UTC") then finish (skipn 3 v7') t
  else
    match parseTimeZone v7' with
    | None => bad "MST" v7'
    | Some n =>
        let zoneName := firstn n v7' in
        finish (skipn n v7')
          match lookupName local (S_ zoneName) (ext t - unixToInternal)%Z with
          | Some offset => {| ext := (ext t - offset)%Z; wall := wall t; loc := Local |}
          | None => {| ext := ext t; wall := wall t;
                       loc := FixedZone (S_ zoneName) (gmtOffset zoneName) |}
          end
    end
  end end end end end end end end end end end end.

End time.

(** ** models.go *)

(** models.go: [commonFields], the envelope of every record *)
Record commonFields : Type :=
  {
    Type_ : Z; DNSType : string; Name : string; TTL : Z; RRsetType : Z; RawText : string
  }.

Definition set_Type_ (x : Z) (r : commonFields) : commonFields :=
  {| Type_ := x; DNSType := DNSType r; Name := Name r; TTL := TTL r;
     RRsetType := RRsetType r; RawText := RawText r |}.

Definition set_DNSType (x : string) (r : commonFields) : commonFields :=
  {| Type_ := Type_ r; DNSType := x; Name := Name r; TTL := TTL r;
     RRsetType := RRsetType r; RawText := RawText r |}.

Definition set_Name (x : string) (r : commonFields) : commonFields :=
  {| Type_ := Type_ r; DNSType := DNSType r; Name := x; TTL := TTL r;
     RRsetType := RRsetType r; RawText := RawText r |}.

Definition set_TTL (x : Z) (r : commonFields) : commonFields :=
  {| Type_ := Type_ r; DNSType := DNSType r; Name := Name r; TTL := x;
     RRsetType := RRsetType r; RawText := RawText r |}.

Definition set_RRsetType (x : Z) (r : commonFields) : commonFields :=
  {| Type_ := Type_ r; DNSType := DNSType r; Name := Name r; TTL := TTL r;
     RRsetType := x; RawText := RawText r |}.

Definition set_RawText (x : string) (r : commonFields) : commonFields :=
  {| Type_ := Type_ r; DNSType := DNSType r; Name := Name r; TTL := TTL r;
     RRsetType := RRsetType r; RawText := x |}.

Definition commonFields_zero : commonFields :=
  {| Type_ := 0%Z; DNSType := ""; Name := ""; TTL := 0%Z; RRsetType := 0%Z;
     RawText := "" |}.

(** The fields of [commonFields] with their [json] tags. *)
Definition commonFields_fields : list (json.field commonFields) :=
  [ json.mkField "type" Type_ set_Type_ json.store_int;
    json.mkField "dnsType" DNSType set_DNSType json.store_string;
    json.mkField "name" Name set_Name json.store_string;
    json.mkField "ttl" TTL set_TTL json.store_int;
    json.mkField "rRsetType" RRsetType set_RRsetType json.store_int;
    json.mkField "rawText" RawText set_RawText json.store_string ].

(** models.go: [ARecord] *)
Record ARecord : Type :=
  {
    ARecord_commonFields : commonFields; ARecord_Address : string
  }.

Definition set_ARecord_commonFields (x : commonFields) (r : ARecord) : ARecord :=
  {| ARecord_commonFields := x; ARecord_Address := ARecord_Address r |}.

Definition set_ARecord_Address (x : string) (r : ARecord) : ARecord :=
  {| ARecord_commonFields := ARecord_commonFields r; ARecord_Address := x |}.

Definition ARecord_zero : ARecord :=
  {| ARecord_commonFields := commonFields_zero; ARecord_Address := "" |}.

Definition ARecord_fields : list (json.field ARecord) :=
  json.embed ARecord_commonFields set_ARecord_commonFields commonFields_fields ++
  [ json.mkField "address" ARecord_Address set_ARecord_Address json.store_string ].

(** models.go: [AAAARecord] *)
Record AAAARecord : Type :=
  {
    AAAARecord_commonFields : commonFields; AAAARecord_Address : string
  }.

Definition set_AAAARecord_commonFields (x : commonFields) (r : AAAARecord) : AAAARecord :=
  {| AAAARecord_commonFields := x; AAAARecord_Address := AAAARecord_Address r |}.

Definition set_AAAARecord_Address (x : string) (r : AAAARecord) : AAAARecord :=
  {| AAAARecord_commonFields := AAAARecord_commonFields r; AAAARecord_Address := x |}.

Definition AAAARecord_zero : AAAARecord :=
  {| AAAARecord_commonFields := commonFields_zero; AAAARecord_Address := "" |}.

Definition AAAARecord_fields : list (json.field AAAARecord) :=
  json.embed AAAARecord_commonFields set_AAAARecord_commonFields commonFields_fields ++
  [ json.mkField "address" AAAARecord_Address set_AAAARecord_Address json.store_string ].

(** models.go: [NSRecord] *)
Record NSRecord : Type :=
  {
    NSRecord_commonFields : commonFields; NSRecord_Target : string
  }.

Definition set_NSRecord_commonFields (x : commonFields) (r : NSRecord) : NSRecord :=
  {| NSRecord_commonFields := x; NSRecord_Target := NSRecord_Target r |}.

Definition set_NSRecord_Target (x : string) (r : NSRecord) : NSRecord :=
  {| NSRecord_commonFields := NSRecord_commonFields r; NSRecord_Target := x |}.

Definition NSRecord_zero : NSRecord :=
  {| NSRecord_commonFields := commonFields_zero; NSRecord_Target := "" |}.

Definition NSRecord_fields : list (json.field NSRecord) :=
  json.embed NSRecord_commonFields set_NSRecord_commonFields commonFields_fields ++
  [ json.mkField "target" NSRecord_Target set_NSRecord_Target json.store_string ].

(** models.go: [MXRecord] *)
Record MXRecord : Type :=
  {
    MXRecord_commonFields : commonFields; MXRecord_Target : string;
    MXRecord_Priority : Z
  }.

Definition set_MXRecord_commonFields (x : commonFields) (r : MXRecord) : MXRecord :=
  {| MXRecord_commonFields := x; MXRecord_Target := MXRecord_Target r;
     MXRecord_Priority := MXRecord_Priority r |}.

Definition set_MXRecord_Target (x : string) (r : MXRecord) : MXRecord :=
  {| MXRecord_commonFields := MXRecord_commonFields r; MXRecord_Target := x;
     MXRecord_Priority := MXRecord_Priority r |}.

Definition set_MXRecord_Priority (x : Z) (r : MXRecord) : MXRecord :=
  {| MXRecord_commonFields := MXRecord_commonFields r;
     MXRecord_Target := MXRecord_Target r; MXRecord_Priority := x |}.

Definition MXRecord_zero : MXRecord :=
  {| MXRecord_commonFields := commonFields_zero; MXRecord_Target := "";
     MXRecord_Priority := 0%Z |}.

Definition MXRecord_fields : list (json.field MXRecord) :=
  json.embed MXRecord_commonFields set_MXRecord_commonFields commonFields_fields ++
  [ json.mkField "target" MXRecord_Target set_MXRecord_Target json.store_string;
    json.mkField "priority" MXRecord_Priority set_MXRecord_Priority json.store_int ].

(** models.go: [MDRecord] *)
Record MDRecord : Type :=
  {
    MDRecord_commonFields : commonFields; MDRecord_AdditionalName : string;
    MDRecord_MailAgent : string
  }.

Definition set_MDRecord_commonFields (x : commonFields) (r : MDRecord) : MDRecord :=
  {| MDRecord_commonFields := x; MDRecord_AdditionalName := MDRecord_AdditionalName r;
     MDRecord_MailAgent := MDRecord_MailAgent r |}.

Definition set_MDRecord_AdditionalName (x : string) (r : MDRecord) : MDRecord :=
  {| MDRecord_commonFields := MDRecord_commonFields r; MDRecord_AdditionalName := x;
     MDRecord_MailAgent := MDRecord_MailAgent r |}.

Definition set_MDRecord_MailAgent (x : string) (r : MDRecord) : MDRecord :=
  {| MDRecord_commonFields := MDRecord_commonFields r;
     MDRecord_AdditionalName := MDRecord_AdditionalName r; MDRecord_MailAgent := x |}.

Definition MDRecord_zero : MDRecord :=
  {| MDRecord_commonFields := commonFields_zero; MDRecord_AdditionalName := "";
     MDRecord_MailAgent := "" |}.

Definition MDRecord_fields : list (json.field MDRecord) :=
  json.embed MDRecord_commonFields set_MDRecord_commonFields commonFields_fields ++
  [ json.mkField "additionalName" MDRecord_AdditionalName set_MDRecord_AdditionalName json.store_string;
    json.mkField "mailAgent" MDRecord_MailAgent set_MDRecord_MailAgent json.store_string ].

(** models.go: [MFRecord] *)
Record MFRecord : Type :=
  {
    MFRecord_commonFields : commonFields; MFRecord_AdditionalName : string;
    MFRecord_MailAgent : string
  }.

Definition set_MFRecord_commonFields (x : commonFields) (r : MFRecord) : MFRecord :=
  {| MFRecord_commonFields := x; MFRecord_AdditionalName := MFRecord_AdditionalName r;
     MFRecord_MailAgent := MFRecord_MailAgent r |}.

Definition set_MFRecord_AdditionalName (x : string) (r : MFRecord) : MFRecord :=
  {| MFRecord_commonFields := MFRecord_commonFields r; MFRecord_AdditionalName := x;
     MFRecord_MailAgent := MFRecord_MailAgent r |}.

Definition set_MFRecord_MailAgent (x : string) (r : MFRecord) : MFRecord :=
  {| MFRecord_commonFields := MFRecord_commonFields r;
     MFRecord_AdditionalName := MFRecord_AdditionalName r; MFRecord_MailAgent := x |}.

Definition MFRecord_zero : MFRecord :=
  {| MFRecord_commonFields := commonFields_zero; MFRecord_AdditionalName := "";
     MFRecord_MailAgent := "" |}.

Definition MFRecord_fields : list (json.field MFRecord) :=
  json.embed MFRecord_commonFields set_MFRecord_commonFields commonFields_fields ++
  [ json.mkField "additionalName" MFRecord_AdditionalName set_MFRecord_AdditionalName json.store_string;
    json.mkField "mailAgent" MFRecord_MailAgent set_MFRecord_MailAgent json.store_string ].

(** models.go: [MBRecord] *)
Record MBRecord : Type :=
  {
    MBRecord_commonFields : commonFields; MBRecord_AdditionalName : string;
    MBRecord_Mailbox : string
  }.

Definition set_MBRecord_commonFields (x : commonFields) (r : MBRecord) : MBRecord :=
  {| MBRecord_commonFields := x; MBRecord_AdditionalName := MBRecord_AdditionalName r;
     MBRecord_Mailbox := MBRecord_Mailbox r |}.

Definition set_MBRecord_AdditionalName (x : string) (r : MBRecord) : MBRecord :=
  {| MBRecord_commonFields := MBRecord_commonFields r; MBRecord_AdditionalName := x;
     MBRecord_Mailbox := MBRecord_Mailbox r |}.

Definition set_MBRecord_Mailbox (x : string) (r : MBRecord) : MBRecord :=
  {| MBRecord_commonFields := MBRecord_commonFields r;
     MBRecord_AdditionalName := MBRecord_AdditionalName r; MBRecord_Mailbox := x |}.

Definition MBRecord_zero : MBRecord :=
  {| MBRecord_commonFields := commonFields_zero; MBRecord_AdditionalName := "";
     MBRecord_Mailbox := "" |}.

Definition MBRecord_fields : list (json.field MBRecord) :=
  json.embed MBRecord_commonFields set_MBRecord_commonFields commonFields_fields ++
  [ json.mkField "additionalName" MBRecord_AdditionalName set_MBRecord_AdditionalName json.store_string;
    json.mkField "mailbox" MBRecord_Mailbox set_MBRecord_Mailbox json.store_string ].

(** models.go: [SOARecord] *)
Record SOARecord : Type :=
  {
    SOARecord_commonFields : commonFields; SOARecord_Admin : string;
    SOARecord_Host : string; SOARecord_Expire : Z; SOARecord_Minimum : Z;
    SOARecord_Refresh : Z; SOARecord_Retry : Z; SOARecord_Serial : Z
  }.

Definition set_SOARecord_commonFields (x : commonFields) (r : SOARecord) : SOARecord :=
  {| SOARecord_commonFields := x; SOARecord_Admin := SOARecord_Admin r;
     SOARecord_Host := SOARecord_Host r; SOARecord_Expire := SOARecord_Expire r;
     SOARecord_Minimum := SOARecord_Minimum r; SOARecord_Refresh := SOARecord_Refresh r;
     SOARecord_Retry := SOARecord_Retry r; SOARecord_Serial := SOARecord_Serial r |}.

Definition set_SOARecord_Admin (x : string) (r : SOARecord) : SOARecord :=
  {| SOARecord_commonFields := SOARecord_commonFields r; SOARecord_Admin := x;
     SOARecord_Host := SOARecord_Host r; SOARecord_Expire := SOARecord_Expire r;
     SOARecord_Minimum := SOARecord_Minimum r; SOARecord_Refresh := SOARecord_Refresh r;
     SOARecord_Retry := SOARecord_Retry r; SOARecord_Serial := SOARecord_Serial r |}.

Definition set_SOARecord_Host (x : string) (r : SOARecord) : SOARecord :=
  {| SOARecord_commonFields := SOARecord_commonFields r;
     SOARecord_Admin := SOARecord_Admin r; SOARecord_Host := x;
     SOARecord_Expire := SOARecord_Expire r; SOARecord_Minimum := SOARecord_Minimum r;
     SOARecord_Refresh := SOARecord_Refresh r; SOARecord_Retry := SOARecord_Retry r;
     SOARecord_Serial := SOARecord_Serial r |}.

Definition set_SOARecord_Expire (x : Z) (r : SOARecord) : SOARecord :=
  {| SOARecord_commonFields := SOARecord_commonFields r;
     SOARecord_Admin := SOARecord_Admin r; SOARecord_Host := SOARecord_Host r;
     SOARecord_Expire := x; SOARecord_Minimum := SOARecord_Minimum r;
     SOARecord_Refresh := SOARecord_Refresh r; SOARecord_Retry := SOARecord_Retry r;
     SOARecord_Serial := SOARecord_Serial r |}.

Definition set_SOARecord_Minimum (x : Z) (r : SOARecord) : SOARecord :=
  {| SOARecord_commonFields := SOARecord_commonFields r;
     SOARecord_Admin := SOARecord_Admin r; SOARecord_Host := SOARecord_Host r;
     SOARecord_Expire := SOARecord_Expire r; SOARecord_Minimum := x;
     SOARecord_Refresh := SOARecord_Refresh r; SOARecord_Retry := SOARecord_Retry r;
     SOARecord_Serial := SOARecord_Serial r |}.

Definition set_SOARecord_Refresh (x : Z) (r : SOARecord) : SOARecord :=
  {| SOARecord_commonFields := SOARecord_commonFields r;
     SOARecord_Admin := SOARecord_Admin r; SOARecord_Host := SOARecord_Host r;
     SOARecord_Expire := SOARecord_Expire r; SOARecord_Minimum := SOARecord_Minimum r;
     SOARecord_Refresh := x; SOARecord_Retry := SOARecord_Retry r;
     SOARecord_Serial := SOARecord_Serial r |}.

Definition set_SOARecord_Retry (x : Z) (r : SOARecord) : SOARecord :=
  {| SOARecord_commonFields := SOARecord_commonFields r;
     SOARecord_Admin := SOARecord_Admin r; SOARecord_Host := SOARecord_Host r;
     SOARecord_Expire := SOARecord_Expire r; SOARecord_Minimum := SOARecord_Minimum r;
     SOARecord_Refresh := SOARecord_Refresh r; SOARecord_Retry := x;
     SOARecord_Serial := SOARecord_Serial r |}.

Definition set_SOARecord_Serial (x : Z) (r : SOARecord) : SOARecord :=
  {| SOARecord_commonFields := SOARecord_commonFields r;
     SOARecord_Admin := SOARecord_Admin r; SOARecord_Host := SOARecord_Host r;
     SOARecord_Expire := SOARecord_Expire r; SOARecord_Minimum := SOARecord_Minimum r;
     SOARecord_Refresh := SOARecord_Refresh r; SOARecord_Retry := SOARecord_Retry r;
     SOARecord_Serial := x |}.

Definition SOARecord_zero : SOARecord :=
  {| SOARecord_commonFields := commonFields_zero; SOARecord_Admin := "";
     SOARecord_Host := ""; SOARecord_Expire := 0%Z; SOARecord_Minimum := 0%Z;
     SOARecord_Refresh := 0%Z; SOARecord_Retry := 0%Z; SOARecord_Serial := 0%Z |}.

Definition SOARecord_fields : list (json.field SOARecord) :=
  json.embed SOARecord_commonFields set_SOARecord_commonFields commonFields_fields ++
  [ json.mkField "admin" SOARecord_Admin set_SOARecord_Admin json.store_string;
    json.mkField "host" SOARecord_Host set_SOARecord_Host json.store_string;
    json.mkField "expire" SOARecord_Expire set_SOARecord_Expire json.store_int;
    json.mkField "minimum" SOARecord_Minimum set_SOARecord_Minimum json.store_int;
    json.mkField "refresh" SOARecord_Refresh set_SOARecord_Refresh json.store_int;
    json.mkField "retry" SOARecord_Retry set_SOARecord_Retry json.store_int;
    json.mkField "serial" SOARecord_Serial set_SOARecord_Serial json.store_int ].

(** models.go: [TXTRecord] *)
Record TXTRecord : Type :=
  {
    TXTRecord_commonFields : commonFields; TXTRecord_Strings : list string
  }.

Definition set_TXTRecord_commonFields (x : commonFields) (r : TXTRecord) : TXTRecord :=
  {| TXTRecord_commonFields := x; TXTRecord_Strings := TXTRecord_Strings r |}.

Definition set_TXTRecord_Strings (x : list string) (r : TXTRecord) : TXTRecord :=
  {| TXTRecord_commonFields := TXTRecord_commonFields r; TXTRecord_Strings := x |}.

Definition TXTRecord_zero : TXTRecord :=
  {| TXTRecord_commonFields := commonFields_zero; TXTRecord_Strings := [] |}.

Definition TXTRecord_fields : list (json.field TXTRecord) :=
  json.embed TXTRecord_commonFields set_TXTRecord_commonFields commonFields_fields ++
  [ json.mkField "strings" TXTRecord_Strings set_TXTRecord_Strings (json.store_slice json.store_string "") ].

(** models.go: [CAARecord] *)
Record CAARecord : Type :=
  {
    CAARecord_commonFields : commonFields; CAARecord_Flags : Z; CAARecord_Tag : string;
    CAARecord_Value : string
  }.

Definition set_CAARecord_commonFields (x : commonFields) (r : CAARecord) : CAARecord :=
  {| CAARecord_commonFields := x; CAARecord_Flags := CAARecord_Flags r;
     CAARecord_Tag := CAARecord_Tag r; CAARecord_Value := CAARecord_Value r |}.

Definition set_CAARecord_Flags (x : Z) (r : CAARecord) : CAARecord :=
  {| CAARecord_commonFields := CAARecord_commonFields r; CAARecord_Flags := x;
     CAARecord_Tag := CAARecord_Tag r; CAARecord_Value := CAARecord_Value r |}.

Definition set_CAARecord_Tag (x : string) (r : CAARecord) : CAARecord :=
  {| CAARecord_commonFields := CAARecord_commonFields r;
     CAARecord_Flags := CAARecord_Flags r; CAARecord_Tag := x;
     CAARecord_Value := CAARecord_Value r |}.

Definition set_CAARecord_Value (x : string) (r : CAARecord) : CAARecord :=
  {| CAARecord_commonFields := CAARecord_commonFields r;
     CAARecord_Flags := CAARecord_Flags r; CAARecord_Tag := CAARecord_Tag r;
     CAARecord_Value := x |}.

Definition CAARecord_zero : CAARecord :=
  {| CAARecord_commonFields := commonFields_zero; CAARecord_Flags := 0%Z;
     CAARecord_Tag := ""; CAARecord_Value := "" |}.

Definition CAARecord_fields : list (json.field CAARecord) :=
  json.embed CAARecord_commonFields set_CAARecord_commonFields commonFields_fields ++
  [ json.mkField "flags" CAARecord_Flags set_CAARecord_Flags json.store_int;
    json.mkField "tag" CAARecord_Tag set_CAARecord_Tag json.store_string;
    json.mkField "value" CAARecord_Value set_CAARecord_Value json.store_string ].

(** models.go: [CNAMERecord] *)
Record CNAMERecord : Type :=
  {
    CNAMERecord_commonFields : commonFields; CNAMERecord_Alias : string;
    CNAMERecord_Target : string
  }.

Definition set_CNAMERecord_commonFields (x : commonFields) (r : CNAMERecord) : CNAMERecord :=
  {| CNAMERecord_commonFields := x; CNAMERecord_Alias := CNAMERecord_Alias r;
     CNAMERecord_Target := CNAMERecord_Target r |}.

Definition set_CNAMERecord_Alias (x : string) (r : CNAMERecord) : CNAMERecord :=
  {| CNAMERecord_commonFields := CNAMERecord_commonFields r; CNAMERecord_Alias := x;
     CNAMERecord_Target := CNAMERecord_Target r |}.

Definition set_CNAMERecord_Target (x : string) (r : CNAMERecord) : CNAMERecord :=
  {| CNAMERecord_commonFields := CNAMERecord_commonFields r;
     CNAMERecord_Alias := CNAMERecord_Alias r; CNAMERecord_Target := x |}.

Definition CNAMERecord_zero : CNAMERecord :=
  {| CNAMERecord_commonFields := commonFields_zero; CNAMERecord_Alias := "";
     CNAMERecord_Target := "" |}.

Definition CNAMERecord_fields : list (json.field CNAMERecord) :=
  json.embed CNAMERecord_commonFields set_CNAMERecord_commonFields commonFields_fields ++
  [ json.mkField "alias" CNAMERecord_Alias set_CNAMERecord_Alias json.store_string;
    json.mkField "target" CNAMERecord_Target set_CNAMERecord_Target json.store_string ].

(** models.go: [DNAMERecord] *)
Record DNAMERecord : Type :=
  {
    DNAMERecord_commonFields : commonFields; DNAMERecord_Alias : string;
    DNAMERecord_Target : string
  }.

Definition set_DNAMERecord_commonFields (x : commonFields) (r : DNAMERecord) : DNAMERecord :=
  {| DNAMERecord_commonFields := x; DNAMERecord_Alias := DNAMERecord_Alias r;
     DNAMERecord_Target := DNAMERecord_Target r |}.

Definition set_DNAMERecord_Alias (x : string) (r : DNAMERecord) : DNAMERecord :=
  {| DNAMERecord_commonFields := DNAMERecord_commonFields r; DNAMERecord_Alias := x;
     DNAMERecord_Target := DNAMERecord_Target r |}.

Definition set_DNAMERecord_Target (x : string) (r : DNAMERecord) : DNAMERecord :=
  {| DNAMERecord_commonFields := DNAMERecord_commonFields r;
     DNAMERecord_Alias := DNAMERecord_Alias r; DNAMERecord_Target := x |}.

Definition DNAMERecord_zero : DNAMERecord :=
  {| DNAMERecord_commonFields := commonFields_zero; DNAMERecord_Alias := "";
     DNAMERecord_Target := "" |}.

Definition DNAMERecord_fields : list (json.field DNAMERecord) :=
  json.embed DNAMERecord_commonFields set_DNAMERecord_commonFields commonFields_fields ++
  [ json.mkField "alias" DNAMERecord_Alias set_DNAMERecord_Alias json.store_string;
    json.mkField "target" DNAMERecord_Target set_DNAMERecord_Target json.store_string ].

(** models.go: [DNSKEYRecord] *)
Record DNSKEYRecord : Type :=
  {
    DNSKEYRecord_commonFields : commonFields; DNSKEYRecord_Algorithm : Z;
    DNSKEYRecord_Flags : Z; DNSKEYRecord_Footprint : Z; DNSKEYRecord_Key : list string;
    DNSKEYRecord_Protocol : Z; DNSKEYRecord_PublicKey : string
  }.

Definition set_DNSKEYRecord_commonFields (x : commonFields) (r : DNSKEYRecord) : DNSKEYRecord :=
  {| DNSKEYRecord_commonFields := x; DNSKEYRecord_Algorithm := DNSKEYRecord_Algorithm r;
     DNSKEYRecord_Flags := DNSKEYRecord_Flags r;
     DNSKEYRecord_Footprint := DNSKEYRecord_Footprint r;
     DNSKEYRecord_Key := DNSKEYRecord_Key r;
     DNSKEYRecord_Protocol := DNSKEYRecord_Protocol r;
     DNSKEYRecord_PublicKey := DNSKEYRecord_PublicKey r |}.

Definition set_DNSKEYRecord_Algorithm (x : Z) (r : DNSKEYRecord) : DNSKEYRecord :=
  {| DNSKEYRecord_commonFields := DNSKEYRecord_commonFields r;
     DNSKEYRecord_Algorithm := x; DNSKEYRecord_Flags := DNSKEYRecord_Flags r;
     DNSKEYRecord_Footprint := DNSKEYRecord_Footprint r;
     DNSKEYRecord_Key := DNSKEYRecord_Key r;
     DNSKEYRecord_Protocol := DNSKEYRecord_Protocol r;
     DNSKEYRecord_PublicKey := DNSKEYRecord_PublicKey r |}.

Definition set_DNSKEYRecord_Flags (x : Z) (r : DNSKEYRecord) : DNSKEYRecord :=
  {| DNSKEYRecord_commonFields := DNSKEYRecord_commonFields r;
     DNSKEYRecord_Algorithm := DNSKEYRecord_Algorithm r; DNSKEYRecord_Flags := x;
     DNSKEYRecord_Footprint := DNSKEYRecord_Footprint r;
     DNSKEYRecord_Key := DNSKEYRecord_Key r;
     DNSKEYRecord_Protocol := DNSKEYRecord_Protocol r;
     DNSKEYRecord_PublicKey := DNSKEYRecord_PublicKey r |}.

Definition set_DNSKEYRecord_Footprint (x : Z) (r : DNSKEYRecord) : DNSKEYRecord :=
  {| DNSKEYRecord_commonFields := DNSKEYRecord_commonFields r;
     DNSKEYRecord_Algorithm := DNSKEYRecord_Algorithm r;
     DNSKEYRecord_Flags := DNSKEYRecord_Flags r; DNSKEYRecord_Footprint := x;
     DNSKEYRecord_Key := DNSKEYRecord_Key r;
     DNSKEYRecord_Protocol := DNSKEYRecord_Protocol r;
     DNSKEYRecord_PublicKey := DNSKEYRecord_PublicKey r |}.

Definition set_DNSKEYRecord_Key (x : list string) (r : DNSKEYRecord) : DNSKEYRecord :=
  {| DNSKEYRecord_commonFields := DNSKEYRecord_commonFields r;
     DNSKEYRecord_Algorithm := DNSKEYRecord_Algorithm r;
     DNSKEYRecord_Flags := DNSKEYRecord_Flags r;
     DNSKEYRecord_Footprint := DNSKEYRecord_Footprint r; DNSKEYRecord_Key := x;
     DNSKEYRecord_Protocol := DNSKEYRecord_Protocol r;
     DNSKEYRecord_PublicKey := DNSKEYRecord_PublicKey r |}.

Definition set_DNSKEYRecord_Protocol (x : Z) (r : DNSKEYRecord) : DNSKEYRecord :=
  {| DNSKEYRecord_commonFields := DNSKEYRecord_commonFields r;
     DNSKEYRecord_Algorithm := DNSKEYRecord_Algorithm r;
     DNSKEYRecord_Flags := DNSKEYRecord_Flags r;
     DNSKEYRecord_Footprint := DNSKEYRecord_Footprint r;
     DNSKEYRecord_Key := DNSKEYRecord_Key r; DNSKEYRecord_Protocol := x;
     DNSKEYRecord_PublicKey := DNSKEYRecord_PublicKey r |}.

Definition set_DNSKEYRecord_PublicKey (x : string) (r : DNSKEYRecord) : DNSKEYRecord :=
  {| DNSKEYRecord_commonFields := DNSKEYRecord_commonFields r;
     DNSKEYRecord_Algorithm := DNSKEYRecord_Algorithm r;
     DNSKEYRecord_Flags := DNSKEYRecord_Flags r;
     DNSKEYRecord_Footprint := DNSKEYRecord_Footprint r;
     DNSKEYRecord_Key := DNSKEYRecord_Key r;
     DNSKEYRecord_Protocol := DNSKEYRecord_Protocol r; DNSKEYRecord_PublicKey := x |}.

Definition DNSKEYRecord_zero : DNSKEYRecord :=
  {| DNSKEYRecord_commonFields := commonFields_zero; DNSKEYRecord_Algorithm := 0%Z;
     DNSKEYRecord_Flags := 0%Z; DNSKEYRecord_Footprint := 0%Z; DNSKEYRecord_Key := [];
     DNSKEYRecord_Protocol := 0%Z; DNSKEYRecord_PublicKey := "" |}.

Definition DNSKEYRecord_fields : list (json.field DNSKEYRecord) :=
  json.embed DNSKEYRecord_commonFields set_DNSKEYRecord_commonFields commonFields_fields ++
  [ json.mkField "algorithm" DNSKEYRecord_Algorithm set_DNSKEYRecord_Algorithm json.store_int;
    json.mkField "flags" DNSKEYRecord_Flags set_DNSKEYRecord_Flags json.store_int;
    json.mkField "footprint" DNSKEYRecord_Footprint set_DNSKEYRecord_Footprint json.store_int;
    json.mkField "key" DNSKEYRecord_Key set_DNSKEYRecord_Key (json.store_slice json.store_string "");
    json.mkField "protocol" DNSKEYRecord_Protocol set_DNSKEYRecord_Protocol json.store_int;
    json.mkField "publicKey" DNSKEYRecord_PublicKey set_DNSKEYRecord_PublicKey json.store_string ].

(** models.go: [NSEC3PARAMRecord] *)
Record NSEC3PARAMRecord : Type :=
  {
    NSEC3PARAMRecord_commonFields : commonFields; NSEC3PARAMRecord_Flags : Z;
    NSEC3PARAMRecord_HashAlgorithm : Z; NSEC3PARAMRecord_Iterations : Z;
    NSEC3PARAMRecord_Salt : list string
  }.

Definition set_NSEC3PARAMRecord_commonFields (x : commonFields) (r : NSEC3PARAMRecord) : NSEC3PARAMRecord :=
  {| NSEC3PARAMRecord_commonFields := x;
     NSEC3PARAMRecord_Flags := NSEC3PARAMRecord_Flags r;
     NSEC3PARAMRecord_HashAlgorithm := NSEC3PARAMRecord_HashAlgorithm r;
     NSEC3PARAMRecord_Iterations := NSEC3PARAMRecord_Iterations r;
     NSEC3PARAMRecord_Salt := NSEC3PARAMRecord_Salt r |}.

Definition set_NSEC3PARAMRecord_Flags (x : Z) (r : NSEC3PARAMRecord) : NSEC3PARAMRecord :=
  {| NSEC3PARAMRecord_commonFields := NSEC3PARAMRecord_commonFields r;
     NSEC3PARAMRecord_Flags := x;
     NSEC3PARAMRecord_HashAlgorithm := NSEC3PARAMRecord_HashAlgorithm r;
     NSEC3PARAMRecord_Iterations := NSEC3PARAMRecord_Iterations r;
     NSEC3PARAMRecord_Salt := NSEC3PARAMRecord_Salt r |}.

Definition set_NSEC3PARAMRecord_HashAlgorithm (x : Z) (r : NSEC3PARAMRecord) : NSEC3PARAMRecord :=
  {| NSEC3PARAMRecord_commonFields := NSEC3PARAMRecord_commonFields r;
     NSEC3PARAMRecord_Flags := NSEC3PARAMRecord_Flags r;
     NSEC3PARAMRecord_HashAlgorithm := x;
     NSEC3PARAMRecord_Iterations := NSEC3PARAMRecord_Iterations r;
     NSEC3PARAMRecord_Salt := NSEC3PARAMRecord_Salt r |}.

Definition set_NSEC3PARAMRecord_Iterations (x : Z) (r : NSEC3PARAMRecord) : NSEC3PARAMRecord :=
  {| NSEC3PARAMRecord_commonFields := NSEC3PARAMRecord_commonFields r;
     NSEC3PARAMRecord_Flags := NSEC3PARAMRecord_Flags r;
     NSEC3PARAMRecord_HashAlgorithm := NSEC3PARAMRecord_HashAlgorithm r;
     NSEC3PARAMRecord_Iterations := x; NSEC3PARAMRecord_Salt := NSEC3PARAMRecord_Salt r |}.

Definition set_NSEC3PARAMRecord_Salt (x : list string) (r : NSEC3PARAMRecord) : NSEC3PARAMRecord :=
  {| NSEC3PARAMRecord_commonFields := NSEC3PARAMRecord_commonFields r;
     NSEC3PARAMRecord_Flags := NSEC3PARAMRecord_Flags r;
     NSEC3PARAMRecord_HashAlgorithm := NSEC3PARAMRecord_HashAlgorithm r;
     NSEC3PARAMRecord_Iterations := NSEC3PARAMRecord_Iterations r;
     NSEC3PARAMRecord_Salt := x |}.

Definition NSEC3PARAMRecord_zero : NSEC3PARAMRecord :=
  {| NSEC3PARAMRecord_commonFields := commonFields_zero; NSEC3PARAMRecord_Flags := 0%Z;
     NSEC3PARAMRecord_HashAlgorithm := 0%Z; NSEC3PARAMRecord_Iterations := 0%Z;
     NSEC3PARAMRecord_Salt := [] |}.

Definition NSEC3PARAMRecord_fields : list (json.field NSEC3PARAMRecord) :=
  json.embed NSEC3PARAMRecord_commonFields set_NSEC3PARAMRecord_commonFields commonFields_fields ++
  [ json.mkField "flags" NSEC3PARAMRecord_Flags set_NSEC3PARAMRecord_Flags json.store_int;
    json.mkField "hashAlgorithm" NSEC3PARAMRecord_HashAlgorithm set_NSEC3PARAMRecord_HashAlgorithm json.store_int;
    json.mkField "iterations" NSEC3PARAMRecord_Iterations set_NSEC3PARAMRecord_Iterations json.store_int;
    json.mkField "salt" NSEC3PARAMRecord_Salt set_NSEC3PARAMRecord_Salt (json.store_slice json.store_string "") ].

(** models.go: [DSRecord] *)
Record DSRecord : Type :=
  {
    DSRecord_commonFields : commonFields; DSRecord_Algorithm : Z;
    DSRecord_Digest : list string; DSRecord_DigestID : Z; DSRecord_Footprint : Z
  }.

Definition set_DSRecord_commonFields (x : commonFields) (r : DSRecord) : DSRecord :=
  {| DSRecord_commonFields := x; DSRecord_Algorithm := DSRecord_Algorithm r;
     DSRecord_Digest := DSRecord_Digest r; DSRecord_DigestID := DSRecord_DigestID r;
     DSRecord_Footprint := DSRecord_Footprint r |}.

Definition set_DSRecord_Algorithm (x : Z) (r : DSRecord) : DSRecord :=
  {| DSRecord_commonFields := DSRecord_commonFields r; DSRecord_Algorithm := x;
     DSRecord_Digest := DSRecord_Digest r; DSRecord_DigestID := DSRecord_DigestID r;
     DSRecord_Footprint := DSRecord_Footprint r |}.

Definition set_DSRecord_Digest (x : list string) (r : DSRecord) : DSRecord :=
  {| DSRecord_commonFields := DSRecord_commonFields r;
     DSRecord_Algorithm := DSRecord_Algorithm r; DSRecord_Digest := x;
     DSRecord_DigestID := DSRecord_DigestID r;
     DSRecord_Footprint := DSRecord_Footprint r |}.

Definition set_DSRecord_DigestID (x : Z) (r : DSRecord) : DSRecord :=
  {| DSRecord_commonFields := DSRecord_commonFields r;
     DSRecord_Algorithm := DSRecord_Algorithm r; DSRecord_Digest := DSRecord_Digest r;
     DSRecord_DigestID := x; DSRecord_Footprint := DSRecord_Footprint r |}.

Definition set_DSRecord_Footprint (x : Z) (r : DSRecord) : DSRecord :=
  {| DSRecord_commonFields := DSRecord_commonFields r;
     DSRecord_Algorithm := DSRecord_Algorithm r; DSRecord_Digest := DSRecord_Digest r;
     DSRecord_DigestID := DSRecord_DigestID r; DSRecord_Footprint := x |}.

Definition DSRecord_zero : DSRecord :=
  {| DSRecord_commonFields := commonFields_zero; DSRecord_Algorithm := 0%Z;
     DSRecord_Digest := []; DSRecord_DigestID := 0%Z; DSRecord_Footprint := 0%Z |}.

Definition DSRecord_fields : list (json.field DSRecord) :=
  json.embed DSRecord_commonFields set_DSRecord_commonFields commonFields_fields ++
  [ json.mkField "algorithm" DSRecord_Algorithm set_DSRecord_Algorithm json.store_int;
    json.mkField "digest" DSRecord_Digest set_DSRecord_Digest (json.store_slice json.store_string "");
    json.mkField "digestID" DSRecord_DigestID set_DSRecord_DigestID json.store_int;
    json.mkField "footprint" DSRecord_Footprint set_DSRecord_Footprint json.store_int ].

(** models.go: [NSECRecord] *)
Record NSECRecord : Type :=
  {
    NSECRecord_commonFields : commonFields; NSECRecord_Next : string;
    NSECRecord_Types : list Z
  }.

Definition set_NSECRecord_commonFields (x : commonFields) (r : NSECRecord) : NSECRecord :=
  {| NSECRecord_commonFields := x; NSECRecord_Next := NSECRecord_Next r;
     NSECRecord_Types := NSECRecord_Types r |}.

Definition set_NSECRecord_Next (x : string) (r : NSECRecord) : NSECRecord :=
  {| NSECRecord_commonFields := NSECRecord_commonFields r; NSECRecord_Next := x;
     NSECRecord_Types := NSECRecord_Types r |}.

Definition set_NSECRecord_Types (x : list Z) (r : NSECRecord) : NSECRecord :=
  {| NSECRecord_commonFields := NSECRecord_commonFields r;
     NSECRecord_Next := NSECRecord_Next r; NSECRecord_Types := x |}.

Definition NSECRecord_zero : NSECRecord :=
  {| NSECRecord_commonFields := commonFields_zero; NSECRecord_Next := "";
     NSECRecord_Types := [] |}.

Definition NSECRecord_fields : list (json.field NSECRecord) :=
  json.embed NSECRecord_commonFields set_NSECRecord_commonFields commonFields_fields ++
  [ json.mkField "next" NSECRecord_Next set_NSECRecord_Next json.store_string;
    json.mkField "types" NSECRecord_Types set_NSECRecord_Types (json.store_slice json.store_int 0%Z) ].

(** models.go: [PTRRecord] *)
Record PTRRecord : Type :=
  {
    PTRRecord_commonFields : commonFields; PTRRecord_Target : string
  }.

Definition set_PTRRecord_commonFields (x : commonFields) (r : PTRRecord) : PTRRecord :=
  {| PTRRecord_commonFields := x; PTRRecord_Target := PTRRecord_Target r |}.

Definition set_PTRRecord_Target (x : string) (r : PTRRecord) : PTRRecord :=
  {| PTRRecord_commonFields := PTRRecord_commonFields r; PTRRecord_Target := x |}.

Definition PTRRecord_zero : PTRRecord :=
  {| PTRRecord_commonFields := commonFields_zero; PTRRecord_Target := "" |}.

Definition PTRRecord_fields : list (json.field PTRRecord) :=
  json.embed PTRRecord_commonFields set_PTRRecord_commonFields commonFields_fields ++
  [ json.mkField "target" PTRRecord_Target set_PTRRecord_Target json.store_string ].

(** models.go: [SRVRecord] *)
Record SRVRecord : Type :=
  {
    SRVRecord_commonFields : commonFields; SRVRecord_Port : Z; SRVRecord_Priority : Z;
    SRVRecord_Target : string; SRVRecord_Weight : Z
  }.

Definition set_SRVRecord_commonFields (x : commonFields) (r : SRVRecord) : SRVRecord :=
  {| SRVRecord_commonFields := x; SRVRecord_Port := SRVRecord_Port r;
     SRVRecord_Priority := SRVRecord_Priority r; SRVRecord_Target := SRVRecord_Target r;
     SRVRecord_Weight := SRVRecord_Weight r |}.

Definition set_SRVRecord_Port (x : Z) (r : SRVRecord) : SRVRecord :=
  {| SRVRecord_commonFields := SRVRecord_commonFields r; SRVRecord_Port := x;
     SRVRecord_Priority := SRVRecord_Priority r; SRVRecord_Target := SRVRecord_Target r;
     SRVRecord_Weight := SRVRecord_Weight r |}.

Definition set_SRVRecord_Priority (x : Z) (r : SRVRecord) : SRVRecord :=
  {| SRVRecord_commonFields := SRVRecord_commonFields r;
     SRVRecord_Port := SRVRecord_Port r; SRVRecord_Priority := x;
     SRVRecord_Target := SRVRecord_Target r; SRVRecord_Weight := SRVRecord_Weight r |}.

Definition set_SRVRecord_Target (x : string) (r : SRVRecord) : SRVRecord :=
  {| SRVRecord_commonFields := SRVRecord_commonFields r;
     SRVRecord_Port := SRVRecord_Port r; SRVRecord_Priority := SRVRecord_Priority r;
     SRVRecord_Target := x; SRVRecord_Weight := SRVRecord_Weight r |}.

Definition set_SRVRecord_Weight (x : Z) (r : SRVRecord) : SRVRecord :=
  {| SRVRecord_commonFields := SRVRecord_commonFields r;
     SRVRecord_Port := SRVRecord_Port r; SRVRecord_Priority := SRVRecord_Priority r;
     SRVRecord_Target := SRVRecord_Target r; SRVRecord_Weight := x |}.

Definition SRVRecord_zero : SRVRecord :=
  {| SRVRecord_commonFields := commonFields_zero; SRVRecord_Port := 0%Z;
     SRVRecord_Priority := 0%Z; SRVRecord_Target := ""; SRVRecord_Weight := 0%Z |}.

Definition SRVRecord_fields : list (json.field SRVRecord) :=
  json.embed SRVRecord_commonFields set_SRVRecord_commonFields commonFields_fields ++
  [ json.mkField "port" SRVRecord_Port set_SRVRecord_Port json.store_int;
    json.mkField "priority" SRVRecord_Priority set_SRVRecord_Priority json.store_int;
    json.mkField "target" SRVRecord_Target set_SRVRecord_Target json.store_string;
    json.mkField "weight" SRVRecord_Weight set_SRVRecord_Weight json.store_int ].

(** models.go: [LOCRecord] *)
Record LOCRecord : Type :=
  {
    LOCRecord_commonFields : commonFields; LOCRecord_Altitude : json.float64;
    LOCRecord_HPrecision : json.float64; LOCRecord_Latitude : json.float64;
    LOCRecord_Longitude : json.float64; LOCRecord_Size : json.float64;
    LOCRecord_VPrecision : json.float64
  }.

Definition set_LOCRecord_commonFields (x : commonFields) (r : LOCRecord) : LOCRecord :=
  {| LOCRecord_commonFields := x; LOCRecord_Altitude := LOCRecord_Altitude r;
     LOCRecord_HPrecision := LOCRecord_HPrecision r;
     LOCRecord_Latitude := LOCRecord_Latitude r;
     LOCRecord_Longitude := LOCRecord_Longitude r; LOCRecord_Size := LOCRecord_Size r;
     LOCRecord_VPrecision := LOCRecord_VPrecision r |}.

Definition set_LOCRecord_Altitude (x : json.float64) (r : LOCRecord) : LOCRecord :=
  {| LOCRecord_commonFields := LOCRecord_commonFields r; LOCRecord_Altitude := x;
     LOCRecord_HPrecision := LOCRecord_HPrecision r;
     LOCRecord_Latitude := LOCRecord_Latitude r;
     LOCRecord_Longitude := LOCRecord_Longitude r; LOCRecord_Size := LOCRecord_Size r;
     LOCRecord_VPrecision := LOCRecord_VPrecision r |}.

Definition set_LOCRecord_HPrecision (x : json.float64) (r : LOCRecord) : LOCRecord :=
  {| LOCRecord_commonFields := LOCRecord_commonFields r;
     LOCRecord_Altitude := LOCRecord_Altitude r; LOCRecord_HPrecision := x;
     LOCRecord_Latitude := LOCRecord_Latitude r;
     LOCRecord_Longitude := LOCRecord_Longitude r; LOCRecord_Size := LOCRecord_Size r;
     LOCRecord_VPrecision := LOCRecord_VPrecision r |}.

Definition set_LOCRecord_Latitude (x : json.float64) (r : LOCRecord) : LOCRecord :=
  {| LOCRecord_commonFields := LOCRecord_commonFields r;
     LOCRecord_Altitude := LOCRecord_Altitude r;
     LOCRecord_HPrecision := LOCRecord_HPrecision r; LOCRecord_Latitude := x;
     LOCRecord_Longitude := LOCRecord_Longitude r; LOCRecord_Size := LOCRecord_Size r;
     LOCRecord_VPrecision := LOCRecord_VPrecision r |}.

Definition set_LOCRecord_Longitude (x : json.float64) (r : LOCRecord) : LOCRecord :=
  {| LOCRecord_commonFields := LOCRecord_commonFields r;
     LOCRecord_Altitude := LOCRecord_Altitude r;
     LOCRecord_HPrecision := LOCRecord_HPrecision r;
     LOCRecord_Latitude := LOCRecord_Latitude r; LOCRecord_Longitude := x;
     LOCRecord_Size := LOCRecord_Size r; LOCRecord_VPrecision := LOCRecord_VPrecision r |}.

Definition set_LOCRecord_Size (x : json.float64) (r : LOCRecord) : LOCRecord :=
  {| LOCRecord_commonFields := LOCRecord_commonFields r;
     LOCRecord_Altitude := LOCRecord_Altitude r;
     LOCRecord_HPrecision := LOCRecord_HPrecision r;
     LOCRecord_Latitude := LOCRecord_Latitude r;
     LOCRecord_Longitude := LOCRecord_Longitude r; LOCRecord_Size := x;
     LOCRecord_VPrecision := LOCRecord_VPrecision r |}.

Definition set_LOCRecord_VPrecision (x : json.float64) (r : LOCRecord) : LOCRecord :=
  {| LOCRecord_commonFields := LOCRecord_commonFields r;
     LOCRecord_Altitude := LOCRecord_Altitude r;
     LOCRecord_HPrecision := LOCRecord_HPrecision r;
     LOCRecord_Latitude := LOCRecord_Latitude r;
     LOCRecord_Longitude := LOCRecord_Longitude r; LOCRecord_Size := LOCRecord_Size r;
     LOCRecord_VPrecision := x |}.

Definition LOCRecord_zero : LOCRecord :=
  {| LOCRecord_commonFields := commonFields_zero;
     LOCRecord_Altitude := (json.Float64 0 0);
     LOCRecord_HPrecision := (json.Float64 0 0);
     LOCRecord_Latitude := (json.Float64 0 0);
     LOCRecord_Longitude := (json.Float64 0 0); LOCRecord_Size := (json.Float64 0 0);
     LOCRecord_VPrecision := (json.Float64 0 0) |}.

Definition LOCRecord_fields : list (json.field LOCRecord) :=
  json.embed LOCRecord_commonFields set_LOCRecord_commonFields commonFields_fields ++
  [ json.mkField "altitude" LOCRecord_Altitude set_LOCRecord_Altitude json.store_float64;
    json.mkField "hPrecision" LOCRecord_HPrecision set_LOCRecord_HPrecision json.store_float64;
    json.mkField "latitude" LOCRecord_Latitude set_LOCRecord_Latitude json.store_float64;
    json.mkField "longitude" LOCRecord_Longitude set_LOCRecord_Longitude json.store_float64;
    json.mkField "size" LOCRecord_Size set_LOCRecord_Size json.store_float64;
    json.mkField "vPrecision" LOCRecord_VPrecision set_LOCRecord_VPrecision json.store_float64 ].

(** models.go: [NAPTRRecord] *)
Record NAPTRRecord : Type :=
  {
    NAPTRRecord_commonFields : commonFields; NAPTRRecord_Flags : string;
    NAPTRRecord_Order : Z; NAPTRRecord_Preference : Z; NAPTRRecord_Regexp : string;
    NAPTRRecord_Replacement : string; NAPTRRecord_Service : string
  }.

Definition set_NAPTRRecord_commonFields (x : commonFields) (r : NAPTRRecord) : NAPTRRecord :=
  {| NAPTRRecord_commonFields := x; NAPTRRecord_Flags := NAPTRRecord_Flags r;
     NAPTRRecord_Order := NAPTRRecord_Order r;
     NAPTRRecord_Preference := NAPTRRecord_Preference r;
     NAPTRRecord_Regexp := NAPTRRecord_Regexp r;
     NAPTRRecord_Replacement := NAPTRRecord_Replacement r;
     NAPTRRecord_Service := NAPTRRecord_Service r |}.

Definition set_NAPTRRecord_Flags (x : string) (r : NAPTRRecord) : NAPTRRecord :=
  {| NAPTRRecord_commonFields := NAPTRRecord_commonFields r; NAPTRRecord_Flags := x;
     NAPTRRecord_Order := NAPTRRecord_Order r;
     NAPTRRecord_Preference := NAPTRRecord_Preference r;
     NAPTRRecord_Regexp := NAPTRRecord_Regexp r;
     NAPTRRecord_Replacement := NAPTRRecord_Replacement r;
     NAPTRRecord_Service := NAPTRRecord_Service r |}.

Definition set_NAPTRRecord_Order (x : Z) (r : NAPTRRecord) : NAPTRRecord :=
  {| NAPTRRecord_commonFields := NAPTRRecord_commonFields r;
     NAPTRRecord_Flags := NAPTRRecord_Flags r; NAPTRRecord_Order := x;
     NAPTRRecord_Preference := NAPTRRecord_Preference r;
     NAPTRRecord_Regexp := NAPTRRecord_Regexp r;
     NAPTRRecord_Replacement := NAPTRRecord_Replacement r;
     NAPTRRecord_Service := NAPTRRecord_Service r |}.

Definition set_NAPTRRecord_Preference (x : Z) (r : NAPTRRecord) : NAPTRRecord :=
  {| NAPTRRecord_commonFields := NAPTRRecord_commonFields r;
     NAPTRRecord_Flags := NAPTRRecord_Flags r; NAPTRRecord_Order := NAPTRRecord_Order r;
     NAPTRRecord_Preference := x; NAPTRRecord_Regexp := NAPTRRecord_Regexp r;
     NAPTRRecord_Replacement := NAPTRRecord_Replacement r;
     NAPTRRecord_Service := NAPTRRecord_Service r |}.

Definition set_NAPTRRecord_Regexp (x : string) (r : NAPTRRecord) : NAPTRRecord :=
  {| NAPTRRecord_commonFields := NAPTRRecord_commonFields r;
     NAPTRRecord_Flags := NAPTRRecord_Flags r; NAPTRRecord_Order := NAPTRRecord_Order r;
     NAPTRRecord_Preference := NAPTRRecord_Preference r; NAPTRRecord_Regexp := x;
     NAPTRRecord_Replacement := NAPTRRecord_Replacement r;
     NAPTRRecord_Service := NAPTRRecord_Service r |}.

Definition set_NAPTRRecord_Replacement (x : string) (r : NAPTRRecord) : NAPTRRecord :=
  {| NAPTRRecord_commonFields := NAPTRRecord_commonFields r;
     NAPTRRecord_Flags := NAPTRRecord_Flags r; NAPTRRecord_Order := NAPTRRecord_Order r;
     NAPTRRecord_Preference := NAPTRRecord_Preference r;
     NAPTRRecord_Regexp := NAPTRRecord_Regexp r; NAPTRRecord_Replacement := x;
     NAPTRRecord_Service := NAPTRRecord_Service r |}.

Definition set_NAPTRRecord_Service (x : string) (r : NAPTRRecord) : NAPTRRecord :=
  {| NAPTRRecord_commonFields := NAPTRRecord_commonFields r;
     NAPTRRecord_Flags := NAPTRRecord_Flags r; NAPTRRecord_Order := NAPTRRecord_Order r;
     NAPTRRecord_Preference := NAPTRRecord_Preference r;
     NAPTRRecord_Regexp := NAPTRRecord_Regexp r;
     NAPTRRecord_Replacement := NAPTRRecord_Replacement r; NAPTRRecord_Service := x |}.

Definition NAPTRRecord_zero : NAPTRRecord :=
  {| NAPTRRecord_commonFields := commonFields_zero; NAPTRRecord_Flags := "";
     NAPTRRecord_Order := 0%Z; NAPTRRecord_Preference := 0%Z; NAPTRRecord_Regexp := "";
     NAPTRRecord_Replacement := ""; NAPTRRecord_Service := "" |}.

Definition NAPTRRecord_fields : list (json.field NAPTRRecord) :=
  json.embed NAPTRRecord_commonFields set_NAPTRRecord_commonFields commonFields_fields ++
  [ json.mkField "flags" NAPTRRecord_Flags set_NAPTRRecord_Flags json.store_string;
    json.mkField "order" NAPTRRecord_Order set_NAPTRRecord_Order json.store_int;
    json.mkField "preference" NAPTRRecord_Preference set_NAPTRRecord_Preference json.store_int;
    json.mkField "regexp" NAPTRRecord_Regexp set_NAPTRRecord_Regexp json.store_string;
    json.mkField "replacement" NAPTRRecord_Replacement set_NAPTRRecord_Replacement json.store_string;
    json.mkField "service" NAPTRRecord_Service set_NAPTRRecord_Service json.store_string ].

(** models.go: [HINFORecord] *)
Record HINFORecord : Type :=
  {
    HINFORecord_commonFields : commonFields; HINFORecord_CPU : string;
    HINFORecord_OS : string
  }.

Definition set_HINFORecord_commonFields (x : commonFields) (r : HINFORecord) : HINFORecord :=
  {| HINFORecord_commonFields := x; HINFORecord_CPU := HINFORecord_CPU r;
     HINFORecord_OS := HINFORecord_OS r |}.

Definition set_HINFORecord_CPU (x : string) (r : HINFORecord) : HINFORecord :=
  {| HINFORecord_commonFields := HINFORecord_commonFields r; HINFORecord_CPU := x;
     HINFORecord_OS := HINFORecord_OS r |}.

Definition set_HINFORecord_OS (x : string) (r : HINFORecord) : HINFORecord :=
  {| HINFORecord_commonFields := HINFORecord_commonFields r;
     HINFORecord_CPU := HINFORecord_CPU r; HINFORecord_OS := x |}.

Definition HINFORecord_zero : HINFORecord :=
  {| HINFORecord_commonFields := commonFields_zero; HINFORecord_CPU := "";
     HINFORecord_OS := "" |}.

Definition HINFORecord_fields : list (json.field HINFORecord) :=
  json.embed HINFORecord_commonFields set_HINFORecord_commonFields commonFields_fields ++
  [ json.mkField "cpu" HINFORecord_CPU set_HINFORecord_CPU json.store_string;
    json.mkField "os" HINFORecord_OS set_HINFORecord_OS json.store_string ].

(** models.go: [RPRecord] *)
Record RPRecord : Type :=
  {
    RPRecord_commonFields : commonFields; RPRecord_Mailbox : string;
    RPRecord_TextDomain : string
  }.

Definition set_RPRecord_commonFields (x : commonFields) (r : RPRecord) : RPRecord :=
  {| RPRecord_commonFields := x; RPRecord_Mailbox := RPRecord_Mailbox r;
     RPRecord_TextDomain := RPRecord_TextDomain r |}.

Definition set_RPRecord_Mailbox (x : string) (r : RPRecord) : RPRecord :=
  {| RPRecord_commonFields := RPRecord_commonFields r; RPRecord_Mailbox := x;
     RPRecord_TextDomain := RPRecord_TextDomain r |}.

Definition set_RPRecord_TextDomain (x : string) (r : RPRecord) : RPRecord :=
  {| RPRecord_commonFields := RPRecord_commonFields r;
     RPRecord_Mailbox := RPRecord_Mailbox r; RPRecord_TextDomain := x |}.

Definition RPRecord_zero : RPRecord :=
  {| RPRecord_commonFields := commonFields_zero; RPRecord_Mailbox := "";
     RPRecord_TextDomain := "" |}.

Definition RPRecord_fields : list (json.field RPRecord) :=
  json.embed RPRecord_commonFields set_RPRecord_commonFields commonFields_fields ++
  [ json.mkField "mailbox" RPRecord_Mailbox set_RPRecord_Mailbox json.store_string;
    json.mkField "textDomain" RPRecord_TextDomain set_RPRecord_TextDomain json.store_string ].

(** models.go: [DLVRecord] *)
Record DLVRecord : Type :=
  {
    DLVRecord_commonFields : commonFields; DLVRecord_Algorithm : Z;
    DLVRecord_Digest : list string; DLVRecord_DigestID : Z; DLVRecord_Footprint : Z
  }.

Definition set_DLVRecord_commonFields (x : commonFields) (r : DLVRecord) : DLVRecord :=
  {| DLVRecord_commonFields := x; DLVRecord_Algorithm := DLVRecord_Algorithm r;
     DLVRecord_Digest := DLVRecord_Digest r; DLVRecord_DigestID := DLVRecord_DigestID r;
     DLVRecord_Footprint := DLVRecord_Footprint r |}.

Definition set_DLVRecord_Algorithm (x : Z) (r : DLVRecord) : DLVRecord :=
  {| DLVRecord_commonFields := DLVRecord_commonFields r; DLVRecord_Algorithm := x;
     DLVRecord_Digest := DLVRecord_Digest r; DLVRecord_DigestID := DLVRecord_DigestID r;
     DLVRecord_Footprint := DLVRecord_Footprint r |}.

Definition set_DLVRecord_Digest (x : list string) (r : DLVRecord) : DLVRecord :=
  {| DLVRecord_commonFields := DLVRecord_commonFields r;
     DLVRecord_Algorithm := DLVRecord_Algorithm r; DLVRecord_Digest := x;
     DLVRecord_DigestID := DLVRecord_DigestID r;
     DLVRecord_Footprint := DLVRecord_Footprint r |}.

Definition set_DLVRecord_DigestID (x : Z) (r : DLVRecord) : DLVRecord :=
  {| DLVRecord_commonFields := DLVRecord_commonFields r;
     DLVRecord_Algorithm := DLVRecord_Algorithm r;
     DLVRecord_Digest := DLVRecord_Digest r; DLVRecord_DigestID := x;
     DLVRecord_Footprint := DLVRecord_Footprint r |}.

Definition set_DLVRecord_Footprint (x : Z) (r : DLVRecord) : DLVRecord :=
  {| DLVRecord_commonFields := DLVRecord_commonFields r;
     DLVRecord_Algorithm := DLVRecord_Algorithm r;
     DLVRecord_Digest := DLVRecord_Digest r; DLVRecord_DigestID := DLVRecord_DigestID r;
     DLVRecord_Footprint := x |}.

Definition DLVRecord_zero : DLVRecord :=
  {| DLVRecord_commonFields := commonFields_zero; DLVRecord_Algorithm := 0%Z;
     DLVRecord_Digest := []; DLVRecord_DigestID := 0%Z; DLVRecord_Footprint := 0%Z |}.

Definition DLVRecord_fields : list (json.field DLVRecord) :=
  json.embed DLVRecord_commonFields set_DLVRecord_commonFields commonFields_fields ++
  [ json.mkField "algorithm" DLVRecord_Algorithm set_DLVRecord_Algorithm json.store_int;
    json.mkField "digest" DLVRecord_Digest set_DLVRecord_Digest (json.store_slice json.store_string "");
    json.mkField "digestID" DLVRecord_DigestID set_DLVRecord_DigestID json.store_int;
    json.mkField "footprint" DLVRecord_Footprint set_DLVRecord_Footprint json.store_int ].

(** models.go: [SSHFPRecord] *)
Record SSHFPRecord : Type :=
  {
    SSHFPRecord_commonFields : commonFields; SSHFPRecord_Algorithm : Z;
    SSHFPRecord_DigestType : Z; SSHFPRecord_FingerPrint : list string
  }.

Definition set_SSHFPRecord_commonFields (x : commonFields) (r : SSHFPRecord) : SSHFPRecord :=
  {| SSHFPRecord_commonFields := x; SSHFPRecord_Algorithm := SSHFPRecord_Algorithm r;
     SSHFPRecord_DigestType := SSHFPRecord_DigestType r;
     SSHFPRecord_FingerPrint := SSHFPRecord_FingerPrint r |}.

Definition set_SSHFPRecord_Algorithm (x : Z) (r : SSHFPRecord) : SSHFPRecord :=
  {| SSHFPRecord_commonFields := SSHFPRecord_commonFields r; SSHFPRecord_Algorithm := x;
     SSHFPRecord_DigestType := SSHFPRecord_DigestType r;
     SSHFPRecord_FingerPrint := SSHFPRecord_FingerPrint r |}.

Definition set_SSHFPRecord_DigestType (x : Z) (r : SSHFPRecord) : SSHFPRecord :=
  {| SSHFPRecord_commonFields := SSHFPRecord_commonFields r;
     SSHFPRecord_Algorithm := SSHFPRecord_Algorithm r; SSHFPRecord_DigestType := x;
     SSHFPRecord_FingerPrint := SSHFPRecord_FingerPrint r |}.

Definition set_SSHFPRecord_FingerPrint (x : list string) (r : SSHFPRecord) : SSHFPRecord :=
  {| SSHFPRecord_commonFields := SSHFPRecord_commonFields r;
     SSHFPRecord_Algorithm := SSHFPRecord_Algorithm r;
     SSHFPRecord_DigestType := SSHFPRecord_DigestType r; SSHFPRecord_FingerPrint := x |}.

Definition SSHFPRecord_zero : SSHFPRecord :=
  {| SSHFPRecord_commonFields := commonFields_zero; SSHFPRecord_Algorithm := 0%Z;
     SSHFPRecord_DigestType := 0%Z; SSHFPRecord_FingerPrint := [] |}.

Definition SSHFPRecord_fields : list (json.field SSHFPRecord) :=
  json.embed SSHFPRecord_commonFields set_SSHFPRecord_commonFields commonFields_fields ++
  [ json.mkField "algorithm" SSHFPRecord_Algorithm set_SSHFPRecord_Algorithm json.store_int;
    json.mkField "digestType" SSHFPRecord_DigestType set_SSHFPRecord_DigestType json.store_int;
    json.mkField "fingerPrint" SSHFPRecord_FingerPrint set_SSHFPRecord_FingerPrint (json.store_slice json.store_string "") ].

(** models.go: [DHCIDRecord] *)
Record DHCIDRecord : Type :=
  {
    DHCIDRecord_commonFields : commonFields; DHCIDRecord_Data : list string
  }.

Definition set_DHCIDRecord_commonFields (x : commonFields) (r : DHCIDRecord) : DHCIDRecord :=
  {| DHCIDRecord_commonFields := x; DHCIDRecord_Data := DHCIDRecord_Data r |}.

Definition set_DHCIDRecord_Data (x : list string) (r : DHCIDRecord) : DHCIDRecord :=
  {| DHCIDRecord_commonFields := DHCIDRecord_commonFields r; DHCIDRecord_Data := x |}.

Definition DHCIDRecord_zero : DHCIDRecord :=
  {| DHCIDRecord_commonFields := commonFields_zero; DHCIDRecord_Data := [] |}.

Definition DHCIDRecord_fields : list (json.field DHCIDRecord) :=
  json.embed DHCIDRecord_commonFields set_DHCIDRecord_commonFields commonFields_fields ++
  [ json.mkField "data" DHCIDRecord_Data set_DHCIDRecord_Data (json.store_slice json.store_string "") ].

(** models.go: [TLSARecord] *)
Record TLSARecord : Type :=
  {
    TLSARecord_commonFields : commonFields;
    TLSARecord_CertificateAssociationData : list string;
    TLSARecord_CertificateUsage : Z; TLSARecord_MatchingType : Z;
    TLSARecord_Selector : Z
  }.

Definition set_TLSARecord_commonFields (x : commonFields) (r : TLSARecord) : TLSARecord :=
  {| TLSARecord_commonFields := x;
     TLSARecord_CertificateAssociationData := TLSARecord_CertificateAssociationData r;
     TLSARecord_CertificateUsage := TLSARecord_CertificateUsage r;
     TLSARecord_MatchingType := TLSARecord_MatchingType r;
     TLSARecord_Selector := TLSARecord_Selector r |}.

Definition set_TLSARecord_CertificateAssociationData (x : list string) (r : TLSARecord) : TLSARecord :=
  {| TLSARecord_commonFields := TLSARecord_commonFields r;
     TLSARecord_CertificateAssociationData := x;
     TLSARecord_CertificateUsage := TLSARecord_CertificateUsage r;
     TLSARecord_MatchingType := TLSARecord_MatchingType r;
     TLSARecord_Selector := TLSARecord_Selector r |}.

Definition set_TLSARecord_CertificateUsage (x : Z) (r : TLSARecord) : TLSARecord :=
  {| TLSARecord_commonFields := TLSARecord_commonFields r;
     TLSARecord_CertificateAssociationData := TLSARecord_CertificateAssociationData r;
     TLSARecord_CertificateUsage := x;
     TLSARecord_MatchingType := TLSARecord_MatchingType r;
     TLSARecord_Selector := TLSARecord_Selector r |}.

Definition set_TLSARecord_MatchingType (x : Z) (r : TLSARecord) : TLSARecord :=
  {| TLSARecord_commonFields := TLSARecord_commonFields r;
     TLSARecord_CertificateAssociationData := TLSARecord_CertificateAssociationData r;
     TLSARecord_CertificateUsage := TLSARecord_CertificateUsage r;
     TLSARecord_MatchingType := x; TLSARecord_Selector := TLSARecord_Selector r |}.

Definition set_TLSARecord_Selector (x : Z) (r : TLSARecord) : TLSARecord :=
  {| TLSARecord_commonFields := TLSARecord_commonFields r;
     TLSARecord_CertificateAssociationData := TLSARecord_CertificateAssociationData r;
     TLSARecord_CertificateUsage := TLSARecord_CertificateUsage r;
     TLSARecord_MatchingType := TLSARecord_MatchingType r; TLSARecord_Selector := x |}.

Definition TLSARecord_zero : TLSARecord :=
  {| TLSARecord_commonFields := commonFields_zero;
     TLSARecord_CertificateAssociationData := []; TLSARecord_CertificateUsage := 0%Z;
     TLSARecord_MatchingType := 0%Z; TLSARecord_Selector := 0%Z |}.

Definition TLSARecord_fields : list (json.field TLSARecord) :=
  json.embed TLSARecord_commonFields set_TLSARecord_commonFields commonFields_fields ++
  [ json.mkField "certificateAssociationData" TLSARecord_CertificateAssociationData set_TLSARecord_CertificateAssociationData (json.store_slice json.store_string "");
    json.mkField "certificateUsage" TLSARecord_CertificateUsage set_TLSARecord_CertificateUsage json.store_int;
    json.mkField "matchingType" TLSARecord_MatchingType set_TLSARecord_MatchingType json.store_int;
    json.mkField "selector" TLSARecord_Selector set_TLSARecord_Selector json.store_int ].

(** models.go: [NSAPRecord] *)
Record NSAPRecord : Type :=
  {
    NSAPRecord_commonFields : commonFields; NSAPRecord_Address : string
  }.

Definition set_NSAPRecord_commonFields (x : commonFields) (r : NSAPRecord) : NSAPRecord :=
  {| NSAPRecord_commonFields := x; NSAPRecord_Address := NSAPRecord_Address r |}.

Definition set_NSAPRecord_Address (x : string) (r : NSAPRecord) : NSAPRecord :=
  {| NSAPRecord_commonFields := NSAPRecord_commonFields r; NSAPRecord_Address := x |}.

Definition NSAPRecord_zero : NSAPRecord :=
  {| NSAPRecord_commonFields := commonFields_zero; NSAPRecord_Address := "" |}.

Definition NSAPRecord_fields : list (json.field NSAPRecord) :=
  json.embed NSAPRecord_commonFields set_NSAPRecord_commonFields commonFields_fields ++
  [ json.mkField "address" NSAPRecord_Address set_NSAPRecord_Address json.store_string ].

(** models.go: [NULLRecord] *)
Record NULLRecord : Type :=
  {
    NULLRecord_commonFields : commonFields; NULLRecord_Data : list string
  }.

Definition set_NULLRecord_commonFields (x : commonFields) (r : NULLRecord) : NULLRecord :=
  {| NULLRecord_commonFields := x; NULLRecord_Data := NULLRecord_Data r |}.

Definition set_NULLRecord_Data (x : list string) (r : NULLRecord) : NULLRecord :=
  {| NULLRecord_commonFields := NULLRecord_commonFields r; NULLRecord_Data := x |}.

Definition NULLRecord_zero : NULLRecord :=
  {| NULLRecord_commonFields := commonFields_zero; NULLRecord_Data := [] |}.

Definition NULLRecord_fields : list (json.field NULLRecord) :=
  json.embed NULLRecord_commonFields set_NULLRecord_commonFields commonFields_fields ++
  [ json.mkField "data" NULLRecord_Data set_NULLRecord_Data (json.store_slice json.store_string "") ].

(** The pointer behind the [interface{}] that [actualDNSType] returns, with
    the record it points to. *)
Inductive actual : Type :=
| ARecordPtr (x : ARecord)
| AAAARecordPtr (x : AAAARecord)
| NSRecordPtr (x : NSRecord)
| MXRecordPtr (x : MXRecord)
| MDRecordPtr (x : MDRecord)
| MFRecordPtr (x : MFRecord)
| MBRecordPtr (x : MBRecord)
| SOARecordPtr (x : SOARecord)
| TXTRecordPtr (x : TXTRecord)
| CAARecordPtr (x : CAARecord)
| CNAMERecordPtr (x : CNAMERecord)
| DNAMERecordPtr (x : DNAMERecord)
| DNSKEYRecordPtr (x : DNSKEYRecord)
| NSEC3PARAMRecordPtr (x : NSEC3PARAMRecord)
| NSECRecordPtr (x : NSECRecord)
| DSRecordPtr (x : DSRecord)
| PTRRecordPtr (x : PTRRecord)
| SRVRecordPtr (x : SRVRecord)
| LOCRecordPtr (x : LOCRecord)
| NAPTRRecordPtr (x : NAPTRRecord)
| HINFORecordPtr (x : HINFORecord)
| RPRecordPtr (x : RPRecord)
| DLVRecordPtr (x : DLVRecord)
| SSHFPRecordPtr (x : SSHFPRecord)
| DHCIDRecordPtr (x : DHCIDRecord)
| TLSARecordPtr (x : TLSARecord)
| NSAPRecordPtr (x : NSAPRecord)
| NULLRecordPtr (x : NULLRecord).

(** models.go: [DNSRecord], an entry of the flat list *)
Record DNSRecord : Type :=
  { CommonFields : commonFields; Raw : bytes; ParseError : option error }.

(** models.go: [DNSRecords] *)
Record DNSRecords : Type :=
  {
    All : list DNSRecord; A : list ARecord; AAAA : list AAAARecord; NS : list NSRecord;
    MX : list MXRecord; MD : list MDRecord; MF : list MFRecord; MB : list MBRecord;
    SOA : list SOARecord; TXT : list TXTRecord; CAA : list CAARecord;
    CNAME : list CNAMERecord; DNAME : list DNAMERecord; DNSKEY : list DNSKEYRecord;
    NSEC3PARAM : list NSEC3PARAMRecord; NSEC : list NSECRecord; DS : list DSRecord;
    PTR : list PTRRecord; SRV : list SRVRecord; LOC : list LOCRecord;
    NAPTR : list NAPTRRecord; HINFO : list HINFORecord; RP : list RPRecord;
    DLV : list DLVRecord; SSHFP : list SSHFPRecord; TLSA : list TLSARecord;
    DHCID : list DHCIDRecord; NSAP : list NSAPRecord; NULL : list NULLRecord
  }.

Definition set_All (x : list DNSRecord) (r : DNSRecords) : DNSRecords :=
  {| All := x; A := A r; AAAA := AAAA r; NS := NS r; MX := MX r; MD := MD r; MF := MF r;
     MB := MB r; SOA := SOA r; TXT := TXT r; CAA := CAA r; CNAME := CNAME r;
     DNAME := DNAME r; DNSKEY := DNSKEY r; NSEC3PARAM := NSEC3PARAM r; NSEC := NSEC r;
     DS := DS r; PTR := PTR r; SRV := SRV r; LOC := LOC r; NAPTR := NAPTR r;
     HINFO := HINFO r; RP := RP r; DLV := DLV r; SSHFP := SSHFP r; TLSA := TLSA r;
     DHCID := DHCID r; NSAP := NSAP r; NULL := NULL r |}.

Definition set_A (x : list ARecord) (r : DNSRecords) : DNSRecords :=
  {| All := All r; A := x; AAAA := AAAA r; NS := NS r; MX := MX r; MD := MD r;
     MF := MF r; MB := MB r; SOA := SOA r; TXT := TXT r; CAA := CAA r; CNAME := CNAME r;
     DNAME := DNAME r; DNSKEY := DNSKEY r; NSEC3PARAM := NSEC3PARAM r; NSEC := NSEC r;
     DS := DS r; PTR := PTR r; SRV := SRV r; LOC := LOC r; NAPTR := NAPTR r;
     HINFO := HINFO r; RP := RP r; DLV := DLV r; SSHFP := SSHFP r; TLSA := TLSA r;
     DHCID := DHCID r; NSAP := NSAP r; NULL := NULL r |}.

Definition set_AAAA (x : list AAAARecord) (r : DNSRecords) : DNSRecords :=
  {| All := All r; A := A r; AAAA := x; NS := NS r; MX := MX r; MD := MD r; MF := MF r;
     MB := MB r; SOA := SOA r; TXT := TXT r; CAA := CAA r; CNAME := CNAME r;
     DNAME := DNAME r; DNSKEY := DNSKEY r; NSEC3PARAM := NSEC3PARAM r; NSEC := NSEC r;
     DS := DS r; PTR := PTR r; SRV := SRV r; LOC := LOC r; NAPTR := NAPTR r;
     HINFO := HINFO r; RP := RP r; DLV := DLV r; SSHFP := SSHFP r; TLSA := TLSA r;
     DHCID := DHCID r; NSAP := NSAP r; NULL := NULL r |}.

Definition set_NS (x : list NSRecord) (r : DNSRecords) : DNSRecords :=
  {| All := All r; A := A r; AAAA := AAAA r; NS := x; MX := MX r; MD := MD r;
     MF := MF r; MB := MB r; SOA := SOA r; TXT := TXT r; CAA := CAA r; CNAME := CNAME r;
     DNAME := DNAME r; DNSKEY := DNSKEY r; NSEC3PARAM := NSEC3PARAM r; NSEC := NSEC r;
     DS := DS r; PTR := PTR r; SRV := SRV r; LOC := LOC r; NAPTR := NAPTR r;
     HINFO := HINFO r; RP := RP r; DLV := DLV r; SSHFP := SSHFP r; TLSA := TLSA r;
     DHCID := DHCID r; NSAP := NSAP r; NULL := NULL r |}.

Definition set_MX (x : list MXRecord) (r : DNSRecords) : DNSRecords :=
  {| All := All r; A := A r; AAAA := AAAA r; NS := NS r; MX := x; MD := MD r;
     MF := MF r; MB := MB r; SOA := SOA r; TXT := TXT r; CAA := CAA r; CNAME := CNAME r;
     DNAME := DNAME r; DNSKEY := DNSKEY r; NSEC3PARAM := NSEC3PARAM r; NSEC := NSEC r;
     DS := DS r; PTR := PTR r; SRV := SRV r; LOC := LOC r; NAPTR := NAPTR r;
     HINFO := HINFO r; RP := RP r; DLV := DLV r; SSHFP := SSHFP r; TLSA := TLSA r;
     DHCID := DHCID r; NSAP := NSAP r; NULL := NULL r |}.

Definition set_MD (x : list MDRecord) (r : DNSRecords) : DNSRecords :=
  {| All := All r; A := A r; AAAA := AAAA r; NS := NS r; MX := MX r; MD := x;
     MF := MF r; MB := MB r; SOA := SOA r; TXT := TXT r; CAA := CAA r; CNAME := CNAME r;
     DNAME := DNAME r; DNSKEY := DNSKEY r; NSEC3PARAM := NSEC3PARAM r; NSEC := NSEC r;
     DS := DS r; PTR := PTR r; SRV := SRV r; LOC := LOC r; NAPTR := NAPTR r;
     HINFO := HINFO r; RP := RP r; DLV := DLV r; SSHFP := SSHFP r; TLSA := TLSA r;
     DHCID := DHCID r; NSAP := NSAP r; NULL := NULL r |}.

Definition set_MF (x : list MFRecord) (r : DNSRecords) : DNSRecords :=
  {| All := All r; A := A r; AAAA := AAAA r; NS := NS r; MX := MX r; MD := MD r;
     MF := x; MB := MB r; SOA := SOA r; TXT := TXT r; CAA := CAA r; CNAME := CNAME r;
     DNAME := DNAME r; DNSKEY := DNSKEY r; NSEC3PARAM := NSEC3PARAM r; NSEC := NSEC r;
     DS := DS r; PTR := PTR r; SRV := SRV r; LOC := LOC r; NAPTR := NAPTR r;
     HINFO := HINFO r; RP := RP r; DLV := DLV r; SSHFP := SSHFP r; TLSA := TLSA r;
     DHCID := DHCID r; NSAP := NSAP r; NULL := NULL r |}.

Definition set_MB (x : list MBRecord) (r : DNSRecords) : DNSRecords :=
  {| All := All r; A := A r; AAAA := AAAA r; NS := NS r; MX := MX r; MD := MD r;
     MF := MF r; MB := x; SOA := SOA r; TXT := TXT r; CAA := CAA r; CNAME := CNAME r;
     DNAME := DNAME r; DNSKEY := DNSKEY r; NSEC3PARAM := NSEC3PARAM r; NSEC := NSEC r;
     DS := DS r; PTR := PTR r; SRV := SRV r; LOC := LOC r; NAPTR := NAPTR r;
     HINFO := HINFO r; RP := RP r; DLV := DLV r; SSHFP := SSHFP r; TLSA := TLSA r;
     DHCID := DHCID r; NSAP := NSAP r; NULL := NULL r |}.

Definition set_SOA (x : list SOARecord) (r : DNSRecords) : DNSRecords :=
  {| All := All r; A := A r; AAAA := AAAA r; NS := NS r; MX := MX r; MD := MD r;
     MF := MF r; MB := MB r; SOA := x; TXT := TXT r; CAA := CAA r; CNAME := CNAME r;
     DNAME := DNAME r; DNSKEY := DNSKEY r; NSEC3PARAM := NSEC3PARAM r; NSEC := NSEC r;
     DS := DS r; PTR := PTR r; SRV := SRV r; LOC := LOC r; NAPTR := NAPTR r;
     HINFO := HINFO r; RP := RP r; DLV := DLV r; SSHFP := SSHFP r; TLSA := TLSA r;
     DHCID := DHCID r; NSAP := NSAP r; NULL := NULL r |}.

Definition set_TXT (x : list TXTRecord) (r : DNSRecords) : DNSRecords :=
  {| All := All r; A := A r; AAAA := AAAA r; NS := NS r; MX := MX r; MD := MD r;
     MF := MF r; MB := MB r; SOA := SOA r; TXT := x; CAA := CAA r; CNAME := CNAME r;
     DNAME := DNAME r; DNSKEY := DNSKEY r; NSEC3PARAM := NSEC3PARAM r; NSEC := NSEC r;
     DS := DS r; PTR := PTR r; SRV := SRV r; LOC := LOC r; NAPTR := NAPTR r;
     HINFO := HINFO r; RP := RP r; DLV := DLV r; SSHFP := SSHFP r; TLSA := TLSA r;
     DHCID := DHCID r; NSAP := NSAP r; NULL := NULL r |}.

Definition set_CAA (x : list CAARecord) (r : DNSRecords) : DNSRecords :=
  {| All := All r; A := A r; AAAA := AAAA r; NS := NS r; MX := MX r; MD := MD r;
     MF := MF r; MB := MB r; SOA := SOA r; TXT := TXT r; CAA := x; CNAME := CNAME r;
     DNAME := DNAME r; DNSKEY := DNSKEY r; NSEC3PARAM := NSEC3PARAM r; NSEC := NSEC r;
     DS := DS r; PTR := PTR r; SRV := SRV r; LOC := LOC r; NAPTR := NAPTR r;
     HINFO := HINFO r; RP := RP r; DLV := DLV r; SSHFP := SSHFP r; TLSA := TLSA r;
     DHCID := DHCID r; NSAP := NSAP r; NULL := NULL r |}.

Definition set_CNAME (x : list CNAMERecord) (r : DNSRecords) : DNSRecords :=
  {| All := All r; A := A r; AAAA := AAAA r; NS := NS r; MX := MX r; MD := MD r;
     MF := MF r; MB := MB r; SOA := SOA r; TXT := TXT r; CAA := CAA r; CNAME := x;
     DNAME := DNAME r; DNSKEY := DNSKEY r; NSEC3PARAM := NSEC3PARAM r; NSEC := NSEC r;
     DS := DS r; PTR := PTR r; SRV := SRV r; LOC := LOC r; NAPTR := NAPTR r;
     HINFO := HINFO r; RP := RP r; DLV := DLV r; SSHFP := SSHFP r; TLSA := TLSA r;
     DHCID := DHCID r; NSAP := NSAP r; NULL := NULL r |}.

Definition set_DNAME (x : list DNAMERecord) (r : DNSRecords) : DNSRecords :=
  {| All := All r; A := A r; AAAA := AAAA r; NS := NS r; MX := MX r; MD := MD r;
     MF := MF r; MB := MB r; SOA := SOA r; TXT := TXT r; CAA := CAA r; CNAME := CNAME r;
     DNAME := x; DNSKEY := DNSKEY r; NSEC3PARAM := NSEC3PARAM r; NSEC := NSEC r;
     DS := DS r; PTR := PTR r; SRV := SRV r; LOC := LOC r; NAPTR := NAPTR r;
     HINFO := HINFO r; RP := RP r; DLV := DLV r; SSHFP := SSHFP r; TLSA := TLSA r;
     DHCID := DHCID r; NSAP := NSAP r; NULL := NULL r |}.

Definition set_DNSKEY (x : list DNSKEYRecord) (r : DNSRecords) : DNSRecords :=
  {| All := All r; A := A r; AAAA := AAAA r; NS := NS r; MX := MX r; MD := MD r;
     MF := MF r; MB := MB r; SOA := SOA r; TXT := TXT r; CAA := CAA r; CNAME := CNAME r;
     DNAME := DNAME r; DNSKEY := x; NSEC3PARAM := NSEC3PARAM r; NSEC := NSEC r;
     DS := DS r; PTR := PTR r; SRV := SRV r; LOC := LOC r; NAPTR := NAPTR r;
     HINFO := HINFO r; RP := RP r; DLV := DLV r; SSHFP := SSHFP r; TLSA := TLSA r;
     DHCID := DHCID r; NSAP := NSAP r; NULL := NULL r |}.

Definition set_NSEC3PARAM (x : list NSEC3PARAMRecord) (r : DNSRecords) : DNSRecords :=
  {| All := All r; A := A r; AAAA := AAAA r; NS := NS r; MX := MX r; MD := MD r;
     MF := MF r; MB := MB r; SOA := SOA r; TXT := TXT r; CAA := CAA r; CNAME := CNAME r;
     DNAME := DNAME r; DNSKEY := DNSKEY r; NSEC3PARAM := x; NSEC := NSEC r; DS := DS r;
     PTR := PTR r; SRV := SRV r; LOC := LOC r; NAPTR := NAPTR r; HINFO := HINFO r;
     RP := RP r; DLV := DLV r; SSHFP := SSHFP r; TLSA := TLSA r; DHCID := DHCID r;
     NSAP := NSAP r; NULL := NULL r |}.

Definition set_NSEC (x : list NSECRecord) (r : DNSRecords) : DNSRecords :=
  {| All := All r; A := A r; AAAA := AAAA r; NS := NS r; MX := MX r; MD := MD r;
     MF := MF r; MB := MB r; SOA := SOA r; TXT := TXT r; CAA := CAA r; CNAME := CNAME r;
     DNAME := DNAME r; DNSKEY := DNSKEY r; NSEC3PARAM := NSEC3PARAM r; NSEC := x;
     DS := DS r; PTR := PTR r; SRV := SRV r; LOC := LOC r; NAPTR := NAPTR r;
     HINFO := HINFO r; RP := RP r; DLV := DLV r; SSHFP := SSHFP r; TLSA := TLSA r;
     DHCID := DHCID r; NSAP := NSAP r; NULL := NULL r |}.

Definition set_DS (x : list DSRecord) (r : DNSRecords) : DNSRecords :=
  {| All := All r; A := A r; AAAA := AAAA r; NS := NS r; MX := MX r; MD := MD r;
     MF := MF r; MB := MB r; SOA := SOA r; TXT := TXT r; CAA := CAA r; CNAME := CNAME r;
     DNAME := DNAME r; DNSKEY := DNSKEY r; NSEC3PARAM := NSEC3PARAM r; NSEC := NSEC r;
     DS := x; PTR := PTR r; SRV := SRV r; LOC := LOC r; NAPTR := NAPTR r;
     HINFO := HINFO r; RP := RP r; DLV := DLV r; SSHFP := SSHFP r; TLSA := TLSA r;
     DHCID := DHCID r; NSAP := NSAP r; NULL := NULL r |}.

Definition set_PTR (x : list PTRRecord) (r : DNSRecords) : DNSRecords :=
  {| All := All r; A := A r; AAAA := AAAA r; NS := NS r; MX := MX r; MD := MD r;
     MF := MF r; MB := MB r; SOA := SOA r; TXT := TXT r; CAA := CAA r; CNAME := CNAME r;
     DNAME := DNAME r; DNSKEY := DNSKEY r; NSEC3PARAM := NSEC3PARAM r; NSEC := NSEC r;
     DS := DS r; PTR := x; SRV := SRV r; LOC := LOC r; NAPTR := NAPTR r;
     HINFO := HINFO r; RP := RP r; DLV := DLV r; SSHFP := SSHFP r; TLSA := TLSA r;
     DHCID := DHCID r; NSAP := NSAP r; NULL := NULL r |}.

Definition set_SRV (x : list SRVRecord) (r : DNSRecords) : DNSRecords :=
  {| All := All r; A := A r; AAAA := AAAA r; NS := NS r; MX := MX r; MD := MD r;
     MF := MF r; MB := MB r; SOA := SOA r; TXT := TXT r; CAA := CAA r; CNAME := CNAME r;
     DNAME := DNAME r; DNSKEY := DNSKEY r; NSEC3PARAM := NSEC3PARAM r; NSEC := NSEC r;
     DS := DS r; PTR := PTR r; SRV := x; LOC := LOC r; NAPTR := NAPTR r;
     HINFO := HINFO r; RP := RP r; DLV := DLV r; SSHFP := SSHFP r; TLSA := TLSA r;
     DHCID := DHCID r; NSAP := NSAP r; NULL := NULL r |}.

Definition set_LOC (x : list LOCRecord) (r : DNSRecords) : DNSRecords :=
  {| All := All r; A := A r; AAAA := AAAA r; NS := NS r; MX := MX r; MD := MD r;
     MF := MF r; MB := MB r; SOA := SOA r; TXT := TXT r; CAA := CAA r; CNAME := CNAME r;
     DNAME := DNAME r; DNSKEY := DNSKEY r; NSEC3PARAM := NSEC3PARAM r; NSEC := NSEC r;
     DS := DS r; PTR := PTR r; SRV := SRV r; LOC := x; NAPTR := NAPTR r;
     HINFO := HINFO r; RP := RP r; DLV := DLV r; SSHFP := SSHFP r; TLSA := TLSA r;
     DHCID := DHCID r; NSAP := NSAP r; NULL := NULL r |}.

Definition set_NAPTR (x : list NAPTRRecord) (r : DNSRecords) : DNSRecords :=
  {| All := All r; A := A r; AAAA := AAAA r; NS := NS r; MX := MX r; MD := MD r;
     MF := MF r; MB := MB r; SOA := SOA r; TXT := TXT r; CAA := CAA r; CNAME := CNAME r;
     DNAME := DNAME r; DNSKEY := DNSKEY r; NSEC3PARAM := NSEC3PARAM r; NSEC := NSEC r;
     DS := DS r; PTR := PTR r; SRV := SRV r; LOC := LOC r; NAPTR := x; HINFO := HINFO r;
     RP := RP r; DLV := DLV r; SSHFP := SSHFP r; TLSA := TLSA r; DHCID := DHCID r;
     NSAP := NSAP r; NULL := NULL r |}.

Definition set_HINFO (x : list HINFORecord) (r : DNSRecords) : DNSRecords :=
  {| All := All r; A := A r; AAAA := AAAA r; NS := NS r; MX := MX r; MD := MD r;
     MF := MF r; MB := MB r; SOA := SOA r; TXT := TXT r; CAA := CAA r; CNAME := CNAME r;
     DNAME := DNAME r; DNSKEY := DNSKEY r; NSEC3PARAM := NSEC3PARAM r; NSEC := NSEC r;
     DS := DS r; PTR := PTR r; SRV := SRV r; LOC := LOC r; NAPTR := NAPTR r; HINFO := x;
     RP := RP r; DLV := DLV r; SSHFP := SSHFP r; TLSA := TLSA r; DHCID := DHCID r;
     NSAP := NSAP r; NULL := NULL r |}.

Definition set_RP (x : list RPRecord) (r : DNSRecords) : DNSRecords :=
  {| All := All r; A := A r; AAAA := AAAA r; NS := NS r; MX := MX r; MD := MD r;
     MF := MF r; MB := MB r; SOA := SOA r; TXT := TXT r; CAA := CAA r; CNAME := CNAME r;
     DNAME := DNAME r; DNSKEY := DNSKEY r; NSEC3PARAM := NSEC3PARAM r; NSEC := NSEC r;
     DS := DS r; PTR := PTR r; SRV := SRV r; LOC := LOC r; NAPTR := NAPTR r;
     HINFO := HINFO r; RP := x; DLV := DLV r; SSHFP := SSHFP r; TLSA := TLSA r;
     DHCID := DHCID r; NSAP := NSAP r; NULL := NULL r |}.

Definition set_DLV (x : list DLVRecord) (r : DNSRecords) : DNSRecords :=
  {| All := All r; A := A r; AAAA := AAAA r; NS := NS r; MX := MX r; MD := MD r;
     MF := MF r; MB := MB r; SOA := SOA r; TXT := TXT r; CAA := CAA r; CNAME := CNAME r;
     DNAME := DNAME r; DNSKEY := DNSKEY r; NSEC3PARAM := NSEC3PARAM r; NSEC := NSEC r;
     DS := DS r; PTR := PTR r; SRV := SRV r; LOC := LOC r; NAPTR := NAPTR r;
     HINFO := HINFO r; RP := RP r; DLV := x; SSHFP := SSHFP r; TLSA := TLSA r;
     DHCID := DHCID r; NSAP := NSAP r; NULL := NULL r |}.

Definition set_SSHFP (x : list SSHFPRecord) (r : DNSRecords) : DNSRecords :=
  {| All := All r; A := A r; AAAA := AAAA r; NS := NS r; MX := MX r; MD := MD r;
     MF := MF r; MB := MB r; SOA := SOA r; TXT := TXT r; CAA := CAA r; CNAME := CNAME r;
     DNAME := DNAME r; DNSKEY := DNSKEY r; NSEC3PARAM := NSEC3PARAM r; NSEC := NSEC r;
     DS := DS r; PTR := PTR r; SRV := SRV r; LOC := LOC r; NAPTR := NAPTR r;
     HINFO := HINFO r; RP := RP r; DLV := DLV r; SSHFP := x; TLSA := TLSA r;
     DHCID := DHCID r; NSAP := NSAP r; NULL := NULL r |}.

Definition set_TLSA (x : list TLSARecord) (r : DNSRecords) : DNSRecords :=
  {| All := All r; A := A r; AAAA := AAAA r; NS := NS r; MX := MX r; MD := MD r;
     MF := MF r; MB := MB r; SOA := SOA r; TXT := TXT r; CAA := CAA r; CNAME := CNAME r;
     DNAME := DNAME r; DNSKEY := DNSKEY r; NSEC3PARAM := NSEC3PARAM r; NSEC := NSEC r;
     DS := DS r; PTR := PTR r; SRV := SRV r; LOC := LOC r; NAPTR := NAPTR r;
     HINFO := HINFO r; RP := RP r; DLV := DLV r; SSHFP := SSHFP r; TLSA := x;
     DHCID := DHCID r; NSAP := NSAP r; NULL := NULL r |}.

Definition set_DHCID (x : list DHCIDRecord) (r : DNSRecords) : DNSRecords :=
  {| All := All r; A := A r; AAAA := AAAA r; NS := NS r; MX := MX r; MD := MD r;
     MF := MF r; MB := MB r; SOA := SOA r; TXT := TXT r; CAA := CAA r; CNAME := CNAME r;
     DNAME := DNAME r; DNSKEY := DNSKEY r; NSEC3PARAM := NSEC3PARAM r; NSEC := NSEC r;
     DS := DS r; PTR := PTR r; SRV := SRV r; LOC := LOC r; NAPTR := NAPTR r;
     HINFO := HINFO r; RP := RP r; DLV := DLV r; SSHFP := SSHFP r; TLSA := TLSA r;
     DHCID := x; NSAP := NSAP r; NULL := NULL r |}.

Definition set_NSAP (x : list NSAPRecord) (r : DNSRecords) : DNSRecords :=
  {| All := All r; A := A r; AAAA := AAAA r; NS := NS r; MX := MX r; MD := MD r;
     MF := MF r; MB := MB r; SOA := SOA r; TXT := TXT r; CAA := CAA r; CNAME := CNAME r;
     DNAME := DNAME r; DNSKEY := DNSKEY r; NSEC3PARAM := NSEC3PARAM r; NSEC := NSEC r;
     DS := DS r; PTR := PTR r; SRV := SRV r; LOC := LOC r; NAPTR := NAPTR r;
     HINFO := HINFO r; RP := RP r; DLV := DLV r; SSHFP := SSHFP r; TLSA := TLSA r;
     DHCID := DHCID r; NSAP := x; NULL := NULL r |}.

Definition set_NULL (x : list NULLRecord) (r : DNSRecords) : DNSRecords :=
  {| All := All r; A := A r; AAAA := AAAA r; NS := NS r; MX := MX r; MD := MD r;
     MF := MF r; MB := MB r; SOA := SOA r; TXT := TXT r; CAA := CAA r; CNAME := CNAME r;
     DNAME := DNAME r; DNSKEY := DNSKEY r; NSEC3PARAM := NSEC3PARAM r; NSEC := NSEC r;
     DS := DS r; PTR := PTR r; SRV := SRV r; LOC := LOC r; NAPTR := NAPTR r;
     HINFO := HINFO r; RP := RP r; DLV := DLV r; SSHFP := SSHFP r; TLSA := TLSA r;
     DHCID := DHCID r; NSAP := NSAP r; NULL := x |}.

(** The zero value of [DNSRecords]. *)
Definition DNSRecords_zero : DNSRecords :=
  {| All := []; A := []; AAAA := []; NS := []; MX := []; MD := []; MF := []; MB := [];
     SOA := []; TXT := []; CAA := []; CNAME := []; DNAME := []; DNSKEY := [];
     NSEC3PARAM := []; NSEC := []; DS := []; PTR := []; SRV := []; LOC := [];
     NAPTR := []; HINFO := []; RP := []; DLV := []; SSHFP := []; TLSA := [];
     DHCID := []; NSAP := []; NULL := [] |}.

(** models.go: [actualDNSType]; [None] is the nil interface. *)
Definition actualDNSType (dnsType : string) : option actual :=
  if String.eqb dnsType "A" then Some (ARecordPtr ARecord_zero)
  else if String.eqb dnsType "AAAA" then Some (AAAARecordPtr AAAARecord_zero)
  else if String.eqb dnsType "NS" then Some (NSRecordPtr NSRecord_zero)
  else if String.eqb dnsType "MX" then Some (MXRecordPtr MXRecord_zero)
  else if String.eqb dnsType "MD" then Some (MDRecordPtr MDRecord_zero)
  else if String.eqb dnsType "MF" then Some (MFRecordPtr MFRecord_zero)
  else if String.eqb dnsType "MB" then Some (MBRecordPtr MBRecord_zero)
  else if String.eqb dnsType "SOA" then Some (SOARecordPtr SOARecord_zero)
  else if String.eqb dnsType "TXT" then Some (TXTRecordPtr TXTRecord_zero)
  else if String.eqb dnsType "CAA" then Some (CAARecordPtr CAARecord_zero)
  else if String.eqb dnsType "CNAME" then Some (CNAMERecordPtr CNAMERecord_zero)
  else if String.eqb dnsType "DNAME" then Some (DNAMERecordPtr DNAMERecord_zero)
  else if String.eqb dnsType "DNSKEY" then Some (DNSKEYRecordPtr DNSKEYRecord_zero)
  else if String.eqb dnsType "NSEC3PARAM" then Some (NSEC3PARAMRecordPtr NSEC3PARAMRecord_zero)
  else if String.eqb dnsType "NSEC" then Some (NSECRecordPtr NSECRecord_zero)
  else if String.eqb dnsType "DS" then Some (DSRecordPtr DSRecord_zero)
  else if String.eqb dnsType "PTR" then Some (PTRRecordPtr PTRRecord_zero)
  else if String.eqb dnsType "SRV" then Some (SRVRecordPtr SRVRecord_zero)
  else if String.eqb dnsType "LOC" then Some (LOCRecordPtr LOCRecord_zero)
  else if String.eqb dnsType "NAPTR" then Some (NAPTRRecordPtr NAPTRRecord_zero)
  else if String.eqb dnsType "HINFO" then Some (HINFORecordPtr HINFORecord_zero)
  else if String.eqb dnsType "RP" then Some (RPRecordPtr RPRecord_zero)
  else if String.eqb dnsType "DLV" then Some (DLVRecordPtr DLVRecord_zero)
  else if String.eqb dnsType "SSHFP" then Some (SSHFPRecordPtr SSHFPRecord_zero)
  else if String.eqb dnsType "DHCID" then Some (DHCIDRecordPtr DHCIDRecord_zero)
  else if String.eqb dnsType "TLSA" then Some (TLSARecordPtr TLSARecord_zero)
  else if String.eqb dnsType "NSAP" then Some (NSAPRecordPtr NSAPRecord_zero)
  else if String.eqb dnsType "NULL" then Some (NULLRecordPtr NULLRecord_zero)
  else None.

(** [json.Unmarshal(record, actual)]: the record is decoded into the struct
    the pointer points to. *)
Definition unmarshal_actual (record : bytes) (a : actual) : result actual :=
  match a with
  | ARecordPtr x =>
      result_map ARecordPtr (json.Unmarshal (json.store_struct "ARecord" ARecord_fields) record x)
  | AAAARecordPtr x =>
      result_map AAAARecordPtr (json.Unmarshal (json.store_struct "AAAARecord" AAAARecord_fields) record x)
  | NSRecordPtr x =>
      result_map NSRecordPtr (json.Unmarshal (json.store_struct "NSRecord" NSRecord_fields) record x)
  | MXRecordPtr x =>
      result_map MXRecordPtr (json.Unmarshal (json.store_struct "MXRecord" MXRecord_fields) record x)
  | MDRecordPtr x =>
      result_map MDRecordPtr (json.Unmarshal (json.store_struct "MDRecord" MDRecord_fields) record x)
  | MFRecordPtr x =>
      result_map MFRecordPtr (json.Unmarshal (json.store_struct "MFRecord" MFRecord_fields) record x)
  | MBRecordPtr x =>
      result_map MBRecordPtr (json.Unmarshal (json.store_struct "MBRecord" MBRecord_fields) record x)
  | SOARecordPtr x =>
      result_map SOARecordPtr (json.Unmarshal (json.store_struct "SOARecord" SOARecord_fields) record x)
  | TXTRecordPtr x =>
      result_map TXTRecordPtr (json.Unmarshal (json.store_struct "TXTRecord" TXTRecord_fields) record x)
  | CAARecordPtr x =>
      result_map CAARecordPtr (json.Unmarshal (json.store_struct "CAARecord" CAARecord_fields) record x)
  | CNAMERecordPtr x =>
      result_map CNAMERecordPtr (json.Unmarshal (json.store_struct "CNAMERecord" CNAMERecord_fields) record x)
  | DNAMERecordPtr x =>
      result_map DNAMERecordPtr (json.Unmarshal (json.store_struct "DNAMERecord" DNAMERecord_fields) record x)
  | DNSKEYRecordPtr x =>
      result_map DNSKEYRecordPtr (json.Unmarshal (json.store_struct "DNSKEYRecord" DNSKEYRecord_fields) record x)
  | NSEC3PARAMRecordPtr x =>
      result_map NSEC3PARAMRecordPtr (json.Unmarshal (json.store_struct "NSEC3PARAMRecord" NSEC3PARAMRecord_fields) record x)
  | NSECRecordPtr x =>
      result_map NSECRecordPtr (json.Unmarshal (json.store_struct "NSECRecord" NSECRecord_fields) record x)
  | DSRecordPtr x =>
      result_map DSRecordPtr (json.Unmarshal (json.store_struct "DSRecord" DSRecord_fields) record x)
  | PTRRecordPtr x =>
      result_map PTRRecordPtr (json.Unmarshal (json.store_struct "PTRRecord" PTRRecord_fields) record x)
  | SRVRecordPtr x =>
      result_map SRVRecordPtr (json.Unmarshal (json.store_struct "SRVRecord" SRVRecord_fields) record x)
  | LOCRecordPtr x =>
      result_map LOCRecordPtr (json.Unmarshal (json.store_struct "LOCRecord" LOCRecord_fields) record x)
  | NAPTRRecordPtr x =>
      result_map NAPTRRecordPtr (json.Unmarshal (json.store_struct "NAPTRRecord" NAPTRRecord_fields) record x)
  | HINFORecordPtr x =>
      result_map HINFORecordPtr (json.Unmarshal (json.store_struct "HINFORecord" HINFORecord_fields) record x)
  | RPRecordPtr x =>
      result_map RPRecordPtr (json.Unmarshal (json.store_struct "RPRecord" RPRecord_fields) record x)
  | DLVRecordPtr x =>
      result_map DLVRecordPtr (json.Unmarshal (json.store_struct "DLVRecord" DLVRecord_fields) record x)
  | SSHFPRecordPtr x =>
      result_map SSHFPRecordPtr (json.Unmarshal (json.store_struct "SSHFPRecord" SSHFPRecord_fields) record x)
  | DHCIDRecordPtr x =>
      result_map DHCIDRecordPtr (json.Unmarshal (json.store_struct "DHCIDRecord" DHCIDRecord_fields) record x)
  | TLSARecordPtr x =>
      result_map TLSARecordPtr (json.Unmarshal (json.store_struct "TLSARecord" TLSARecord_fields) record x)
  | NSAPRecordPtr x =>
      result_map NSAPRecordPtr (json.Unmarshal (json.store_struct "NSAPRecord" NSAPRecord_fields) record x)
  | NULLRecordPtr x =>
      result_map NULLRecordPtr (json.Unmarshal (json.store_struct "NULLRecord" NULLRecord_fields) record x)
  end.

(** models.go: the [switch obj.DNSType] of [parseRecord]: each case asserts
    the type behind [actual] and appends the record to the list of its type;
    an assertion that fails panics. *)
Definition append_typed (dnsType : string) (a : actual) (r : DNSRecords) : result DNSRecords :=
  if String.eqb dnsType "A" then
    match a with ARecordPtr x => Ok (set_A (A r ++ [x]) r) | _ => Panic "interface conversion" end
  else if String.eqb dnsType "AAAA" then
    match a with AAAARecordPtr x => Ok (set_AAAA (AAAA r ++ [x]) r) | _ => Panic "interface conversion" end
  else if String.eqb dnsType "NS" then
    match a with NSRecordPtr x => Ok (set_NS (NS r ++ [x]) r) | _ => Panic "interface conversion" end
  else if String.eqb dnsType "MX" then
    match a with MXRecordPtr x => Ok (set_MX (MX r ++ [x]) r) | _ => Panic "interface conversion" end
  else if String.eqb dnsType "MD" then
    match a with MDRecordPtr x => Ok (set_MD (MD r ++ [x]) r) | _ => Panic "interface conversion" end
  else if String.eqb dnsType "MF" then
    match a with MFRecordPtr x => Ok (set_MF (MF r ++ [x]) r) | _ => Panic "interface conversion" end
  else if String.eqb dnsType "MB" then
    match a with MBRecordPtr x => Ok (set_MB (MB r ++ [x]) r) | _ => Panic "interface conversion" end
  else if String.eqb dnsType "SOA" then
    match a with SOARecordPtr x => Ok (set_SOA (SOA r ++ [x]) r) | _ => Panic "interface conversion" end
  else if String.eqb dnsType "TXT" then
    match a with TXTRecordPtr x => Ok (set_TXT (TXT r ++ [x]) r) | _ => Panic "interface conversion" end
  else if String.eqb dnsType "CAA" then
    match a with CAARecordPtr x => Ok (set_CAA (CAA r ++ [x]) r) | _ => Panic "interface conversion" end
  else if String.eqb dnsType "CNAME" then
    match a with CNAMERecordPtr x => Ok (set_CNAME (CNAME r ++ [x]) r) | _ => Panic "interface conversion" end
  else if String.eqb dnsType "DNAME" then
    match a with DNAMERecordPtr x => Ok (set_DNAME (DNAME r ++ [x]) r) | _ => Panic "interface conversion" end
  else if String.eqb dnsType "DNSKEY" then
    match a with DNSKEYRecordPtr x => Ok (set_DNSKEY (DNSKEY r ++ [x]) r) | _ => Panic "interface conversion" end
  else if String.eqb dnsType "NSEC" then
    match a with NSECRecordPtr x => Ok (set_NSEC (NSEC r ++ [x]) r) | _ => Panic "interface conversion" end
  else if String.eqb dnsType "NSEC3PARAM" then
    match a with NSEC3PARAMRecordPtr x => Ok (set_NSEC3PARAM (NSEC3PARAM r ++ [x]) r) | _ => Panic "interface conversion" end
  else if String.eqb dnsType "DS" then
    match a with DSRecordPtr x => Ok (set_DS (DS r ++ [x]) r) | _ => Panic "interface conversion" end
  else if String.eqb dnsType "PTR" then
    match a with PTRRecordPtr x => Ok (set_PTR (PTR r ++ [x]) r) | _ => Panic "interface conversion" end
  else if String.eqb dnsType "SRV" then
    match a with SRVRecordPtr x => Ok (set_SRV (SRV r ++ [x]) r) | _ => Panic "interface conversion" end
  else if String.eqb dnsType "LOC" then
    match a with LOCRecordPtr x => Ok (set_LOC (LOC r ++ [x]) r) | _ => Panic "interface conversion" end
  else if String.eqb dnsType "NAPTR" then
    match a with NAPTRRecordPtr x => Ok (set_NAPTR (NAPTR r ++ [x]) r) | _ => Panic "interface conversion" end
  else if String.eqb dnsType "HINFO" then
    match a with HINFORecordPtr x => Ok (set_HINFO (HINFO r ++ [x]) r) | _ => Panic "interface conversion" end
  else if String.eqb dnsType "RP" then
    match a with RPRecordPtr x => Ok (set_RP (RP r ++ [x]) r) | _ => Panic "interface conversion" end
  else if String.eqb dnsType "DLV" then
    match a with DLVRecordPtr x => Ok (set_DLV (DLV r ++ [x]) r) | _ => Panic "interface conversion" end
  else if String.eqb dnsType "SSHFP" then
    match a with SSHFPRecordPtr x => Ok (set_SSHFP (SSHFP r ++ [x]) r) | _ => Panic "interface conversion" end
  else if String.eqb dnsType "DHCID" then
    match a with DHCIDRecordPtr x => Ok (set_DHCID (DHCID r ++ [x]) r) | _ => Panic "interface conversion" end
  else if String.eqb dnsType "TLSA" then
    match a with TLSARecordPtr x => Ok (set_TLSA (TLSA r ++ [x]) r) | _ => Panic "interface conversion" end
  else if String.eqb dnsType "NSAP" then
    match a with NSAPRecordPtr x => Ok (set_NSAP (NSAP r ++ [x]) r) | _ => Panic "interface conversion" end
  else if String.eqb dnsType "NULL" then
    match a with NULLRecordPtr x => Ok (set_NULL (NULL r ++ [x]) r) | _ => Panic "interface conversion" end
  else Ok r.

(** The number of records in the typed lists. *)
Definition typed_total (r : DNSRecords) : nat :=
  length (A r) + length (AAAA r) + length (NS r) + length (MX r) + length (MD r) +
  length (MF r) + length (MB r) + length (SOA r) + length (TXT r) + length (CAA r) +
  length (CNAME r) + length (DNAME r) + length (DNSKEY r) + length (NSEC3PARAM r) +
  length (NSEC r) + length (DS r) + length (PTR r) + length (SRV r) + length (LOC r) +
  length (NAPTR r) + length (HINFO r) + length (RP r) + length (DLV r) +
  length (SSHFP r) + length (TLSA r) + length (DHCID r) + length (NSAP r) +
  length (NULL r).

(** models.go: [Time], a wrapper of [time.Time], and [emptyTime] *)
Definition Time : Type := time.Time.

Definition emptyTime : Time := time.mkTime 0 0 time.UTC.

(** models.go: [unmarshalString] *)
Definition unmarshalString (raw : bytes) : result string :=
  json.Unmarshal json.store_string raw "".

(** models.go: [Time.UnmarshalJSON]; [local] is the zone data of the process,
    which [time.Parse] consults for a zone abbreviation other than UTC. *)
Definition Time_UnmarshalJSON (local : time.Zones) (b : bytes) (t : Time) : result Time :=
  result_bind (unmarshalString b) (fun str =>
  if String.eqb str "" then Ok emptyTime
  else time.Parse local str).

(** models.go: [Time.MarshalJSON] *)
Definition Time_MarshalJSON (local : time.Zones) (t : Time) : result bytes :=
  if bool_decide (t = emptyTime) then Ok (jq "''")
  else Ok (json.quote (B (time.Format local t))).

(** The struct [struct{ commonFields }] of the variable [obj] in
    [parseRecord]. *)
Record obj_t : Type := { obj_commonFields : commonFields }.

Definition obj_fields : list (json.field obj_t) :=
  json.embed obj_commonFields (fun x _ => {| obj_commonFields := x |}) commonFields_fields.

(** models.go: [DNSRecords.parseRecord]: the record of the flat list, and the
    receiver with the record appended to the list of its type. *)
Definition parseRecord (r : DNSRecords) (record : bytes) : result (DNSRecords * DNSRecord) :=
  match json.Unmarshal (json.store_struct "" obj_fields) record
          {| obj_commonFields := commonFields_zero |} with
  | Panic msg => Panic msg
  | Err err =>
      Ok (r, {| CommonFields := commonFields_zero; Raw := record; ParseError := Some err |})
  | Ok obj =>
      let dnsRecord :=
        {| CommonFields := obj_commonFields obj; Raw := record; ParseError := None |} in
      match actualDNSType (DNSType (obj_commonFields obj)) with
      | None =>
          Ok (r, {| CommonFields := CommonFields dnsRecord; Raw := Raw dnsRecord;
                    ParseError := Some ErrUnsupportedDNSType |})
      | Some a =>
          match unmarshal_actual record a with
          | Panic msg => Panic msg
          | Err err =>
              Ok (r, {| CommonFields := CommonFields dnsRecord; Raw := Raw dnsRecord;
                        ParseError := Some err |})
          | Ok a' =>
              result_bind (append_typed (DNSType (obj_commonFields obj)) a' r)
                          (fun r' => Ok (r', dnsRecord))
          end
      end
  end.

(** The loop of [UnmarshalJSON] over the raw elements. *)
Fixpoint parseRecords (r : DNSRecords) (raw : list bytes) : result DNSRecords :=
  match raw with
  | [] => Ok r
  | record :: raw' =>
      result_bind (parseRecord r record) (fun '(r', d) =>
      parseRecords (set_All (All r' ++ [d]) r') raw')
  end.

(** models.go: [DNSRecords.UnmarshalJSON] *)
Definition UnmarshalJSON (r : DNSRecords) (data : bytes) : result DNSRecords :=
  result_bind (json.Unmarshal (json.store_slice json.store_RawMessage []) data [])
              (parseRecords r).

(** [commonFields] under [json.Marshal] *)
Definition marshal_commonFields (c : commonFields) : json.value :=
  json.marshal_struct
    [ ("type", json.marshal_int (Type_ c));
      ("dnsType", json.marshal_string (DNSType c));
      ("name", json.marshal_string (Name c));
      ("ttl", json.marshal_int (TTL c));
      ("rRsetType", json.marshal_int (RRsetType c));
      ("rawText", json.marshal_string (RawText c)) ].

(** A non-nil [error] under [json.Marshal]: the struct behind the interface
    with its exported fields (a [reflect.Type] has none).  The struct of a
    transport error is taken to export no field; an [*ErrorResponse] holds
    the [*http.Response], whose request has fields of function type. *)
Fixpoint marshal_error (e : error) : result json.value :=
  match e with
  | SyntaxError off => Ok (json.marshal_struct [("Offset", json.marshal_int off)])
  | UnmarshalTypeError v off st f =>
      Ok (json.marshal_struct
            [ ("Value", json.marshal_string v); ("Type", json.marshal_struct []);
              ("Offset", json.marshal_int off); ("Struct", json.marshal_string st);
              ("Field", json.marshal_string f) ])
  | TimeParseError l v le ve m =>
      Ok (json.marshal_struct
            [ ("Layout", json.marshal_string l); ("Value", json.marshal_string v);
              ("LayoutElem", json.marshal_string le); ("ValueElem", json.marshal_string ve);
              ("Message", json.marshal_string m) ])
  | ErrorMessageError c m =>
      Ok (json.marshal_struct
            [ ("errorCode", json.marshal_string c); ("msg", json.marshal_string m) ])
  | ArgError n m =>
      Ok (json.marshal_struct
            [ ("Name", json.marshal_string n); ("Message", json.marshal_string m) ])
  | MarshalerError err =>
      result_map (fun v => json.marshal_struct [("Type", json.marshal_struct []); ("Err", v)])
                 (marshal_error err)
  | ErrorResponseError _ _ => Err UnsupportedTypeError
  | _ => Ok (json.marshal_struct [])
  end.

(** The field [ParseError] under [json.Marshal]: [null] when it is nil. *)
Definition marshal_parseError (e : option error) : result json.value :=
  match e with
  | None => Ok json.Null
  | Some err => marshal_error err
  end.

(** [DNSRecord] under [json.Marshal]: the field [CommonFields] has no tag. *)
Definition marshal_DNSRecord (d : DNSRecord) : result json.value :=
  result_bind (json.marshal_RawMessage (Raw d)) (fun raw =>
  result_bind (marshal_parseError (ParseError d)) (fun parseError =>
  Ok (json.marshal_struct
        [ ("CommonFields", marshal_commonFields (CommonFields d));
          ("raw", raw);
          ("parseError", parseError) ]))).

(** models.go: [DNSRecords.MarshalJSON] *)
Definition MarshalJSON (r : DNSRecords) : result bytes :=
  if (length (All r) =? 0)%nat then Ok (B "[]")
  else result_map json.show (json.marshal_slice marshal_DNSRecord (All r)).

(** models.go: [Audit] *)
Record Audit : Type := { CreatedDate : Time; UpdatedDate : Time }.

Definition Audit_fields (local : time.Zones) : list (json.field Audit) :=
  [ json.mkField "createdDate" CreatedDate
      (fun x r => {| CreatedDate := x; UpdatedDate := UpdatedDate r |})
      (json.store_unmarshaler (Time_UnmarshalJSON local));
    json.mkField "updatedDate" UpdatedDate
      (fun x r => {| CreatedDate := CreatedDate r; UpdatedDate := x |})
      (json.store_unmarshaler (Time_UnmarshalJSON local)) ].

(** models.go: [DNSLookupResponse]; the fields [Audit] and [DNSRecords] are
    written [Audit_] and [DNSRecords_]. *)
Record DNSLookupResponse : Type :=
  { DomainName : string; Types : list Z; DNSTypes : string; Audit_ : Audit;
    DNSRecords_ : DNSRecords }.

Definition DNSLookupResponse_zero : DNSLookupResponse :=
  {| DomainName := ""; Types := []; DNSTypes := "";
     Audit_ := {| CreatedDate := emptyTime; UpdatedDate := emptyTime |};
     DNSRecords_ := DNSRecords_zero |}.

Definition DNSLookupResponse_fields (local : time.Zones)
  : list (json.field DNSLookupResponse) :=
  [ json.mkField "domainName" DomainName
      (fun x r => {| DomainName := x; Types := Types r; DNSTypes := DNSTypes r;
                     Audit_ := Audit_ r; DNSRecords_ := DNSRecords_ r |})
      json.store_string;
    json.mkField "types" Types
      (fun x r => {| DomainName := DomainName r; Types := x; DNSTypes := DNSTypes r;
                     Audit_ := Audit_ r; DNSRecords_ := DNSRecords_ r |})
      (json.store_slice json.store_int 0%Z);
    json.mkField "dnsTypes" DNSTypes
      (fun x r => {| DomainName := DomainName r; Types := Types r; DNSTypes := x;
                     Audit_ := Audit_ r; DNSRecords_ := DNSRecords_ r |})
      json.store_string;
    json.mkField "audit" Audit_
      (fun x r => {| DomainName := DomainName r; Types := Types r; DNSTypes := DNSTypes r;
                     Audit_ := x; DNSRecords_ := DNSRecords_ r |})
      (json.store_struct "Audit" (Audit_fields local));
    json.mkField "dnsRecords" DNSRecords_
      (fun x r => {| DomainName := DomainName r; Types := Types r; DNSTypes := DNSTypes r;
                     Audit_ := Audit_ r; DNSRecords_ := x |})
      (json.store_unmarshaler (fun data r => UnmarshalJSON r data)) ].

(** models.go: [ErrorMessage] *)
Record ErrorMessage : Type := { Code : string; Message : string }.

Definition ErrorMessage_fields : list (json.field ErrorMessage) :=
  [ json.mkField "errorCode" Code (fun x r => {| Code := x; Message := Message r |})
      json.store_string;
    json.mkField "msg" Message (fun x r => {| Code := Code r; Message := x |})
      json.store_string ].

(** ** options.go *)

(** [url.Values] *)
Abbreviation Values := (gmap string (list string)).

(** [Values.Set] *)
Definition Values_Set (key value : string) (v : Values) : Values := <[key := [value]]> v.

(** options.go: [Option]; an option updates the query in place, the model
    returns the updated query. *)
Definition Option : Type := Values -> Values.

(** [strings.ToUpper] on ASCII text, where it maps the letters a to z to A
    to Z and keeps every other byte.  On a text with other bytes Go maps by
    the case tables of Unicode, which are not modelled: no property below
    depends on what [ToUpper] makes of such a text. *)
Definition ToUpper (s : string) : string := S_ (map json.upper (B s)).

(** options.go: [OptionOutputFormat] *)
Definition OptionOutputFormat (outputFormat : string) : Option :=
  fun v => Values_Set "outputFormat" (ToUpper outputFormat) v.

(** options.go: [OptionType] *)
Definition OptionType (value : string) : Option :=
  fun v => Values_Set "type" (ToUpper value) v.

(** options.go: [OptionCallback] *)
Definition OptionCallback (value : string) : Option :=
  fun v => Values_Set "callback" value v.

(** ** client.go *)

Definition libraryVersion : string := "1.0.0".
Definition userAgent : string := "dns-lookup-go/" ++ libraryVersion.
Definition mediaType : string := "application/json".
Definition defaultDNSLookupURL : string :=
  "https://www.whoisxmlapi.com/whoisserver/DNSService".

(** [url.URL]: scheme, host and path as one text, and the query.  The query
    is kept decoded: [RawQuery] stands for the text [RawQuery.Encode()], and
    reading it back with [URL.Query] gives the same values. *)
Record URL : Type := { Location_ : string; RawQuery : Values }.

(** [http.Request] *)
Record Request : Type :=
  { Method : string; Request_URL : URL; Header : gmap string (list string) }.

(** [http.Response], of which the package reads the status code *)
Record http_Response : Type := { StatusCode : Z }.

(** A [context.Context], by a number; what it stands for (a deadline, a
    cancellation) is known to the transport. *)
Definition Context : Type := nat.

(** What the HTTP client does with a request: no response and an error, or a
    response with the bytes of the body that could be read, the error that
    ended the reading if it was not the end of the body, and the error of
    closing the body. *)
Inductive exchange : Type :=
| Failed (err : error)
| Responded (resp : http_Response) (body : bytes) (readErr closeErr : option error).

(** [*http.Client], by its method [Do] *)
Record http_Client : Type := { http_Do : Context -> Request -> exchange }.

(** client.go: [ClientParams] *)
Record ClientParams : Type :=
  { HTTPClient : option http_Client; DNSLookupBaseURL : option URL }.

(** client.go: [Client], without the embedded [DNSLookupService] *)
Record Client : Type :=
  { client : http_Client; client_userAgent : string; apiKey : string }.

(** dnslookup.go: [dnsLookupServiceOp] *)
Record dnsLookupServiceOp : Type := { service_client : Client; baseURL : URL }.

(** client.go: [NewClient]; the result is the service that the new client
    embeds, which holds the client.  [DefaultClient] is [http.DefaultClient]. *)
Definition NewClient (DefaultClient : http_Client) (key : string) (params : ClientParams)
  : dnsLookupServiceOp :=
  let apiBaseURL :=
    match DNSLookupBaseURL params with
    | Some u => u
    | None => {| Location_ := defaultDNSLookupURL; RawQuery := ∅ |}
    end in
  let httpClient :=
    match HTTPClient params with
    | Some c => c
    | None => DefaultClient
    end in
  {| service_client :=
       {| client := httpClient; client_userAgent := userAgent; apiKey := key |};
     baseURL := apiBaseURL |}.

(** client.go: [NewBasicClient] *)
Definition NewBasicClient (DefaultClient : http_Client) (key : string) : dnsLookupServiceOp :=
  NewClient DefaultClient key {| HTTPClient := None; DNSLookupBaseURL := None |}.

(** [Header.Add] *)
Definition Header_Add (key value : string) (h : gmap string (list string))
  : gmap string (list string) :=
  <[key := default [] (h !! key) ++ [value]]> h.

(** [httpguts.IsTokenRune]: the characters of an HTTP token *)
Definition isTokenRune (c : ascii) : bool :=
  isDigit c || in_range "a" "z" c || in_range "A" "Z" c ||
  existsb (Ascii.eqb c) (B "!#$%&'*+-.^_`|~").

(** [http.NewRequest]: an empty method means GET, and a method that is not a
    token is refused (the text of the error names the method; the model
    leaves the name out).  The text of the URL is taken to parse. *)
Definition http_NewRequest (method : string) (u : URL) : result Request :=
  let method := if String.eqb method "" then "GET" else method in
  if forallb isTokenRune (B method)
  then Ok {| Method := method; Request_URL := u; Header := ∅ |}
  else Err (TransportError "net/http: invalid method").

(** client.go: [Client.NewRequest] *)
Definition NewRequest (c : Client) (method : string) (u : URL) : result Request :=
  result_bind (http_NewRequest method u) (fun req =>
  Ok {| Method := Method req; Request_URL := Request_URL req;
        Header := Header_Add "User-Agent" (client_userAgent c)
                    (Header_Add "Accept" mediaType
                       (Header_Add "Content-Type" mediaType (Header req))) |}).

(** client.go: [Client.Do]: the response, the bytes written to [v], and the
    error. *)
Definition Do (c : Client) (ctx : Context) (req : Request)
  : option http_Response * bytes * option error :=
  match http_Do (client c) ctx req with
  | Failed err => (None, [], Some (Wrapped "cannot execute request" err))
  | Responded resp body readErr closeErr =>
      match readErr with
      | Some err => (Some resp, body, Some (Wrapped "cannot read response" err))
      | None =>
          (Some resp, body,
           match closeErr with
           | Some rerr => Some (Wrapped "cannot close response" rerr)
           | None => None
           end)
      end
  end.

(** client.go: [checkResponse]; a nil response is dereferenced. *)
Definition checkResponse (r : option http_Response) : result (option error) :=
  match r with
  | None => Panic "nil pointer dereference"
  | Some resp =>
      let c := StatusCode resp in
      if (200 <=? c)%Z && (c <=? 299)%Z then Ok None
      else Ok (Some (ErrorResponseError (StatusCode resp) ""))
  end.

(** ** dnslookup.go *)

(** dnslookup.go: [Response] *)
Record Response : Type := { Response_ : option http_Response; Body : bytes }.

(** dnslookup.go: [dnsLookupServiceOp.newRequest] *)
Definition newRequest (service : dnsLookupServiceOp) : result Request :=
  result_bind (NewRequest (service_client service) "GET" (baseURL service)) (fun req =>
  let query := Values_Set "apiKey" (apiKey (service_client service)) ∅ in
  Ok {| Method := Method req;
        Request_URL := {| Location_ := Location_ (Request_URL req); RawQuery := query |};
        Header := Header req |}).

(** dnslookup.go: [apiResponse] *)
Record apiResponse : Type :=
  { api_DNSLookupResponse : DNSLookupResponse; api_ErrorMessage : ErrorMessage }.

Definition apiResponse_zero : apiResponse :=
  {| api_DNSLookupResponse := DNSLookupResponse_zero;
     api_ErrorMessage := {| Code := ""; Message := "" |} |}.

Definition apiResponse_fields (local : time.Zones) : list (json.field apiResponse) :=
  [ json.mkField "DNSData" api_DNSLookupResponse
      (fun x r => {| api_DNSLookupResponse := x; api_ErrorMessage := api_ErrorMessage r |})
      (json.store_struct "DNSLookupResponse" (DNSLookupResponse_fields local));
    json.mkField "ErrorMessage" api_ErrorMessage
      (fun x r => {| api_DNSLookupResponse := api_DNSLookupResponse r; api_ErrorMessage := x |})
      (json.store_struct "ErrorMessage" ErrorMessage_fields) ].

(** The query of the request that [request] sends: the key, the domain
    name, the default type, then the options in order. *)
Definition request_query (q : Values) (domainName : string) (opts : list Option) : Values :=
  fold_left (fun q opt => opt q) opts
    (Values_Set "type" "_all" (Values_Set "domainName" domainName q)).

(** dnslookup.go: [dnsLookupServiceOp.request]: the two results. *)
Definition request (service : dnsLookupServiceOp) (ctx : Context) (domainName : string)
    (opts : list Option) : option Response * option error :=
  match newRequest service with
  | Ok req =>
      let q := request_query (RawQuery (Request_URL req)) domainName opts in
      let req' :=
        {| Method := Method req;
           Request_URL := {| Location_ := Location_ (Request_URL req); RawQuery := q |};
           Header := Header req |} in
      let '(resp, b, err) := Do (service_client service) ctx req' in
      (Some {| Response_ := resp; Body := b |}, err)
  | Err err => (None, Some err)
  | Panic msg => (None, Some (TransportError msg))
  end.

(** dnslookup.go: [parse] *)
Definition parse (local : time.Zones) (raw : bytes) : result apiResponse :=
  match json.Decode (json.store_struct "apiResponse" (apiResponse_fields local)) raw
          apiResponse_zero with
  | Err err => Err (Wrapped "cannot parse response" err)
  | r => r
  end.

(** dnslookup.go: [dnsLookupServiceOp.Get]: the three results. *)
Definition Get (local : time.Zones) (service : dnsLookupServiceOp) (ctx : Context)
    (domainName : string) (opts : list Option)
  : result (option DNSLookupResponse * option Response * option error) :=
  let optsJSON := opts ++ [OptionOutputFormat "JSON"] in
  let '(resp, err) := request service ctx domainName optsJSON in
  match err with
  | Some err => Ok (None, resp, Some err)
  | None =>
      match resp with
      | None => Panic "nil pointer dereference"
      | Some resp' =>
          match parse local (Body resp') with
          | Panic msg => Panic msg
          | Err err => Ok (None, resp, Some err)
          | Ok dnsLookupResp =>
              let e := api_ErrorMessage dnsLookupResp in
              if negb (String.eqb (Message e) "") || negb (String.eqb (Code e) "") then
                Ok (None, None, Some (ErrorMessageError (Code e) (Message e)))
              else Ok (Some (api_DNSLookupResponse dnsLookupResp), resp, None)
          end
      end
  end.

(** dnslookup.go: [dnsLookupServiceOp.GetRaw]: the two results. *)
Definition GetRaw (service : dnsLookupServiceOp) (ctx : Context) (domainName : string)
    (opts : list Option) : result (option Response * option error) :=
  let '(resp, err) := request service ctx domainName opts in
  match err with
  | Some err => Ok (resp, Some err)
  | None =>
      match resp with
      | None => Panic "nil pointer dereference"
      | Some resp' =>
          result_bind (checkResponse (Response_ resp')) (fun respErr =>
          match respErr with
          | Some e => Ok (resp, Some e)
          | None => Ok (resp, None)
          end)
      end
  end.

(** ** Notions used to state the properties *)

(** The values of the elements of an array, in order. *)
Fixpoint values (es : json.elems) : list json.value :=
  match es with
  | json.ENil => []
  | json.ECons v _ _ es' => v :: values es'
  end.

(** The texts of the top-level elements of a JSON array: [None] when the
    text is not valid JSON or its top-level value is not an array. *)
Definition top_level_elements (data : bytes) : option (list bytes) :=
  match json.checkValid data with
  | Ok (json.Array _ es) => Some (map json.show (values es))
  | _ => None
  end.

(** The envelope of a fragment: the first decode of [parseRecord]. *)
Definition decode_envelope (record : bytes) : result commonFields :=
  result_map obj_commonFields
    (json.Unmarshal (json.store_struct "" obj_fields) record
       {| obj_commonFields := commonFields_zero |}).

(** The full decode of a fragment: its envelope decodes, its tag is in the
    table of [actualDNSType], and the decode into the shape of the tag
    succeeds. *)
Definition decode_full (record : bytes) : option actual :=
  match decode_envelope record with
  | Ok c =>
      match actualDNSType (DNSType c) with
      | Some a =>
          match unmarshal_actual record a with
          | Ok a' => Some a'
          | _ => None
          end
      | None => None
      end
  | _ => None
  end.

(** All the records of the typed lists, list after list. *)
Definition typed_all (r : DNSRecords) : list actual :=
  map ARecordPtr (A r) ++ map AAAARecordPtr (AAAA r) ++ map NSRecordPtr (NS r) ++
  map MXRecordPtr (MX r) ++ map MDRecordPtr (MD r) ++ map MFRecordPtr (MF r) ++
  map MBRecordPtr (MB r) ++ map SOARecordPtr (SOA r) ++ map TXTRecordPtr (TXT r) ++
  map CAARecordPtr (CAA r) ++ map CNAMERecordPtr (CNAME r) ++
  map DNAMERecordPtr (DNAME r) ++ map DNSKEYRecordPtr (DNSKEY r) ++
  map NSEC3PARAMRecordPtr (NSEC3PARAM r) ++ map NSECRecordPtr (NSEC r) ++
  map DSRecordPtr (DS r) ++ map PTRRecordPtr (PTR r) ++ map SRVRecordPtr (SRV r) ++
  map LOCRecordPtr (LOC r) ++ map NAPTRRecordPtr (NAPTR r) ++
  map HINFORecordPtr (HINFO r) ++ map RPRecordPtr (RP r) ++ map DLVRecordPtr (DLV r) ++
  map SSHFPRecordPtr (SSHFP r) ++ map TLSARecordPtr (TLSA r) ++
  map DHCIDRecordPtr (DHCID r) ++ map NSAPRecordPtr (NSAP r) ++
  map NULLRecordPtr (NULL r).

(** ** Notions used in the proofs *)

Import json.

(** The errors that [saveError] keeps while these types are decoded. *)
Definition type_error (s : option error) : Prop :=
  match s with
  | None | Some (UnmarshalTypeError _ _ _ _) => True
  | _ => False
  end.

(** A store is total when it neither panics nor stops the decode, and saves
    nothing but type errors. *)
Definition total {T} (st : json.store T) : Prop :=
  forall c off v old s, exists x s',
    st c off v old s = Ok (x, s') /\ (type_error s -> type_error s').

(** The fields of a struct are total. *)
Definition total_fields {T} (fs : list (json.field T)) : Prop :=
  Forall (fun f => total (json.f_store f)) fs.

(** The errors of [json.Unmarshal] into these types. *)
Definition decode_error (e : error) : Prop :=
  match e with
  | SyntaxError _ | UnmarshalTypeError _ _ _ _ => True
  | _ => False
  end.

(** The error of an entry is a decode error or the sentinel. *)
Definition entry_error (e : option error) : Prop :=
  match e with
  | None | Some ErrUnsupportedDNSType => True
  | Some err => decode_error err
  end.

(** The object that [json.Marshal] writes for an entry of the flat list. *)
Definition wrapper (c : commonFields) (raw parseError : value) : value :=
  marshal_struct
    [ ("CommonFields", marshal_commonFields c); ("raw", raw); ("parseError", parseError) ].

(** The entry that decoding a wrapper gives, whatever it wraps. *)
Definition rewrapped (w : value) : DNSRecord :=
  {| CommonFields := commonFields_zero; Raw := show w;
     ParseError := Some ErrUnsupportedDNSType |}.

(** A value that is a wrapper, well formed and not too deep. *)
Definition is_wrapper (w : value) : Prop :=
  exists c raw e, w = wrapper c raw e /\ wf w /\ (height w < maxNestingDepth)%Z.

(** The request that [request] hands to the HTTP client: the request of
    [newRequest] with the query of [request_query]. *)
Definition sent (req : Request) (domainName : string) (opts : list Option) : Request :=
  {| Method := Method req;
     Request_URL :=
       {| Location_ := Location_ (Request_URL req);
          RawQuery := request_query (RawQuery (Request_URL req)) domainName opts |};
     Header := Header req |}.

(** The HTTP client [h] with the status code of every response replaced. *)
Definition with_status (status : Z) (h : http_Client) : http_Client :=
  {| http_Do := fun ctx req =>
       match http_Do h ctx req with
       | Responded _ body readErr closeErr =>
           Responded {| StatusCode := status |} body readErr closeErr
       | failed => failed
       end |}.

(** The results of [Get] with the status code of the response replaced. *)
Definition restatus (status : Z)
    (r : result (option DNSLookupResponse * option Response * option error))
  : result (option DNSLookupResponse * option Response * option error) :=
  match r with
  | Ok (lookup, Some {| Response_ := Some _; Body := body |}, err) =>
      Ok (lookup, Some {| Response_ := Some {| StatusCode := status |}; Body := body |}, err)
  | _ => r
  end.

(** ** Inputs on which the properties are tried *)

(** An A record and a record whose type is not in the table. *)
Definition two_records : bytes :=
  jq "[{'type':1,'dnsType':'A','name':'example.com.','ttl':300,'rRsetType':1,'rawText':'a','address':'192.0.2.1'},{'dnsType':'XX'}]".

(** An array of one A record, with white space around the record. *)
Definition one_record : bytes :=
  jq "[ {'type':1,'dnsType':'A','name':'example.com.','ttl':300,'rRsetType':1,'rawText':'a','address':'192.0.2.1'} ]".

(** Its envelope, its bytes, and the collection it decodes to. *)
Definition one_record_envelope : commonFields :=
  {| Type_ := 1; DNSType := "A"; Name := "example.com."; TTL := 300; RRsetType := 1;
     RawText := "a" |}.

Definition one_record_raw : bytes :=
  jq "{'type':1,'dnsType':'A','name':'example.com.','ttl':300,'rRsetType':1,'rawText':'a','address':'192.0.2.1'}".

Definition one_record_decoded : DNSRecords :=
  set_A [ {| ARecord_commonFields := one_record_envelope; ARecord_Address := "192.0.2.1" |} ]
    (set_All [ {| CommonFields := one_record_envelope; Raw := one_record_raw;
                  ParseError := None |} ]
       DNSRecords_zero).

(** The object that the encoder writes for the record, the array of it, and
    the collection that the array decodes to. *)
Definition one_record_wrapper : bytes :=
  jq "{'CommonFields':{'type':1,'dnsType':'A','name':'example.com.','ttl':300,'rRsetType':1,'rawText':'a'},'raw':{'type':1,'dnsType':'A','name':'example.com.','ttl':300,'rRsetType':1,'rawText':'a','address':'192.0.2.1'},'parseError':null}".

Definition one_record_encoded : bytes := B "[" ++ one_record_wrapper ++ B "]".

Definition one_record_redecoded : DNSRecords :=
  set_All [ {| CommonFields := commonFields_zero; Raw := one_record_wrapper;
               ParseError := Some ErrUnsupportedDNSType |} ]
    DNSRecords_zero.

(** A service with the key, the user agent, the base URL and the HTTP client
    given. *)
Definition service_with (key ua : string) (base : URL) (h : http_Client) : dnsLookupServiceOp :=
  {| service_client := {| client := h; client_userAgent := ua; apiKey := key |};
     baseURL := base |}.

(** An HTTP client that sends nothing and fails with the output format of
    the request it is given. *)
Definition reporting_format : http_Client :=
  {| http_Do := fun _ req =>
       Failed (TransportError
                 (match RawQuery (Request_URL req) !! "outputFormat" with
                  | Some [format] => format
                  | _ => ""
                  end)) |}.

(** An HTTP client that answers with the status and the body given. *)
Definition answering (status : Z) (body : bytes) : http_Client :=
  {| http_Do := fun _ _ => Responded {| StatusCode := status |} body None None |}.

(** An HTTP client that answers only a request for JSON. *)
Definition answering_JSON_only (status : Z) (body : bytes) : http_Client :=
  {| http_Do := fun _ req =>
       if bool_decide (RawQuery (Request_URL req) !! "outputFormat" = Some ["JSON"])
       then Responded {| StatusCode := status |} body None None
       else Failed (TransportError "unsupported format") |}.

(** An HTTP client that answers with the status and the body given, and
    fails to close the body. *)
Definition closing_with (status : Z) (body : bytes) (e : error) : http_Client :=
  {| http_Do := fun _ _ => Responded {| StatusCode := status |} body None (Some e) |}.

(** The zone data of a process whose local zone is UTC. *)
Definition utc_only : time.Zones :=
  {| time.lookup := fun _ => ("UTC", 0%Z); time.lookupName := fun _ _ => None |}.

(** The base URL of [NewClient] by default. *)
Definition base_url : URL := {| Location_ := defaultDNSLookupURL; RawQuery := ∅ |}.

(** The body with an error envelope that the tests of the package use, and
    a body with a lookup envelope. *)
Definition error_body : bytes :=
  jq "{'ErrorMessage':{'errorCode':'TEST_CODE','msg':'test error message'}}".

Definition data_body : bytes :=
  jq "{'DNSData':{'domainName':'example.com','types':[1],'dnsTypes':'A','audit':{'createdDate':'2022-07-12 11:46:25 UTC','updatedDate':''},'dnsRecords':[{'type':1,'dnsType':'A','name':'example.com.','ttl':300,'rRsetType':1,'rawText':'a','address':'192.0.2.1'}]}}".

(** The input and the expected output of the second case of
    [TestDNSRecords] (models_test.go). *)
Definition models_test_input : bytes :=
  jq "[
{
      'type': 1,
      'dnsType': 'A',
      'name': 'whoisxmlapi.com.',
      'ttl': 300,
      'rRsetType': 1,
      'rawText': 'whoisxmlapi.com.\u0009300\u0009IN\u0009A\u0009172.67.71.123',
      'address': '172.67.71.123'
    },
    {
      'type': 2,
      'dnsType': 'NS',
      'name': 'whoisxmlapi.com.',
      'additionalName': 'elle.ns.cloudflare.com.',
      'ttl': 21600,
      'rRsetType': 2,
      'rawText': 'whoisxmlapi.com.\u000921600\u0009IN\u0009NS\u0009elle.ns.cloudflare.com.',
      'target': 'elle.ns.cloudflare.com.'
    }
]".

Definition models_test_output : bytes :=
  jq ("[" ++
      "{'CommonFields':{'type':1,'dnsType':'A','name':'whoisxmlapi.com.','ttl':300,'rRsetType':1,'rawText':'whoisxmlapi.com.\t300\tIN\tA\t172.67.71.123'}," ++
      "'raw':{'type':1,'dnsType':'A','name':'whoisxmlapi.com.','ttl':300,'rRsetType':1,'rawText':'whoisxmlapi.com.\u0009300\u0009IN\u0009A\u0009172.67.71.123','address':'172.67.71.123'}," ++
      "'parseError':null}," ++
      "{'CommonFields':{'type':2,'dnsType':'NS','name':'whoisxmlapi.com.','ttl':21600,'rRsetType':2,'rawText':'whoisxmlapi.com.\t21600\tIN\tNS\telle.ns.cloudflare.com.'}," ++
      "'raw':{'type':2,'dnsType':'NS','name':'whoisxmlapi.com.','additionalName':'elle.ns.cloudflare.com.','ttl':21600,'rRsetType':2,'rawText':'whoisxmlapi.com.\u000921600\u0009IN\u0009NS\u0009elle.ns.cloudflare.com.','target':'elle.ns.cloudflare.com.'}," ++
      "'parseError':null}]").

(** ** Notions used in the further properties *)

(** The collection that holds, in every list, the records of [r1] followed
    by the records of [r2]. *)
Definition DNSRecords_app (r1 r2 : DNSRecords) : DNSRecords :=
  {| All := All r1 ++ All r2; A := A r1 ++ A r2; AAAA := AAAA r1 ++ AAAA r2;
     NS := NS r1 ++ NS r2; MX := MX r1 ++ MX r2; MD := MD r1 ++ MD r2;
     MF := MF r1 ++ MF r2; MB := MB r1 ++ MB r2; SOA := SOA r1 ++ SOA r2;
     TXT := TXT r1 ++ TXT r2; CAA := CAA r1 ++ CAA r2; CNAME := CNAME r1 ++ CNAME r2;
     DNAME := DNAME r1 ++ DNAME r2; DNSKEY := DNSKEY r1 ++ DNSKEY r2;
     NSEC3PARAM := NSEC3PARAM r1 ++ NSEC3PARAM r2; NSEC := NSEC r1 ++ NSEC r2;
     DS := DS r1 ++ DS r2; PTR := PTR r1 ++ PTR r2; SRV := SRV r1 ++ SRV r2;
     LOC := LOC r1 ++ LOC r2; NAPTR := NAPTR r1 ++ NAPTR r2;
     HINFO := HINFO r1 ++ HINFO r2; RP := RP r1 ++ RP r2; DLV := DLV r1 ++ DLV r2;
     SSHFP := SSHFP r1 ++ SSHFP r2; TLSA := TLSA r1 ++ TLSA r2;
     DHCID := DHCID r1 ++ DHCID r2; NSAP := NSAP r1 ++ NSAP r2;
     NULL := NULL r1 ++ NULL r2 |}.

(** A store that does not panic. *)
Definition safe {T} (st : store T) : Prop :=
  forall c off v old s msg, st c off v old s <> Panic msg.

(** The fields of a struct do not panic. *)
Definition safe_fields {T} (fs : list (field T)) : Prop :=
  Forall (fun f => safe (f_store f)) fs.

(** The options that the package makes. *)
Inductive builtin : Option -> Prop :=
| builtin_format v : builtin (OptionOutputFormat v)
| builtin_type v : builtin (OptionType v)
| builtin_callback v : builtin (OptionCallback v).

(** The envelope that a record of a typed list embeds. *)
Definition envelope_of (a : actual) : commonFields :=
  match a with
  | ARecordPtr x => ARecord_commonFields x
  | AAAARecordPtr x => AAAARecord_commonFields x
  | NSRecordPtr x => NSRecord_commonFields x
  | MXRecordPtr x => MXRecord_commonFields x
  | MDRecordPtr x => MDRecord_commonFields x
  | MFRecordPtr x => MFRecord_commonFields x
  | MBRecordPtr x => MBRecord_commonFields x
  | SOARecordPtr x => SOARecord_commonFields x
  | TXTRecordPtr x => TXTRecord_commonFields x
  | CAARecordPtr x => CAARecord_commonFields x
  | CNAMERecordPtr x => CNAMERecord_commonFields x
  | DNAMERecordPtr x => DNAMERecord_commonFields x
  | DNSKEYRecordPtr x => DNSKEYRecord_commonFields x
  | NSEC3PARAMRecordPtr x => NSEC3PARAMRecord_commonFields x
  | NSECRecordPtr x => NSECRecord_commonFields x
  | DSRecordPtr x => DSRecord_commonFields x
  | PTRRecordPtr x => PTRRecord_commonFields x
  | SRVRecordPtr x => SRVRecord_commonFields x
  | LOCRecordPtr x => LOCRecord_commonFields x
  | NAPTRRecordPtr x => NAPTRRecord_commonFields x
  | HINFORecordPtr x => HINFORecord_commonFields x
  | RPRecordPtr x => RPRecord_commonFields x
  | DLVRecordPtr x => DLVRecord_commonFields x
  | SSHFPRecordPtr x => SSHFPRecord_commonFields x
  | DHCIDRecordPtr x => DHCIDRecord_commonFields x
  | TLSARecordPtr x => TLSARecord_commonFields x
  | NSAPRecordPtr x => NSAPRecord_commonFields x
  | NULLRecordPtr x => NULLRecord_commonFields x
  end.

(** The tag of the case of [parseRecord] that appends a record of this type. *)
Definition tag_of (a : actual) : string :=
  match a with
  | ARecordPtr _ => "A"
  | AAAARecordPtr _ => "AAAA"
  | NSRecordPtr _ => "NS"
  | MXRecordPtr _ => "MX"
  | MDRecordPtr _ => "MD"
  | MFRecordPtr _ => "MF"
  | MBRecordPtr _ => "MB"
  | SOARecordPtr _ => "SOA"
  | TXTRecordPtr _ => "TXT"
  | CAARecordPtr _ => "CAA"
  | CNAMERecordPtr _ => "CNAME"
  | DNAMERecordPtr _ => "DNAME"
  | DNSKEYRecordPtr _ => "DNSKEY"
  | NSEC3PARAMRecordPtr _ => "NSEC3PARAM"
  | NSECRecordPtr _ => "NSEC"
  | DSRecordPtr _ => "DS"
  | PTRRecordPtr _ => "PTR"
  | SRVRecordPtr _ => "SRV"
  | LOCRecordPtr _ => "LOC"
  | NAPTRRecordPtr _ => "NAPTR"
  | HINFORecordPtr _ => "HINFO"
  | RPRecordPtr _ => "RP"
  | DLVRecordPtr _ => "DLV"
  | SSHFPRecordPtr _ => "SSHFP"
  | DHCIDRecordPtr _ => "DHCID"
  | TLSARecordPtr _ => "TLSA"
  | NSAPRecordPtr _ => "NSAP"
  | NULLRecordPtr _ => "NULL"
  end.

(** * Properties *)

(** ** The parser *)

Lemma span_sound p s w r :
  span p s = (w, r) -> s = w ++ r /\ forallb p w = true /\ no_head p r.
Proof.
  revert w r. induction s as [|c s IH]; intros w r; simpl.
  - intros [= <- <-]. repeat split.
  - destruct (p c) eqn:Ep.
    + destruct (span p s) as [w' r'] eqn:Es. intros [= <- <-].
      destruct (IH _ _ eq_refl) as (-> & Hw & Hr). simpl. rewrite Ep. auto.
    + intros [= <- <-]. simpl. auto.
Qed.

Lemma span_complete p w r :
  forallb p w = true -> no_head p r -> span p (w ++ r) = (w, r).
Proof.
  induction w as [|c w IH]; simpl; intros Hw Hr.
  - destruct r as [|c r]; simpl in *; [reflexivity|]. rewrite Hr. reflexivity.
  - apply andb_true_iff in Hw. destruct Hw as [Hc Hw]. rewrite Hc, (IH Hw Hr). reflexivity.
Qed.

Lemma byte_val_range c : (0 <= byte_val c < 256)%Z.
Proof.
  unfold byte_val. pose proof (N_ascii_bounded c) as H. lia.
Qed.

Lemma eqb_char_false (c k : ascii) : (c =? k)%char = false <-> c <> k.
Proof. apply Ascii.eqb_neq. Qed.

Lemma eqb_char_true (c k : ascii) : (c =? k)%char = true <-> c = k.
Proof. apply Ascii.eqb_eq. Qed.

(** *** String literals *)

Lemma scan_string_complete body :
  body_ok body -> forall r, scan_string (body ++ dq :: r) = Done body r.
Proof.
  induction 1 as [|c r' Hq Hb Hc Hr IH|e r' He Hr IH|h1 h2 h3 h4 r' H1 H2 H3 H4 Hr IH];
    intros r.
  - simpl. reflexivity.
  - simpl. apply eqb_char_false in Hq, Hb. rewrite Hq, Hb.
    destruct (byte_val c <? 32)%Z eqn:E; [lia|]. rewrite IH. reflexivity.
  - simpl. rewrite He, IH. reflexivity.
  - simpl. rewrite H1, H2, H3, H4, IH. reflexivity.
Qed.

Lemma scan_string_sound n : forall s body r,
  (length s <= n)%nat -> scan_string s = Done body r -> s = body ++ dq :: r /\ body_ok body.
Proof.
  induction n as [|n IH]; intros s body r Hlen.
  - destruct s; [simpl; discriminate|simpl in Hlen; lia].
  - destruct s as [|c s]; [simpl; discriminate|]. simpl in Hlen. simpl.
    destruct (c =? dq)%char eqn:Eq.
    { apply eqb_char_true in Eq. subst c. intros [= <- <-]. split; [reflexivity|constructor]. }
    destruct (c =? backslash)%char eqn:Eb.
    + apply eqb_char_true in Eb. subst c.
      destruct s as [|e s1]; [discriminate|].
      destruct (isSimpleEscape e) eqn:Ee.
      * unfold scan_map, scan_bind.
        destruct (scan_string s1) as [a|b1 r1] eqn:Es; [discriminate|].
        intros [= <- <-].
        destruct (IH s1 b1 r1 ltac:(simpl in Hlen; lia) Es) as (-> & Hok).
        split; [reflexivity|]. constructor; assumption.
      * destruct (e =? "u")%char eqn:Eu; [|discriminate].
        apply eqb_char_true in Eu. subst e.
        destruct s1 as [|h1 [|h2 [|h3 [|h4 s2]]]];
          try (unfold scan_bind; simpl;
               repeat match goal with |- context [if ?b then _ else _] => destruct b end;
               discriminate).
        destruct (isHex h1 && isHex h2 && isHex h3 && isHex h4) eqn:Eh.
        -- unfold scan_map, scan_bind.
           destruct (scan_string s2) as [a|b1 r1] eqn:Es; [discriminate|].
           intros [= <- <-].
           destruct (IH s2 b1 r1 ltac:(simpl in Hlen; lia) Es) as (-> & Hok).
           split; [reflexivity|].
           apply andb_true_iff in Eh. destruct Eh as [Eh H4].
           apply andb_true_iff in Eh. destruct Eh as [Eh H3].
           apply andb_true_iff in Eh. destruct Eh as [H1 H2].
           constructor; assumption.
        -- unfold scan_bind.
           match goal with |- match ?x with _ => _ end = _ -> _ => destruct x end;
             discriminate.
    + destruct (byte_val c <? 32)%Z eqn:E; [discriminate|].
      unfold scan_map, scan_bind.
      destruct (scan_string s) as [a|b1 r1] eqn:Es; [discriminate|].
      intros [= <- <-].
      destruct (IH s b1 r1 ltac:(lia) Es) as (-> & Hok).
      split; [reflexivity|].
      constructor; try assumption; try lia; apply eqb_char_false; assumption.
Qed.

(** *** Number literals *)

Lemma scan_digits1_local s x r :
  scan_digits1 s = Done x r ->
  s = x ++ r /\ (exists c t, x = c :: t /\ isDigit c = true) /\
  forall r', no_head isDigit r' -> scan_digits1 (x ++ r') = Done x r'.
Proof.
  unfold scan_digits1. destruct s as [|c s]; [discriminate|].
  destruct (isDigit c) eqn:Ec; [|discriminate].
  destruct (span isDigit (c :: s)) as [ds r0] eqn:Es. intros [= <- <-].
  destruct (span_sound _ _ _ _ Es) as (Heq & Hds & Hr).
  simpl in Es. rewrite Ec in Es. destruct (span isDigit s) as [w r1]. injection Es as <- <-.
  split; [exact Heq|]. split; [eauto|].
  intros r' Hr'. cbn [app]. rewrite Ec.
  change (c :: w ++ r') with ((c :: w) ++ r'). rewrite (span_complete _ _ _ Hds Hr').
  reflexivity.
Qed.

Lemma scan_unsigned_local s x r :
  scan_unsigned s = Done x r ->
  s = x ++ r /\ (exists c t, x = c :: t /\ isDigit c = true) /\
  forall r', no_head isDigit r' -> scan_unsigned (x ++ r') = Done x r'.
Proof.
  unfold scan_unsigned. destruct s as [|c s1]; [discriminate|].
  destruct (c =? "0")%char eqn:E0.
  - intros [= <- <-]. apply eqb_char_true in E0. subst c.
    split; [reflexivity|]. split; [exists "0"%char, []; split; reflexivity|].
    intros r' _. reflexivity.
  - destruct (isDigit c) eqn:Ec; [|discriminate].
    destruct (span isDigit s1) as [ds r0] eqn:Es. intros [= <- <-].
    destruct (span_sound _ _ _ _ Es) as (-> & Hds & Hr).
    split; [reflexivity|]. split; [eauto|].
    intros r' Hr'. cbn [app]. rewrite E0, Ec, (span_complete _ _ _ Hds Hr'). reflexivity.
Qed.

Lemma scan_int_local s x r :
  scan_int s = Done x r ->
  s = x ++ r /\ starts_number x /\
  forall r', no_head isDigit r' -> scan_int (x ++ r') = Done x r'.
Proof.
  unfold scan_int. destruct s as [|c s]; [discriminate|].
  destruct (c =? "-")%char eqn:Em.
  - apply eqb_char_true in Em. subst c. unfold scan_map, scan_bind.
    destruct (scan_unsigned s) as [a|y r0] eqn:Eb; [discriminate|].
    intros [= <- <-]. destruct (scan_unsigned_local _ _ _ Eb) as (-> & Hx & Hloc).
    split; [reflexivity|]. split; [exists "-"%char, y; auto|].
    intros r' Hr'. cbn [app]. change ("-" =? "-")%char with true. cbv iota.
    rewrite (Hloc r' Hr'). reflexivity.
  - intros H. destruct (scan_unsigned_local _ _ _ H) as (Heq & (c' & t & -> & Hc') & Hloc).
    split; [exact Heq|]. split; [exists c', t; auto|].
    intros r' Hr'. cbn [app].
    destruct (c' =? "-")%char eqn:Em'.
    { apply eqb_char_true in Em'. subst c'. discriminate Hc'. }
    apply (Hloc r' Hr').
Qed.

Lemma scan_frac_local s x r :
  scan_frac s = Done x r ->
  s = x ++ r /\ (x = [] \/ exists t, x = "."%char :: t) /\
  forall r', no_head isDigit r' -> no_head (fun c => (c =? ".")%char) r' ->
             scan_frac (x ++ r') = Done x r'.
Proof.
  unfold scan_frac. destruct s as [|c s].
  - intros [= <- <-]. split; [reflexivity|]. split; [auto|].
    intros r' _ Hdot. simpl. destruct r' as [|c r']; [reflexivity|].
    simpl in Hdot. rewrite Hdot. reflexivity.
  - destruct (c =? ".")%char eqn:Ed.
    + apply eqb_char_true in Ed. subst c. unfold scan_map, scan_bind.
      destruct (scan_digits1 s) as [a|ds r0] eqn:Es; [discriminate|].
      intros [= <- <-]. destruct (scan_digits1_local _ _ _ Es) as (-> & _ & Hloc).
      split; [reflexivity|]. split; [eauto|].
      intros r' Hr' _. simpl. rewrite (Hloc r' Hr'). reflexivity.
    + intros [= <- <-]. split; [reflexivity|]. split; [auto|].
      intros r' _ Hdot. simpl. destruct r' as [|c' r']; [reflexivity|].
      simpl in Hdot. rewrite Hdot. reflexivity.
Qed.

Lemma scan_exp_local s x r :
  scan_exp s = Done x r ->
  s = x ++ r /\ (x = [] \/ exists c t, x = c :: t /\ isE c = true) /\
  forall r', no_head isDigit r' -> no_head isE r' -> scan_exp (x ++ r') = Done x r'.
Proof.
  unfold scan_exp. fold (isE "e"). destruct s as [|c s].
  - intros [= <- <-]. split; [reflexivity|]. split; [auto|].
    intros r' _ He. simpl. destruct r' as [|c r']; [reflexivity|].
    simpl in He. fold (isE c). rewrite He. reflexivity.
  - fold (isE c). destruct (isE c) eqn:Ec.
    + destruct s as [|g s1]; [discriminate|].
      destruct ((g =? "+")%char || (g =? "-")%char) eqn:Eg.
      * unfold scan_map, scan_bind.
        destruct (scan_digits1 s1) as [a|ds r0] eqn:Es; [discriminate|].
        intros [= <- <-]. destruct (scan_digits1_local _ _ _ Es) as (-> & _ & Hloc).
        split; [reflexivity|]. split; [right; eauto|].
        intros r' Hr' _. cbn [app]. fold (isE c). rewrite Ec, Eg.
        rewrite (Hloc r' Hr'). reflexivity.
      * unfold scan_map, scan_bind.
        destruct (scan_digits1 (g :: s1)) as [a|ds r0] eqn:Es; [discriminate|].
        intros [= <- <-].
        destruct (scan_digits1_local _ _ _ Es) as (Heq & (c' & t & -> & Hc') & Hloc).
        simpl in Heq. injection Heq as <- ->.
        split; [reflexivity|]. split; [right; eauto|].
        intros r' Hr' _. cbn [app]. fold (isE c). rewrite Ec, Eg.
        change (g :: t ++ r') with ((g :: t) ++ r'). rewrite (Hloc r' Hr'). reflexivity.
    + intros [= <- <-]. split; [reflexivity|]. split; [auto|].
      intros r' _ He. simpl. destruct r' as [|c' r']; [reflexivity|].
      simpl in He. fold (isE c'). rewrite He. reflexivity.
Qed.

Lemma stops_no_digit r : stops r -> no_head isDigit r.
Proof. destruct r; simpl; tauto. Qed.

Lemma stops_no_dot r : stops r -> no_head (fun c => (c =? ".")%char) r.
Proof. destruct r as [|c r]; simpl; [tauto|]. intros (_ & H & _). apply eqb_char_false, H. Qed.

Lemma stops_no_E r : stops r -> no_head isE r.
Proof.
  destruct r as [|c r]; simpl; [tauto|]. intros (_ & _ & H1 & H2). unfold isE.
  apply eqb_char_false in H1, H2. rewrite H1, H2. reflexivity.
Qed.

Lemma isE_not_digit c : isE c = true -> isDigit c = false.
Proof.
  unfold isE. intros H. apply orb_true_iff in H.
  destruct H as [H|H]; apply eqb_char_true in H; subst c; reflexivity.
Qed.

Lemma isE_not_dot c : isE c = true -> (c =? ".")%char = false.
Proof.
  unfold isE. intros H. apply orb_true_iff in H.
  destruct H as [H|H]; apply eqb_char_true in H; subst c; reflexivity.
Qed.

(** A number that was scanned is scanned again before any text at which a
    number ends. *)
Lemma scan_number_local s lit r :
  scan_number s = Done lit r ->
  s = lit ++ r /\ starts_number lit /\
  forall r', stops r' -> scan_number (lit ++ r') = Done lit r'.
Proof.
  unfold scan_number, scan_bind.
  destruct (scan_int s) as [a|i r1] eqn:Ei; [discriminate|].
  destruct (scan_frac r1) as [a|f r2] eqn:Ef; [discriminate|].
  destruct (scan_exp r2) as [a|e r3] eqn:Ee; [discriminate|].
  intros [= <- <-].
  destruct (scan_int_local _ _ _ Ei) as (-> & Hi & Hloci).
  destruct (scan_frac_local _ _ _ Ef) as (-> & Hf & Hlocf).
  destruct (scan_exp_local _ _ _ Ee) as (-> & He & Hloce).
  split; [rewrite <- !app_assoc; reflexivity|]. split.
  { destruct Hi as (c & t & -> & Hc). exists c, (t ++ f ++ e). auto. }
  intros r' Hr'.
  assert (Hed : no_head isDigit (e ++ r')).
  { destruct He as [->|(c & t & -> & Hc)]; simpl;
      [apply stops_no_digit, Hr'|apply isE_not_digit, Hc]. }
  assert (Hedot : no_head (fun c => (c =? ".")%char) (e ++ r')).
  { destruct He as [->|(c & t & -> & Hc)]; simpl;
      [apply stops_no_dot, Hr'|apply isE_not_dot, Hc]. }
  assert (Hfd : no_head isDigit (f ++ e ++ r')).
  { destruct Hf as [->|(t & ->)]; simpl; [exact Hed|reflexivity]. }
  rewrite <- !app_assoc.
  rewrite (Hloci _ Hfd), (Hlocf _ Hed Hedot).
  rewrite (Hloce r' (stops_no_digit _ Hr') (stops_no_E _ Hr')). reflexivity.
Qed.

Lemma scan_number_ok s lit r : scan_number s = Done lit r -> number_ok lit.
Proof.
  intros H. destruct (scan_number_local _ _ _ H) as (_ & _ & Hloc).
  specialize (Hloc [] I). rewrite app_nil_r in Hloc. exact Hloc.
Qed.

Lemma number_ok_complete lit r :
  number_ok lit -> stops r -> scan_number (lit ++ r) = Done lit r.
Proof.
  intros H Hr. destruct (scan_number_local _ _ _ H) as (_ & _ & Hloc). apply Hloc, Hr.
Qed.

Lemma number_ok_starts lit : number_ok lit -> starts_number lit.
Proof. intros H. destruct (scan_number_local _ _ _ H) as (_ & Hs & _). exact Hs. Qed.

(** *** Values *)

Lemma scan_map_Done {X Y} (f : X -> Y) (m : scan X) y r :
  scan_map f m = Done y r -> exists x, m = Done x r /\ y = f x.
Proof.
  unfold scan_map, scan_bind. destruct m as [a|x r0]; [discriminate|].
  intros [= <- <-]. eauto.
Qed.

Lemma expect_Done c s r : expect c s = Done tt r -> s = c :: r.
Proof.
  unfold expect. destruct s as [|x s]; [discriminate|].
  destruct (x =? c)%char eqn:E; [|discriminate].
  apply eqb_char_true in E. subst x. intros [= <-]. reflexivity.
Qed.

Lemma expect_all_Done cs : forall s r, expect_all cs s = Done tt r -> s = cs ++ r.
Proof.
  induction cs as [|c cs IH]; intros s r; simpl.
  - intros [= <-]. reflexivity.
  - unfold scan_bind. destruct (expect c s) as [a|[] r0] eqn:E; [discriminate|].
    intros H. apply expect_Done in E. subst s. rewrite (IH _ _ H). reflexivity.
Qed.

Lemma all_ws_span s w r : span isSpace s = (w, r) -> s = w ++ r /\ all_ws w.
Proof. intros H. destruct (span_sound _ _ _ _ H) as (? & ? & ?). split; assumption. Qed.

Ltac fin :=
  repeat split; auto; try discriminate; try tauto; try lia;
  try (unfold quote; repeat (progress (simpl; rewrite <- ?app_assoc)); reflexivity).

(** What the parser returns is a tree of the text it read. *)
Lemma parse_sound fuel :
  (forall d s v r, max_ok d -> parse_value fuel d s = Done v r ->
     s = show v ++ r /\ wf v /\ (d + height v <= maxNestingDepth)%Z /\ (need v <= fuel)%nat) /\
  (forall d s es r, max_ok d -> parse_elems fuel d s = Done es r ->
     es <> ENil /\ s = show_elems es ++ r /\ wf_elems es /\
     (d + height_elems es <= maxNestingDepth)%Z /\ (need_elems es <= fuel)%nat) /\
  (forall d s ms r, max_ok d -> parse_members fuel d s = Done ms r ->
     ms <> MNil /\ s = show_members ms ++ r /\ wf_members ms /\
     (d + height_members ms <= maxNestingDepth)%Z /\ (need_members ms <= fuel)%nat).
Proof.
  unfold max_ok. induction fuel as [|fuel (IHv & IHe & IHm)].
  { repeat split; intros; simpl in *; discriminate. }
  split; [|split].
  - intros d s v r Hd. simpl. destruct s as [|c s]; [discriminate|].
    destruct (c =? "[")%char eqn:E1.
    { apply eqb_char_true in E1. subst c.
      destruct (d <? maxNestingDepth)%Z eqn:Ed; [|discriminate]. apply Z.ltb_lt in Ed.
      destruct (span isSpace s) as [w r1] eqn:Es.
      destruct (all_ws_span _ _ _ Es) as (-> & Hw).
      destruct r1 as [|c1 r2]; [discriminate|].
      destruct (c1 =? "]")%char eqn:E2.
      - apply eqb_char_true in E2. subst c1. intros [= <- <-]. simpl.
        solve [fin].
      - intros H. apply scan_map_Done in H. destruct H as (es & H & ->).
        destruct (IHe (d + 1)%Z _ _ _ ltac:(lia) H) as (Hne & Heq & Hwf & Hh & Hn).
        simpl. rewrite Heq. rewrite <- app_assoc.
        solve [fin]. }
    destruct (c =? "{")%char eqn:E2.
    { apply eqb_char_true in E2. subst c.
      destruct (d <? maxNestingDepth)%Z eqn:Ed; [|discriminate]. apply Z.ltb_lt in Ed.
      destruct (span isSpace s) as [w r1] eqn:Es.
      destruct (all_ws_span _ _ _ Es) as (-> & Hw).
      destruct r1 as [|c1 r2]; [discriminate|].
      destruct (c1 =? "}")%char eqn:E3.
      - apply eqb_char_true in E3. subst c1. intros [= <- <-]. simpl.
        solve [fin].
      - intros H. apply scan_map_Done in H. destruct H as (ms & H & ->).
        destruct (IHm (d + 1)%Z _ _ _ ltac:(lia) H) as (Hne & Heq & Hwf & Hh & Hn).
        simpl. rewrite Heq. rewrite <- app_assoc.
        solve [fin]. }
    destruct (c =? dq)%char eqn:E3.
    { apply eqb_char_true in E3. subst c. intros H.
      apply scan_map_Done in H. destruct H as (body & H & ->).
      destruct (scan_string_sound _ _ _ _ (le_n _) H) as (-> & Hok).
      simpl. unfold quote. rewrite <- app_assoc. simpl.
      solve [fin]. }
    destruct (c =? "t")%char eqn:E4.
    { apply eqb_char_true in E4. subst c. intros H.
      apply scan_map_Done in H. destruct H as ([] & H & ->).
      apply (expect_all_Done (B "rue")) in H. subst s. simpl. solve [fin]. }
    destruct (c =? "f")%char eqn:E5.
    { apply eqb_char_true in E5. subst c. intros H.
      apply scan_map_Done in H. destruct H as ([] & H & ->).
      apply (expect_all_Done (B "alse")) in H. subst s. simpl. solve [fin]. }
    destruct (c =? "n")%char eqn:E6.
    { apply eqb_char_true in E6. subst c. intros H.
      apply scan_map_Done in H. destruct H as ([] & H & ->).
      apply (expect_all_Done (B "ull")) in H. subst s. simpl. solve [fin]. }
    destruct ((c =? "-")%char || isDigit c) eqn:E7; [|discriminate].
    intros H. apply scan_map_Done in H. destruct H as (lit & H & ->).
    destruct (scan_number_local _ _ _ H) as (Heq & _ & _).
    pose proof (scan_number_ok _ _ _ H). simpl. solve [fin].
  - intros d s es r Hd. simpl. unfold scan_bind.
    destruct (parse_value fuel d s) as [a|v r0] eqn:Ev; [discriminate|].
    destruct (IHv _ _ _ _ Hd Ev) as (-> & Hwf & Hh & Hn).
    destruct (span isSpace r0) as [post r1] eqn:Es.
    destruct (all_ws_span _ _ _ Es) as (-> & Hpost).
    destruct r1 as [|c r2]; [discriminate|].
    destruct (c =? "]")%char eqn:E1.
    + apply eqb_char_true in E1. subst c. intros [= <- <-]. simpl.
      rewrite <- !app_assoc. simpl.
      solve [fin].
    + destruct (c =? ",")%char eqn:E2; [|discriminate].
      apply eqb_char_true in E2. subst c.
      destruct (span isSpace r2) as [sep r3] eqn:Es2.
      destruct (all_ws_span _ _ _ Es2) as (-> & Hsep).
      intros H. apply scan_map_Done in H. destruct H as (es' & H & ->).
      destruct (IHe _ _ _ _ Hd H) as (Hne & -> & Hwf' & Hh' & Hn').
      destruct es' as [|v' p' s' es'']; [contradiction|].
      simpl in Hwf', Hh', Hn' |- *. solve [fin].
  - intros d s ms r Hd. simpl. unfold scan_bind.
    destruct (expect dq s) as [a|[] r0] eqn:Eq; [discriminate|].
    apply expect_Done in Eq. subst s.
    destruct (scan_string r0) as [a|key r1] eqn:Ek; [discriminate|].
    destruct (scan_string_sound _ _ _ _ (le_n _) Ek) as (-> & Hkey).
    destruct (span isSpace r1) as [mid1 r2] eqn:Es1.
    destruct (all_ws_span _ _ _ Es1) as (-> & Hmid1).
    destruct (expect ":" r2) as [a|[] r3] eqn:Ec; [discriminate|].
    apply expect_Done in Ec. subst r2.
    destruct (span isSpace r3) as [mid2 r4] eqn:Es2.
    destruct (all_ws_span _ _ _ Es2) as (-> & Hmid2).
    destruct (parse_value fuel d r4) as [a|v r5] eqn:Ev; [discriminate|].
    destruct (IHv _ _ _ _ Hd Ev) as (-> & Hwf & Hh & Hn).
    destruct (span isSpace r5) as [post r6] eqn:Es3.
    destruct (all_ws_span _ _ _ Es3) as (-> & Hpost).
    destruct r6 as [|c r7]; [discriminate|].
    destruct (c =? "}")%char eqn:E1.
    + apply eqb_char_true in E1. subst c. intros [= <- <-]. simpl.
      unfold quote. rewrite <- !app_assoc. simpl. rewrite <- !app_assoc. simpl.
      solve [fin].
    + destruct (c =? ",")%char eqn:E2; [|discriminate].
      apply eqb_char_true in E2. subst c.
      destruct (span isSpace r7) as [sep r8] eqn:Es4.
      destruct (all_ws_span _ _ _ Es4) as (-> & Hsep).
      intros H. apply scan_map_Done in H. destruct H as (ms' & H & ->).
      destruct (IHm _ _ _ _ Hd H) as (Hne & -> & Hwf' & Hh' & Hn').
      destruct ms' as [|k' m1 m2 v' p' s' ms'']; [contradiction|].
      simpl in Hwf', Hh', Hn' |- *. solve [fin].
Qed.

Lemma height_nonneg :
  (forall v, (0 <= height v)%Z) /\ (forall es, (0 <= height_elems es)%Z) /\
  (forall ms, (0 <= height_members ms)%Z).
Proof.
  assert (H : forall n,
    (forall v, (need v <= n)%nat -> (0 <= height v)%Z) /\
    (forall es, (need_elems es <= n)%nat -> (0 <= height_elems es)%Z) /\
    (forall ms, (need_members ms <= n)%nat -> (0 <= height_members ms)%Z)).
  { induction n as [|n (IHv & IHe & IHm)].
    - repeat split.
      + intros v Hn. destruct v; simpl in *; lia.
      + intros es Hn. destruct es; simpl in *; lia.
      + intros ms Hn. destruct ms; simpl in *; lia.
    - repeat split.
      + intros v Hn. destruct v; simpl in *; try lia.
        * specialize (IHe es ltac:(lia)). lia.
        * specialize (IHm ms ltac:(lia)). lia.
      + intros es Hn. destruct es as [|v p s es]; simpl in *; [lia|].
        specialize (IHv v ltac:(lia)). specialize (IHe es ltac:(lia)). lia.
      + intros ms Hn. destruct ms as [|k m1 m2 v p s ms]; simpl in *; [lia|].
        specialize (IHv v ltac:(lia)). specialize (IHm ms ltac:(lia)). lia. }
  repeat split.
  - intros v. apply (proj1 (H (need v))). lia.
  - intros es. apply (proj1 (proj2 (H (need_elems es)))). lia.
  - intros ms. apply (proj2 (proj2 (H (need_members ms)))). lia.
Qed.

Lemma digit_cases c :
  isDigit c = true ->
  isSpace c = false /\ c <> "]"%char /\ c <> "["%char /\ c <> "{"%char /\ c <> dq /\
  c <> "t"%char /\ c <> "f"%char /\ c <> "n"%char.
Proof.
  intros H. repeat split; try (intros ->; discriminate H).
  destruct (isSpace c) eqn:E; [|reflexivity]. unfold isSpace in E.
  repeat (apply orb_true_iff in E; destruct E as [E|E]);
    apply eqb_char_true in E; subst c; discriminate H.
Qed.

Lemma show_head v : wf v -> value_head (show v).
Proof.
  destruct v; simpl; intros Hwf;
    try (eexists _, _; split; [reflexivity|split; [reflexivity|discriminate]]).
  - apply number_ok_starts in Hwf. destruct Hwf as (c & t & -> & [->|Hc]).
    + eexists _, _; split; [reflexivity|split; [reflexivity|discriminate]].
    + exists c, t. destruct (digit_cases c Hc) as (? & ? & _). auto.
Qed.

Lemma ws_stops c r : isSpace c = true -> stops (c :: r).
Proof.
  unfold isSpace. intros E.
  repeat (apply orb_true_iff in E; destruct E as [E|E]);
    apply eqb_char_true in E; subst c; simpl; repeat split; discriminate.
Qed.

Lemma ws_then_stops w c r :
  all_ws w -> stops (c :: r) -> stops (w ++ c :: r).
Proof.
  destruct w as [|x w]; simpl; [auto|]. intros Hw _.
  apply andb_true_iff in Hw. destruct Hw as [Hx _]. apply (ws_stops x (w ++ c :: r)) in Hx.
  exact Hx.
Qed.

Lemma no_space_head_value v r : wf v -> no_head isSpace (show v ++ r).
Proof.
  intros Hwf. destruct (show_head v Hwf) as (c & t & -> & Hc & _). exact Hc.
Qed.

Lemma after_ok_stops v r : stops r -> after_ok v r.
Proof. destruct v; simpl; auto. Qed.

Lemma parse_number_head fuel d c t r :
  (c = "-"%char \/ isDigit c = true) ->
  parse_value (S fuel) d (c :: t ++ r) = scan_map Number (scan_number (c :: t ++ r)).
Proof.
  intros [->|Hc]; [reflexivity|].
  destruct (digit_cases c Hc) as (_ & _ & H1 & H2 & H3 & H4 & H5 & H6).
  apply eqb_char_false in H1, H2, H3, H4, H5, H6.
  cbn [parse_value]. rewrite H1, H2, H3, H4, H5, H6, Hc, orb_true_r. reflexivity.
Qed.

(** The parser reads the text of a tree back. *)
Lemma parse_complete fuel :
  (forall v d r, wf v -> (need v <= fuel)%nat -> (d + height v <= maxNestingDepth)%Z ->
     after_ok v r -> parse_value fuel d (show v ++ r) = Done v r) /\
  (forall es d r, es <> ENil -> wf_elems es -> (need_elems es <= fuel)%nat ->
     (d + height_elems es <= maxNestingDepth)%Z ->
     parse_elems fuel d (show_elems es ++ r) = Done es r) /\
  (forall ms d r, ms <> MNil -> wf_members ms -> (need_members ms <= fuel)%nat ->
     (d + height_members ms <= maxNestingDepth)%Z ->
     parse_members fuel d (show_members ms ++ r) = Done ms r).
Proof.
  destruct height_nonneg as (Hhv & Hhe & Hhm).
  induction fuel as [|fuel (IHv & IHe & IHm)].
  { repeat split.
    - intros v d r _ Hn. destruct v; simpl in Hn; lia.
    - intros es d r Hne _ Hn. destruct es; [contradiction|simpl in Hn; lia].
    - intros ms d r Hne _ Hn. destruct ms; [contradiction|simpl in Hn; lia]. }
  split; [|split].
  - intros v d r Hwf Hn Hh Haft. destruct v.
    + reflexivity.
    + reflexivity.
    + reflexivity.
    + simpl in Hwf, Haft. cbn [show].
      destruct (number_ok_starts _ Hwf) as (c & t & -> & Hc).
      change ((c :: t) ++ r) with (c :: t ++ r). rewrite (parse_number_head _ _ _ _ _ Hc).
      change (c :: t ++ r) with ((c :: t) ++ r).
      rewrite (number_ok_complete _ _ Hwf Haft). reflexivity.
    + simpl in Hwf. cbn [show]. unfold quote. cbn [app]. rewrite <- app_assoc. cbn [app].
      cbn [parse_value]. change (dq =? "[")%char with false. change (dq =? "{")%char with false.
      change (dq =? dq)%char with true. cbv iota.
      rewrite (scan_string_complete _ Hwf). reflexivity.
    + simpl in Hwf, Hn, Hh. destruct Hwf as [Hw Hes]. cbn [show app]. rewrite <- app_assoc.
      cbn [parse_value]. change ("[" =? "[")%char with true. cbv iota.
      specialize (Hhe es).
      destruct (d <? maxNestingDepth)%Z eqn:Ed; [|apply Z.ltb_ge in Ed; lia].
      destruct es as [|v p s es].
      * cbn [show_elems app]. rewrite (span_complete _ w ("]"%char :: r) Hw eq_refl).
        reflexivity.
      * assert (Hhead : no_head isSpace (show_elems (ECons v p s es) ++ r)).
        { cbn [show_elems]. rewrite <- app_assoc. apply no_space_head_value. apply Hes. }
        rewrite (span_complete _ w _ Hw Hhead).
        destruct (show_head v (proj1 Hes)) as (c & t & Hshow & _ & Hc).
        assert (Heq : exists t', show_elems (ECons v p s es) ++ r = c :: t').
        { cbn [show_elems]. rewrite Hshow. cbn [app]. eauto. }
        destruct Heq as [t' Heq]. rewrite Heq. apply eqb_char_false in Hc. rewrite Hc.
        rewrite <- Heq.
        rewrite (IHe (ECons v p s es) (d + 1)%Z r ltac:(discriminate) Hes ltac:(lia) ltac:(lia)).
        reflexivity.
    + simpl in Hwf, Hn, Hh. destruct Hwf as [Hw Hms]. cbn [show app]. rewrite <- app_assoc.
      cbn [parse_value]. change ("{" =? "[")%char with false.
      change ("{" =? "{")%char with true. cbv iota.
      specialize (Hhm ms).
      destruct (d <? maxNestingDepth)%Z eqn:Ed; [|apply Z.ltb_ge in Ed; lia].
      destruct ms as [|k m1 m2 v p s ms].
      * cbn [show_members app]. rewrite (span_complete _ w ("}"%char :: r) Hw eq_refl).
        reflexivity.
      * cbn [show_members]. unfold quote. cbn [app].
        rewrite (span_complete _ w (dq :: _) Hw eq_refl).
        change (dq =? "}")%char with false. cbv iota.
        pose proof (IHm (MCons k m1 m2 v p s ms) (d + 1)%Z r ltac:(discriminate) Hms
                      ltac:(lia) ltac:(lia)) as Hp.
        cbn [show_members] in Hp. unfold quote in Hp. cbn [app] in Hp.
        rewrite Hp. reflexivity.
  - intros es d r Hne Hwf Hn Hh. destruct es as [|v post sep es]; [contradiction|].
    simpl in Hwf, Hn, Hh. destruct Hwf as (Hv & Hpost & Hsep & Hlast & Hes).
    specialize (Hhv v). specialize (Hhe es).
    cbn [parse_elems show_elems]. rewrite <- !app_assoc. unfold scan_bind.
    destruct es as [|v' p' s' es'].
    + cbn [app]. rewrite (IHv v d _ Hv ltac:(lia) ltac:(lia)).
      2:{ apply after_ok_stops, ws_then_stops; [exact Hpost|]. simpl.
          repeat split; discriminate. }
      rewrite (span_complete _ post ("]"%char :: r) Hpost eq_refl).
      change ("]" =? "]")%char with true. cbv iota. rewrite (Hlast eq_refl). reflexivity.
    + cbn [app]. rewrite <- !app_assoc.
      rewrite (IHv v d _ Hv ltac:(lia) ltac:(lia)).
      2:{ apply after_ok_stops, ws_then_stops; [exact Hpost|]. simpl.
          repeat split; discriminate. }
      rewrite (span_complete _ post (","%char :: _) Hpost eq_refl).
      change ("," =? "]")%char with false. change ("," =? ",")%char with true. cbv iota.
      assert (Hhead : no_head isSpace (show_elems (ECons v' p' s' es') ++ r)).
      { cbn [show_elems]. rewrite <- app_assoc. apply no_space_head_value. apply Hes. }
      rewrite (span_complete _ sep _ Hsep Hhead).
      rewrite (IHe (ECons v' p' s' es') d r ltac:(discriminate) Hes ltac:(lia) ltac:(lia)).
      reflexivity.
  - intros ms d r Hne Hwf Hn Hh. destruct ms as [|key mid1 mid2 v post sep ms]; [contradiction|].
    simpl in Hwf, Hn, Hh.
    destruct Hwf as (Hkey & Hmid1 & Hmid2 & Hv & Hpost & Hsep & Hlast & Hms).
    specialize (Hhv v). specialize (Hhm ms).
    cbn [parse_members show_members]. unfold quote. cbn [app]. rewrite <- !app_assoc.
    cbn [app expect]. change (dq =? dq)%char with true. cbv iota. unfold scan_bind at 1.
    cbv iota beta. rewrite <- !app_assoc. cbn [app].
    rewrite (scan_string_complete _ Hkey). unfold scan_bind at 1. cbv iota beta.
    rewrite (span_complete _ mid1 (":"%char :: _) Hmid1 eq_refl).
    cbn [expect]. change (":" =? ":")%char with true. cbv iota. unfold scan_bind at 1.
    cbv iota beta.
    assert (Hhead : forall t, no_head isSpace (show v ++ t)).
    { intros t. apply no_space_head_value, Hv. }
    rewrite (span_complete _ mid2 _ Hmid2 (Hhead _)).
    destruct ms as [|k' m1' m2' v' p' s' ms'].
    + cbn [app]. rewrite (IHv v d _ Hv ltac:(lia) ltac:(lia)).
      2:{ apply after_ok_stops, ws_then_stops; [exact Hpost|]. simpl.
          repeat split; discriminate. }
      unfold scan_bind. rewrite (span_complete _ post ("}"%char :: r) Hpost eq_refl).
      change ("}" =? "}")%char with true. cbv iota. rewrite (Hlast eq_refl). reflexivity.
    + cbn [app]. rewrite <- !app_assoc.
      rewrite (IHv v d _ Hv ltac:(lia) ltac:(lia)).
      2:{ apply after_ok_stops, ws_then_stops; [exact Hpost|]. simpl.
          repeat split; discriminate. }
      unfold scan_bind at 1. cbv iota beta.
      rewrite (span_complete _ post (","%char :: _) Hpost eq_refl).
      change ("," =? "}")%char with false. change ("," =? ",")%char with true. cbv iota.
      assert (Hhead' : no_head isSpace (show_members (MCons k' m1' m2' v' p' s' ms') ++ r)).
      { cbn [show_members]. unfold quote. reflexivity. }
      rewrite (span_complete _ sep _ Hsep Hhead').
      rewrite (IHm (MCons k' m1' m2' v' p' s' ms') d r ltac:(discriminate) Hms
                 ltac:(lia) ltac:(lia)).
      reflexivity.
Qed.

(** The fuel of [parse_document] is enough for the tree of any text. *)
Lemma need_bound :
  forall n,
  (forall v, (need v <= n)%nat -> (need v <= 2 * length (show v) + 1)%nat) /\
  (forall es, (need_elems es <= n)%nat -> (need_elems es <= 2 * length (show_elems es))%nat) /\
  (forall ms, (need_members ms <= n)%nat ->
              (need_members ms <= 2 * length (show_members ms))%nat).
Proof.
  induction n as [|n (IHv & IHe & IHm)].
  - repeat split.
    + intros v Hn. destruct v; simpl in *; lia.
    + intros es Hn. destruct es; simpl in *; lia.
    + intros ms Hn. destruct ms; simpl in *; lia.
  - repeat split.
    + intros v Hn. destruct v; cbn [need show] in *; try lia.
      * specialize (IHe es ltac:(lia)). cbn [length]. rewrite length_app. lia.
      * specialize (IHm ms ltac:(lia)). cbn [length]. rewrite length_app. lia.
    + intros es Hn. destruct es as [|v p s es]; cbn [need_elems show_elems] in *; [lia|].
      specialize (IHv v ltac:(lia)). specialize (IHe es ltac:(lia)).
      match goal with |- context [match es with ENil => ?a | ECons _ _ _ _ => ?b end] =>
        assert (Ht : (1 <= length (match es with ENil => a | ECons _ _ _ _ => b end) /\
                      need_elems es + 1 <=
                      2 * length (match es with ENil => a | ECons _ _ _ _ => b end))%nat)
          by (destruct es; cbn [length need_elems] in *; rewrite ?length_app; lia);
        generalize dependent (match es with ENil => a | ECons _ _ _ _ => b end)
      end.
      intros tail Ht. rewrite !length_app. lia.
    + intros ms Hn. destruct ms as [|k m1 m2 v p s ms];
        cbn [need_members show_members] in *; [lia|].
      specialize (IHv v ltac:(lia)). specialize (IHm ms ltac:(lia)).
      match goal with |- context [match ms with MNil => ?a | MCons _ _ _ _ _ _ _ => ?b end] =>
        assert (Ht : (1 <= length (match ms with MNil => a | MCons _ _ _ _ _ _ _ => b end) /\
                      need_members ms + 1 <=
                      2 * length (match ms with MNil => a | MCons _ _ _ _ _ _ _ => b end))%nat)
          by (destruct ms; cbn [length need_members] in *; rewrite ?length_app; lia);
        generalize dependent (match ms with MNil => a | MCons _ _ _ _ _ _ _ => b end)
      end.
      intros tail Ht. rewrite !length_app. cbn [length]. rewrite !length_app. lia.
Qed.

Lemma need_show v : (need v <= 2 * length (show v) + 1)%nat.
Proof. apply (proj1 (need_bound (need v))). lia. Qed.

(** A tree is the tree of its text. *)
Lemma checkValid_show v :
  wf v -> (height v <= maxNestingDepth)%Z -> checkValid (show v) = Ok v.
Proof.
  intros Hwf Hh. unfold checkValid, parse_document.
  pose proof (no_space_head_value v [] Hwf) as Hhead. rewrite app_nil_r in Hhead.
  pose proof (span_complete isSpace [] (show v) eq_refl Hhead) as Hs. simpl in Hs.
  rewrite Hs. unfold scan_bind.
  pose proof (proj1 (parse_complete (2 * length (show v) + 2)) v 0%Z [] Hwf) as Hp.
  rewrite app_nil_r in Hp. rewrite Hp; [reflexivity| | |].
  - pose proof (need_show v). lia.
  - lia.
  - destruct v; simpl; auto.
Qed.

(** The tree of a valid text: the text is the text of the tree, with white
    space around it. *)
Lemma checkValid_sound data v :
  checkValid data = Ok v ->
  exists w1 w2, data = w1 ++ show v ++ w2 /\ all_ws w1 /\ all_ws w2 /\ wf v /\
                (height v <= maxNestingDepth)%Z /\
                w1 = fst (span isSpace data).
Proof.
  unfold checkValid, parse_document.
  destruct (span isSpace data) as [w1 r] eqn:Es1.
  destruct (all_ws_span _ _ _ Es1) as (-> & Hw1). unfold scan_bind.
  destruct (parse_value _ 0 r) as [a|v' r1] eqn:Ep; [discriminate|].
  destruct (span isSpace r1) as [w2 r2] eqn:Es2.
  destruct (all_ws_span _ _ _ Es2) as (-> & Hw2).
  destruct r2; [|discriminate]. intros [= <-].
  assert (H0 : max_ok 0) by (unfold max_ok, maxNestingDepth; lia).
  destruct (proj1 (parse_sound _) _ _ _ _ H0 Ep) as (-> & Hwf & Hh & _).
  exists w1, w2. rewrite app_nil_r. repeat split; auto.
Qed.

(** *** What the encoder writes can be read back *)

Lemma body_ok_app a b : body_ok a -> body_ok b -> body_ok (a ++ b).
Proof.
  induction 1; intros Hb; simpl; [exact Hb| | |].
  - apply body_plain; auto.
  - apply body_esc; auto.
  - apply body_u; auto.
Qed.

Lemma hexdigit_isHex n : (0 <= n < 16)%Z -> isHex (hexdigit n) = true.
Proof.
  intros Hn.
  assert (H : exists k : nat, n = Z.of_nat k /\ (k < 16)%nat)
    by (exists (Z.to_nat n); lia).
  destruct H as (k & -> & Hk).
  do 16 (destruct k as [|k]; [reflexivity|]). lia.
Qed.

Lemma high_plain c r :
  (128 <= byte_val c)%Z -> body_ok r -> body_ok (c :: r).
Proof.
  intros Hc Hr. constructor; auto; try lia; intros ->; vm_compute in Hc; apply Hc; reflexivity.
Qed.

Lemma u00_ok c r : body_ok r -> body_ok (u00 c ++ r).
Proof.
  intros Hr. unfold u00. pose proof (byte_val_range c) as Hc.
  unfold B. cbn [list_ascii_of_string app].
  apply body_u; auto; apply hexdigit_isHex.
  - split; [apply Z.div_pos; lia|apply Z.div_lt_upper_bound; lia].
  - apply Z.mod_pos_bound. lia.
Qed.

Lemma escape_ascii_ok c r : body_ok r -> body_ok (escape_ascii c ++ r).
Proof.
  intros Hr. unfold escape_ascii.
  destruct ((c =? dq)%char || (c =? backslash)%char) eqn:E1.
  { apply orb_true_iff in E1. destruct E1 as [E|E]; apply eqb_char_true in E; subst c;
      cbn [app]; apply body_esc; auto. }
  destruct (c =? "010")%char; [apply (body_esc "n"%char); auto|].
  destruct (c =? "013")%char; [apply (body_esc "r"%char); auto|].
  destruct (c =? "009")%char; [apply (body_esc "t"%char); auto|].
  apply u00_ok, Hr.
Qed.

Lemma htmlSafe_plain c r : htmlSafe c = true -> body_ok r -> body_ok (c :: r).
Proof.
  unfold htmlSafe. intros H Hr.
  apply andb_true_iff in H. destruct H as [H Hn].
  apply andb_true_iff in H. destruct H as [H1 H2].
  apply negb_true_iff in Hn.
  repeat (apply orb_false_iff in Hn; destruct Hn as [Hn ?]).
  constructor; auto; try lia; apply eqb_char_false; assumption.
Qed.

Lemma between_high lo hi c : (128 <= lo)%Z -> between lo hi c = true -> (128 <= byte_val c)%Z.
Proof. unfold between. intros Hlo H. apply andb_true_iff in H. lia. Qed.

Lemma utf8_tail_highs c r k : utf8_tail (c :: r) = Some k -> highs k r.
Proof.
  unfold utf8_tail. cbv zeta.
  destruct r as [|c1 [|c2 [|c3 r]]];
  repeat match goal with
         | |- context [if ?b then _ else _] => destruct b eqn:?
         end;
  try discriminate; intros [= <-];
  repeat match goal with
         | H : _ && _ = true |- _ => apply andb_true_iff in H; destruct H
         end;
  simpl; repeat split;
  repeat match goal with
         | H : context [if ?b then _ else _] |- _ => destruct b
         end;
  (eapply between_high; [|eassumption]; lia).
Qed.

Lemma isLineSep_hex s h : isLineSep s = Some h -> isHex h = true.
Proof.
  unfold isLineSep. destruct s as [|c0 [|c1 [|c2 s]]]; try discriminate.
  destruct (_ && _); [|discriminate]. intros [= <-].
  apply hexdigit_isHex. apply Z.mod_pos_bound. lia.
Qed.

(** The bytes that [encodeState.string] writes between the quotes are the
    bytes of a string literal. *)
Lemma encode_from_ok s : forall p, pending_ok p s -> body_ok (encode_from p s).
Proof.
  induction s as [|c r IH]; intros p Hp; [destruct p as [|[|k]|[|k]]; constructor|].
  assert (Hfresh : body_ok
    (if (byte_val c <? 128)%Z
     then (if htmlSafe c then [c] else escape_ascii c) ++ encode_from Fresh r
     else
       match utf8_tail (c :: r) with
       | Some k =>
           match isLineSep (c :: r) with
           | Some h => B "\u202" ++ h :: encode_from (Drop k) r
           | None => c :: encode_from (Copy k) r
           end
       | None => backslash :: B "ufffd" ++ encode_from Fresh r
       end)).
  { destruct (byte_val c <? 128)%Z eqn:Ec.
    - destruct (htmlSafe c) eqn:Eh.
      + apply htmlSafe_plain; [exact Eh|apply IH; exact I].
      + apply escape_ascii_ok. apply IH. exact I.
    - destruct (utf8_tail (c :: r)) as [k|] eqn:Et.
      + destruct (isLineSep (c :: r)) as [h|] eqn:El.
        * unfold B. cbn [list_ascii_of_string app].
          apply body_u; auto; [eapply isLineSep_hex, El|apply IH; exact I].
        * apply high_plain; [lia|]. apply IH. simpl. eapply utf8_tail_highs, Et.
      + unfold B. cbn [list_ascii_of_string app].
        apply body_u; auto. apply IH. exact I. }
  destruct p as [|[|k]|[|k]]; cbn [encode_from]; try exact Hfresh.
  - simpl in Hp. destruct Hp as [Hc Hk]. apply high_plain; [exact Hc|]. apply IH. exact Hk.
  - apply IH. exact I.
Qed.

Lemma digit_byte n : (0 <= n < 10)%Z -> isDigit (byte_of (48 + n)) = true.
Proof.
  intros Hn.
  assert (H : exists k : nat, n = Z.of_nat k /\ (k < 10)%nat)
    by (exists (Z.to_nat n); lia).
  destruct H as (k & -> & Hk).
  do 10 (destruct k as [|k]; [reflexivity|]). lia.
Qed.

Lemma digit_byte_nonzero n : (0 < n < 10)%Z -> byte_of (48 + n) <> "0"%char.
Proof.
  intros Hn.
  assert (H : exists k : nat, n = Z.of_nat (S k) /\ (k < 9)%nat)
    by (exists (Z.to_nat (n - 1)); lia).
  destruct H as (k & -> & Hk).
  do 9 (destruct k as [|k]; [discriminate|]). lia.
Qed.

Lemma digits_of_spec fuel : forall n acc,
  (0 <= n < 10 ^ Z.of_nat (S fuel))%Z -> forallb isDigit acc = true ->
  exists d ds, digits_of (S fuel) n acc = d :: ds /\ isDigit d = true /\
               forallb isDigit ds = true /\ (0 < n -> d <> "0"%char)%Z /\
               (n = 0%Z -> ds = acc).
Proof.
  induction fuel as [|fuel IH]; intros n acc Hn Hacc; cbn [digits_of];
    destruct (n <? 10)%Z eqn:E.
  - apply Z.ltb_lt in E. exists (byte_of (48 + n)), acc.
    repeat split; auto; [apply digit_byte; lia|intros; apply digit_byte_nonzero; lia].
  - apply Z.ltb_ge in E. change (10 ^ Z.of_nat 1)%Z with 10%Z in Hn. lia.
  - apply Z.ltb_lt in E. exists (byte_of (48 + n)), acc.
    repeat split; auto; [apply digit_byte; lia|intros; apply digit_byte_nonzero; lia].
  - apply Z.ltb_ge in E.
    destruct (IH (n / 10)%Z (byte_of (48 + n mod 10) :: acc)) as (d & ds & Hd & H1 & H2 & H3 & _).
    + split; [apply Z.div_pos; lia|]. apply Z.div_lt_upper_bound; [lia|].
      rewrite (Nat2Z.inj_succ (S fuel)), Z.pow_succ_r in Hn by lia. lia.
    + simpl. rewrite digit_byte by (apply Z.mod_pos_bound; lia). exact Hacc.
    + cbn [digits_of] in Hd. exists d, ds. repeat split; auto; [|lia].
      intros _. apply H3. apply Z.div_str_pos. lia.
Qed.

Lemma digits_number d ds :
  isDigit d = true -> forallb isDigit ds = true -> (d = "0"%char -> ds = []) ->
  scan_number (d :: ds) = Done (d :: ds) [] /\
  scan_number ("-"%char :: d :: ds) = Done ("-"%char :: d :: ds) [].
Proof.
  intros Hd Hds H0.
  assert (Hu : scan_unsigned (d :: ds) = Done (d :: ds) []).
  { unfold scan_unsigned. destruct (d =? "0")%char eqn:E.
    - apply eqb_char_true in E. rewrite (H0 E). reflexivity.
    - rewrite Hd. pose proof (span_complete isDigit ds [] Hds I) as Hs.
      rewrite app_nil_r in Hs. rewrite Hs. reflexivity. }
  assert (Hm : (d =? "-")%char = false).
  { apply eqb_char_false. intros ->. discriminate Hd. }
  unfold scan_number, scan_int. rewrite Hm. unfold scan_map, scan_bind.
  change ("-" =? "-")%char with true. cbv iota. rewrite Hu. simpl.
  rewrite !app_nil_r. split; reflexivity.
Qed.

(** [strconv.AppendInt] writes a number literal. *)
Lemma FormatInt_ok n : number_ok (FormatInt n).
Proof.
  assert (Hfuel : forall m, (0 <= m)%Z -> (0 <= m < 10 ^ Z.of_nat (S (Z.to_nat (Z.log2 m))))%Z).
  { intros m Hm. split; [exact Hm|].
    destruct (Z.eq_dec m 0%Z) as [->|Hne]; [reflexivity|].
    pose proof (Z.log2_spec m ltac:(lia)) as [_ Hlt].
    pose proof (Z.log2_nonneg m) as Hl.
    rewrite Nat2Z.inj_succ, Z2Nat.id by lia.
    eapply Z.lt_le_trans; [exact Hlt|]. apply Z.pow_le_mono_l. lia. }
  unfold number_ok, FormatInt.
  destruct (n <? 0)%Z eqn:E.
  - apply Z.ltb_lt in E.
    assert (Hn' : (0 <= - n)%Z) by lia.
    destruct (digits_of_spec _ (- n)%Z [] (Hfuel _ Hn') eq_refl)
      as (d & ds & -> & Hd & Hds & Hnz & _).
    apply digits_number; auto. intros ->. exfalso. apply Hnz; [lia|reflexivity].
  - apply Z.ltb_ge in E.
    destruct (digits_of_spec _ n [] (Hfuel _ E) eq_refl)
      as (d & ds & -> & Hd & Hds & Hnz & Hz).
    apply digits_number; auto. intros ->.
    destruct (Z.eq_dec n 0%Z) as [Hn|Hn]; [apply Hz, Hn|].
    exfalso. apply Hnz; [lia|reflexivity].
Qed.

(** *** Compacting a valid text *)

Lemma escapeHTML_copy c r :
  isHTML c = false -> byte_val c <> 226%Z ->
  escapeHTML_from 0 (c :: r) = c :: escapeHTML_from 0 r.
Proof.
  intros Hc Hb. cbn [escapeHTML_from]. fold (isHTML c). rewrite Hc.
  unfold isLineSep. destruct r as [|c1 [|c2 r]]; try reflexivity.
  replace (byte_val c =? 226)%Z with false by (symmetry; apply Z.eqb_neq, Hb).
  reflexivity.
Qed.

Lemma isHex_copy h r :
  isHex h = true -> escapeHTML_from 0 (h :: r) = h :: escapeHTML_from 0 r.
Proof.
  intros Hh. apply escapeHTML_copy.
  - destruct h as [[] [] [] [] [] [] [] []]; try discriminate Hh; reflexivity.
  - destruct h as [[] [] [] [] [] [] [] []]; try discriminate Hh; vm_compute; discriminate.
Qed.

Lemma isSimpleEscape_copy e r :
  isSimpleEscape e = true -> escapeHTML_from 0 (e :: r) = e :: escapeHTML_from 0 r.
Proof.
  intros He. apply escapeHTML_copy.
  - destruct e as [[] [] [] [] [] [] [] []]; try discriminate He; reflexivity.
  - destruct e as [[] [] [] [] [] [] [] []]; try discriminate He; vm_compute; discriminate.
Qed.

Lemma isLineSep_shape s h :
  isLineSep s = Some h ->
  exists c0 c1 c2 r, s = c0 :: c1 :: c2 :: r /\ (128 <= byte_val c1)%Z /\
                     (128 <= byte_val c2)%Z.
Proof.
  unfold isLineSep. destruct s as [|c0 [|c1 [|c2 r]]]; try discriminate.
  destruct (_ && _) eqn:E; [|discriminate]. intros _.
  apply andb_true_iff in E. destruct E as [E E2].
  apply andb_true_iff in E. destruct E as [E0 E1].
  apply orb_true_iff in E2.
  exists c0, c1, c2, r. repeat split; lia.
Qed.

Lemma body_ok_high c r : (128 <= byte_val c)%Z -> body_ok (c :: r) -> body_ok r.
Proof.
  intros Hc H. inversion H; subst; auto; vm_compute in Hc; exfalso; apply Hc; reflexivity.
Qed.

(** Escaping the HTML characters of a string literal gives a string
    literal. *)
Lemma escapeHTML_ok body : body_ok body -> body_ok (escapeHTML body).
Proof.
  unfold escapeHTML.
  assert (H : forall n s, (length s <= n)%nat -> body_ok s -> body_ok (escapeHTML_from 0 s)).
  { induction n as [|n IH]; intros s Hn Hs.
    - destruct s; [constructor|simpl in Hn; lia].
    - inversion Hs as [|c r Hq Hb Hc Hr|e r He Hr|h1 h2 h3 h4 r H1 H2 H3 H4 Hr]; subst.
      + constructor.
      + cbn [escapeHTML_from]. fold (isHTML c).
        destruct (isHTML c) eqn:Eh.
        { apply u00_ok. apply IH; [simpl in Hn; lia|exact Hr]. }
        destruct (isLineSep (c :: r)) as [h|] eqn:El.
        * destruct (isLineSep_shape _ _ El) as (c0 & c1 & c2 & r' & [= -> ->] & Hc1 & Hc2).
          unfold B. cbn [list_ascii_of_string app escapeHTML_from].
          apply body_u; auto; [eapply isLineSep_hex, El|].
          apply IH; [simpl in Hn; lia|].
          eapply body_ok_high; [exact Hc2|]. eapply body_ok_high; [exact Hc1|exact Hr].
        * apply body_plain; auto. apply IH; [simpl in Hn; lia|exact Hr].
      + rewrite escapeHTML_copy by (vm_compute; first [reflexivity|discriminate]).
        rewrite isSimpleEscape_copy by exact He.
        apply body_esc; [exact He|]. apply IH; [simpl in Hn; lia|exact Hr].
      + rewrite escapeHTML_copy by (vm_compute; first [reflexivity|discriminate]).
        rewrite escapeHTML_copy by (vm_compute; first [reflexivity|discriminate]).
        rewrite !isHex_copy by assumption.
        apply body_u; auto. apply IH; [simpl in Hn; lia|exact Hr]. }
  intros Hb. apply (H (length body)); [lia|exact Hb].
Qed.

Lemma all_ws_nil : all_ws [].
Proof. reflexivity. Qed.

(** Compacting keeps a tree well formed and as high as it was. *)
Lemma compact_wf :
  (forall v, wf v -> wf (compact v)) /\
  (forall es, wf_elems es -> wf_elems (compact_elems es)) /\
  (forall ms, wf_members ms -> wf_members (compact_members ms)).
Proof.
  apply tree_ind; simpl; intros; auto using escapeHTML_ok.
  - split; [reflexivity|]; tauto.
  - split; [reflexivity|]; tauto.
  - repeat split; try reflexivity; tauto.
  - repeat split; try reflexivity; try tauto. apply escapeHTML_ok. tauto.
Qed.

Lemma compact_height :
  (forall v, height (compact v) = height v) /\
  (forall es, height_elems (compact_elems es) = height_elems es) /\
  (forall ms, height_members (compact_members ms) = height_members ms).
Proof. apply tree_ind; simpl; intros; congruence. Qed.

(** ** Decoding never panics *)

Lemma saveError_type_error c e s x s' :
  type_error (Some e) -> json.saveError c e s = Ok (x, s') ->
  type_error s -> type_error s'.
Proof.
  unfold json.saveError. intros He [= _ <-] Hs. destruct s; [exact Hs|].
  destruct e; simpl in *; auto.
Qed.

Lemma total_reject {T} c off v (old : T) s :
  exists x s', json.reject c off v old s = Ok (x, s') /\ (type_error s -> type_error s').
Proof.
  unfold json.reject, json.dec_bind.
  destruct (json.saveError c (json.mismatch off v) s) as [[[] s1]| |] eqn:E;
    try discriminate E.
  simpl. unfold json.dec_ret. eexists _, _. split; [reflexivity|].
  eapply saveError_type_error; [|exact E]. destruct v; exact I.
Qed.

Lemma total_ret {T} (x : T) s :
  exists y s', json.dec_ret x s = Ok (y, s') /\ (type_error s -> type_error s').
Proof. unfold json.dec_ret; eauto. Qed.

Lemma total_bad_number {T} c off lit (old : T) s :
  exists x s', json.bad_number c off lit old s = Ok (x, s') /\
               (type_error s -> type_error s').
Proof.
  unfold json.bad_number, json.dec_bind.
  match goal with |- context [json.saveError c ?e s] =>
    destruct (json.saveError c e s) as [[[] s1]| |] eqn:E; try discriminate E;
    simpl; unfold json.dec_ret; eexists _, _; split; [reflexivity|];
    eapply saveError_type_error; [|exact E]; exact I
  end.
Qed.

Lemma total_string : total json.store_string.
Proof.
  intros c off v old s. destruct v; simpl; try apply total_reject; apply total_ret.
Qed.

Lemma total_int : total json.store_int.
Proof.
  intros c off v old s. destruct v; simpl; try apply total_reject; try apply total_ret.
  destruct (json.ParseInt lit); [apply total_ret|apply total_bad_number].
Qed.

Lemma total_float64 : total json.store_float64.
Proof.
  intros c off v old s. destruct v; simpl; try apply total_reject; try apply total_ret.
  destruct (json.ParseFloat lit); [apply total_ret|apply total_bad_number].
Qed.

Lemma total_elems {T} (st : json.store T) zero :
  total st -> forall es c off old s, exists x s',
    json.store_elems st zero c off es old s = Ok (x, s') /\ (type_error s -> type_error s').
Proof.
  intros Hst. induction es as [|v post sep es IH]; intros c off old s; simpl.
  - apply total_ret.
  - unfold json.dec_bind at 1. destruct (Hst c off v (hd zero old) s) as (x & s1 & -> & H1).
    simpl. unfold json.dec_bind at 1.
    destruct (IH c (off + json.len (json.show v) + json.len post + 1 + json.len sep)%Z
                (tl old) s1)
      as (xs & s2 & -> & H2).
    simpl. unfold json.dec_ret. eexists _, _. split; [reflexivity|auto].
Qed.

Lemma total_slice {T} (st : json.store T) zero : total st -> total (json.store_slice st zero).
Proof.
  intros Hst c off v old s. destruct v; simpl; try apply total_reject; try apply total_ret.
  apply total_elems, Hst.
Qed.

Lemma total_lift {T X} (get : T -> X) set (st : json.store X) :
  total st -> total (json.lift get set st).
Proof.
  intros Hst c off v t s. unfold json.lift, json.dec_bind.
  destruct (Hst c off v (get t) s) as (x & s' & -> & H). simpl. unfold json.dec_ret.
  eexists _, _. split; [reflexivity|auto].
Qed.

Lemma total_embed {T X} (get : T -> X) set (fs : list (json.field X)) :
  total_fields fs -> total_fields (json.embed get set fs).
Proof.
  unfold total_fields, json.embed. intros H. apply Forall_map.
  eapply Forall_impl; [exact H|]. intros f Hf. simpl. apply total_lift, Hf.
Qed.

Lemma find_field_In {T} (fs : list (json.field T)) key f :
  json.find_field fs key = Some f -> In f fs.
Proof.
  unfold json.find_field. intros H.
  destruct (find _ fs) eqn:E1.
  - injection H as <-. apply find_some in E1. tauto.
  - apply find_some in H. tauto.
Qed.

Lemma total_members {T} sname (fs : list (json.field T)) :
  total_fields fs ->
  forall ms c off t s, exists x s',
    json.store_members sname fs c off ms t s = Ok (x, s') /\
    (type_error s -> type_error s').
Proof.
  intros Hfs. induction ms as [|key mid1 mid2 v post sep ms IH]; intros c off t s; simpl.
  - apply total_ret.
  - destruct (json.find_field fs (json.unquote key)) as [f|] eqn:Ef.
    + apply find_field_In in Ef.
      pose proof (proj1 (List.Forall_forall _ _) Hfs f Ef) as Hf.
      unfold json.dec_bind.
      match goal with |- context [json.f_store f ?c ?o v t s] =>
        destruct (Hf c o v t s) as (x & s' & -> & H1) end.
      simpl.
      match goal with |- context [json.store_members sname fs ?c ?o ms x s'] =>
        destruct (IH c o x s') as (y & s2 & -> & H2) end.
      eexists _, _. split; [reflexivity|auto].
    + apply IH.
Qed.

Lemma total_struct {T} sname (fs : list (json.field T)) :
  total_fields fs -> total (json.store_struct sname fs).
Proof.
  intros Hfs c off v old s. destruct v; simpl; try apply total_reject; try apply total_ret.
  apply total_members, Hfs.
Qed.

(** [json.Unmarshal] with a total store returns a value or an error. *)
Lemma Unmarshal_total {T} (st : json.store T) data old :
  total st -> (exists x, json.Unmarshal st data old = Ok x) \/
              (exists e, json.Unmarshal st data old = Err e /\ decode_error e).
Proof.
  intros Hst. unfold json.Unmarshal, json.checkValid.
  destruct (json.parse_document data) as [a|v rest]; simpl; [right; eexists; split; [reflexivity|exact I]|].
  match goal with |- context [st ?c ?o v old None] =>
    destruct (Hst c o v old None) as (x & [e|] & -> & H) end; simpl; eauto.
  right. exists e. split; [reflexivity|]. specialize (H I). destruct e; simpl in *; auto.
Qed.

Create HintDb total.

#[local] Hint Resolve total_string total_int total_float64 total_slice total_lift
  total_struct total_embed : total.

Lemma commonFields_total : total_fields commonFields_fields.
Proof. repeat constructor; simpl; auto with total. Qed.

#[local] Hint Resolve commonFields_total : total.

Ltac total_fields_tac :=
  unfold total_fields; apply Forall_app; split;
  [apply total_embed, commonFields_total
  |repeat constructor; simpl; unfold json.mkField; simpl; auto with total].

Lemma unmarshal_actual_total record a :
  (exists a', unmarshal_actual record a = Ok a') \/
  (exists e, unmarshal_actual record a = Err e /\ decode_error e).
Proof.
  destruct a; simpl; unfold result_map;
    match goal with |- context [json.Unmarshal ?st record ?x] =>
      let H := fresh in
      assert (H : total st) by (apply total_struct; total_fields_tac);
      destruct (Unmarshal_total st record x H) as [[y ->]|(e & -> & He)]
    end; simpl; eauto.
Qed.

(** ** The record decoder *)

Lemma decode_envelope_total record :
  (exists c, decode_envelope record = Ok c) \/
  (exists e, decode_envelope record = Err e /\ decode_error e).
Proof.
  unfold decode_envelope, result_map.
  match goal with |- context [json.Unmarshal ?st record ?x] =>
    let H := fresh in
    assert (H : total st)
      by (apply total_struct; apply total_embed, commonFields_total);
    destruct (Unmarshal_total st record x H) as [[y ->]|(e & -> & He)]
  end; simpl; eauto.
Qed.

Lemma typed_total_length r : typed_total r = length (typed_all r).
Proof.
  unfold typed_total, typed_all. rewrite !length_app, !length_map. lia.
Qed.

Lemma typed_all_set_All l r : typed_all (set_All l r) = typed_all r.
Proof. reflexivity. Qed.

(** The type assertions of [parseRecord] never fail: the record that
    [unmarshal_actual] fills is the record the case of its tag asserts, and
    the case appends it to the list of its type. *)
Lemma append_typed_ok tag a0 record a r :
  actualDNSType tag = Some a0 ->
  unmarshal_actual record a0 = Ok a ->
  exists r', append_typed tag a r = Ok r' /\ All r' = All r /\
             typed_all r' ≡ₚ typed_all r ++ [a].
Proof.
  unfold actualDNSType. intros Htag Hdec.
  repeat
    match type of Htag with
    | (if String.eqb tag ?k then _ else _) = _ =>
        let E := fresh "E" in
        destruct (String.eqb tag k) eqn:E;
        [ apply String.eqb_eq in E; subst tag; injection Htag as <-;
          simpl in Hdec; unfold result_map, result_bind in Hdec;
          match type of Hdec with
          | match ?u with _ => _ end = _ => destruct u as [x|e|msg]; try discriminate
          end;
          injection Hdec as <-;
          eexists; split; [reflexivity|]; split; [reflexivity|];
          unfold typed_all; simpl; rewrite map_app; simpl; solve_Permutation
        | ]
    end.
  discriminate.
Qed.

(** What [parseRecord] returns, case by case. *)
Lemma parseRecord_cases r record :
  parseRecord r record =
  match decode_envelope record with
  | Panic msg => Panic msg
  | Err err =>
      Ok (r, {| CommonFields := commonFields_zero; Raw := record; ParseError := Some err |})
  | Ok c =>
      match actualDNSType (DNSType c) with
      | None =>
          Ok (r, {| CommonFields := c; Raw := record;
                    ParseError := Some ErrUnsupportedDNSType |})
      | Some a =>
          match unmarshal_actual record a with
          | Panic msg => Panic msg
          | Err err => Ok (r, {| CommonFields := c; Raw := record; ParseError := Some err |})
          | Ok a' =>
              result_bind (append_typed (DNSType c) a' r)
                (fun r' => Ok (r', {| CommonFields := c; Raw := record; ParseError := None |}))
          end
      end
  end.
Proof.
  unfold parseRecord, decode_envelope, result_map, result_bind.
  destruct (json.Unmarshal _ record _); reflexivity.
Qed.

(** [parseRecord] returns: it records one entry that keeps the fragment, and
    the typed lists gain the fully decoded record, if there is one. *)
Lemma parseRecord_ok r record :
  exists r' d, parseRecord r record = Ok (r', d) /\ Raw d = record /\
               All r' = All r /\
               typed_all r' ≡ₚ typed_all r ++ option_list (decode_full record) /\
               (ParseError d = None <-> is_Some (decode_full record)).
Proof.
  rewrite parseRecord_cases. unfold decode_full.
  destruct (decode_envelope_total record) as [[c ->]|(e & -> & _)].
  - destruct (actualDNSType (DNSType c)) as [a|] eqn:Ha.
    + destruct (unmarshal_actual_total record a) as [[a' Hd]|(e & Hd & _)]; rewrite Hd.
      * destruct (append_typed_ok _ _ _ _ r Ha Hd) as (r' & -> & HAll & Hperm).
        simpl. do 2 eexists. repeat split; eauto.
      * do 2 eexists. repeat split; simpl; rewrite ?app_nil_r; eauto;
          try (intros H; discriminate H); intros [? H]; discriminate H.
    + do 2 eexists. repeat split; simpl; rewrite ?app_nil_r; eauto;
          try (intros H; discriminate H); intros [? H]; discriminate H.
  - do 2 eexists. repeat split; simpl; rewrite ?app_nil_r; eauto;
          try (intros H; discriminate H); intros [? H]; discriminate H.
Qed.

Lemma parseRecord_error r record r' d :
  parseRecord r record = Ok (r', d) -> entry_error (ParseError d).
Proof.
  rewrite parseRecord_cases.
  destruct (decode_envelope_total record) as [[c ->]|(e & -> & He)].
  - destruct (actualDNSType (DNSType c)) as [a|] eqn:Ha.
    + destruct (unmarshal_actual_total record a) as [[a' Hd]|(e & Hd & He)]; rewrite Hd.
      * unfold result_bind. destruct (append_typed _ _ _); intros [= _ <-]. exact I.
      * intros [= _ <-]. destruct e; simpl in *; auto.
    + intros [= _ <-]. exact I.
  - intros [= _ <-]. destruct e; simpl in *; auto.
Qed.

(** The entry that [parseRecord] records does not depend on the receiver. *)
Lemma parseRecord_entry r1 r2 record r1' d1 r2' d2 :
  parseRecord r1 record = Ok (r1', d1) -> parseRecord r2 record = Ok (r2', d2) -> d1 = d2.
Proof.
  rewrite !parseRecord_cases.
  destruct (decode_envelope record) as [c|e|msg]; try congruence.
  destruct (actualDNSType (DNSType c)) as [a|]; try congruence.
  destruct (unmarshal_actual record a) as [a'|e|msg]; try congruence.
  unfold result_bind.
  destruct (append_typed (DNSType c) a' r1), (append_typed (DNSType c) a' r2); congruence.
Qed.

Lemma parseRecords_ok raw : forall r,
  exists r' ds, parseRecords r raw = Ok r' /\ All r' = All r ++ ds /\
                map Raw ds = raw /\
                Forall2 (fun d record => exists r0 r1, parseRecord r0 record = Ok (r1, d))
                        ds raw /\
                typed_all r' ≡ₚ typed_all r ++ omap decode_full raw /\
                length (filter (fun d => ParseError d = None) ds) =
                length (omap decode_full raw).
Proof.
  induction raw as [|record raw IH]; intros r; simpl.
  - exists r, []. rewrite !app_nil_r. repeat split; auto.
  - destruct (parseRecord_ok r record) as (r1 & d & Hp & HRaw & HAll & Hperm & Herr).
    rewrite Hp. simpl.
    destruct (IH (set_All (All r1 ++ [d]) r1)) as (r' & ds & -> & HAll' & HRaw' & Hent & Hperm' & Hcnt).
    exists r', (d :: ds). simpl in HAll'. rewrite HAll' , HAll, <- app_assoc. simpl.
    repeat split; auto.
    + congruence.
    + constructor; eauto.
    + rewrite Hperm', typed_all_set_All, Hperm.
      destruct (decode_full record); simpl; rewrite <- ?app_assoc; simpl; reflexivity.
    + rewrite filter_cons. destruct (decode_full record) eqn:Ed; simpl.
      * rewrite decide_True by (apply Herr; eauto). simpl. f_equal. exact Hcnt.
      * rewrite decide_False; [exact Hcnt|]. intros H. apply Herr in H. destruct H. discriminate.
Qed.

(** The raw messages that [json.Unmarshal] stores for an array are the texts
    of its elements. *)
Lemma store_RawMessage_elems es : forall c off old s,
  json.store_elems json.store_RawMessage [] c off es old s =
  Ok (map json.show (values es), s).
Proof.
  induction es as [|v post sep es IH]; intros c off old s; simpl; [reflexivity|].
  unfold json.dec_bind at 1. unfold json.store_RawMessage at 1, json.store_unmarshaler.
  unfold json.dec_ret at 1. simpl. unfold json.dec_bind at 1. rewrite IH. reflexivity.
Qed.

(** [json.Unmarshal(data, &raw)] for [raw] a slice of raw messages. *)
Lemma Unmarshal_raw data :
  json.Unmarshal (json.store_slice json.store_RawMessage []) data [] =
  match json.checkValid data with
  | Ok (json.Array _ es) => Ok (map json.show (values es))
  | Ok json.Null => Ok []
  | Ok v => Err (json.mismatch (json.len (fst (json.span json.isSpace data))) v)
  | Err e => Err e
  | Panic msg => Panic msg
  end.
Proof.
  unfold json.Unmarshal. destruct (json.checkValid data) as [v|e|msg]; simpl; try reflexivity.
  destruct v; simpl; try reflexivity.
  rewrite store_RawMessage_elems. reflexivity.
Qed.

(** [UnmarshalJSON] on an array: every element is parsed in turn. *)
Lemma UnmarshalJSON_array data raws r :
  top_level_elements data = Some raws ->
  UnmarshalJSON r data = parseRecords r raws.
Proof.
  unfold top_level_elements, UnmarshalJSON. rewrite Unmarshal_raw.
  destruct (json.checkValid data) as [v|e|msg]; try discriminate.
  destruct v; try discriminate. intros [= <-]. reflexivity.
Qed.

Lemma omap_delete_None {X Y} (f : X -> option Y) (l : list X) i x :
  l !! i = Some x -> f x = None -> omap f (delete i l) = omap f l.
Proof.
  revert i. induction l as [|y l IH]; intros [|i] Hi Hx; simpl in *; try discriminate.
  - injection Hi as ->. rewrite Hx. reflexivity.
  - specialize (IH i Hi Hx). destruct (f y); [f_equal|]; exact IH.
Qed.

Lemma decode_full_Some record a' :
  decode_full record = Some a' <->
  exists c a, decode_envelope record = Ok c /\ actualDNSType (DNSType c) = Some a /\
              unmarshal_actual record a = Ok a'.
Proof.
  unfold decode_full. split.
  - destruct (decode_envelope record) as [c|e|msg]; try discriminate.
    destruct (actualDNSType (DNSType c)) as [a|] eqn:Ha; try discriminate.
    destruct (unmarshal_actual record a) as [a''|e|msg] eqn:Hu; try discriminate.
    intros [= <-]. eauto.
  - intros (c & a & -> & -> & ->). reflexivity.
Qed.

(** *** The trees that the encoder builds *)

Lemma marshal_string_wf s : wf (marshal_string s).
Proof. apply encode_from_ok. exact I. Qed.

Lemma marshal_int_wf n : wf (marshal_int n).
Proof. apply FormatInt_ok. Qed.

Lemma to_members_wf fs :
  Forall (fun p => wf (snd p)) fs -> wf_members (to_members fs).
Proof.
  induction 1 as [|[name v] fs Hv _ IH]; simpl; [exact I|].
  repeat split; auto. apply encode_from_ok. exact I.
Qed.

Lemma marshal_struct_wf fs : Forall (fun p => wf (snd p)) fs -> wf (marshal_struct fs).
Proof. intros H. split; [reflexivity|apply to_members_wf, H]. Qed.

Lemma to_elems_wf vs : Forall wf vs -> wf_elems (to_elems vs).
Proof. induction 1; simpl; repeat split; auto. Qed.

Lemma to_elems_height vs h :
  (0 <= h)%Z -> Forall (fun v => (height v <= h)%Z) vs -> (height_elems (to_elems vs) <= h)%Z.
Proof. intros Hh. induction 1; simpl; lia. Qed.

Lemma values_to_elems vs : values (to_elems vs) = vs.
Proof. induction vs; simpl; congruence. Qed.

Lemma values_wf es : wf_elems es -> Forall wf (values es).
Proof. induction es; simpl; intros H; constructor; tauto. Qed.

Lemma values_height es : Forall (fun v => (height v <= height_elems es)%Z) (values es).
Proof.
  induction es as [|v post sep es IH]; simpl; constructor; [lia|].
  eapply Forall_impl; [exact IH|]. simpl. intros. lia.
Qed.

Lemma marshal_commonFields_wf c : wf (marshal_commonFields c).
Proof.
  apply marshal_struct_wf. repeat constructor; simpl;
    first [apply marshal_int_wf|apply marshal_string_wf].
Qed.

Lemma marshal_commonFields_height c : height (marshal_commonFields c) = 1%Z.
Proof. reflexivity. Qed.

(** The error of a decoded entry can be encoded. *)
Lemma marshal_parseError_ok e :
  entry_error e ->
  exists v, marshal_parseError e = Ok v /\ wf v /\ (0 <= height v <= 2)%Z /\
            (e = None -> v = Null).
Proof.
  destruct e as [e|]; [|exists Null; repeat split; simpl; auto; lia].
  destruct e; simpl; try contradiction; intros _; eexists; (split; [reflexivity|]);
    (split; [|split; [cbn; lia|discriminate]]);
    apply marshal_struct_wf; repeat constructor; simpl;
    first [apply marshal_int_wf|apply marshal_string_wf|apply marshal_struct_wf; constructor].
Qed.

Lemma marshal_RawMessage_show v :
  wf v -> (height v <= maxNestingDepth)%Z -> marshal_RawMessage (show v) = Ok (compact v).
Proof.
  intros Hwf Hh. unfold marshal_RawMessage, Compact. rewrite (checkValid_show v Hwf Hh).
  destruct (show_head v Hwf) as (c & t & -> & _). reflexivity.
Qed.

Lemma wrapper_envelope c raw e :
  wf (wrapper c raw e) -> (height (wrapper c raw e) <= maxNestingDepth)%Z ->
  decode_envelope (show (wrapper c raw e)) = Ok commonFields_zero.
Proof.
  intros Hwf Hh. unfold decode_envelope, Unmarshal.
  rewrite (checkValid_show _ Hwf Hh). unfold result_bind.
  unfold wrapper, marshal_struct, to_members.
  cbn [store_struct store_members].
  assert (H1 : find_field obj_fields (unquote (encode_from Fresh (B "CommonFields"))) = None)
    by (vm_compute; reflexivity).
  assert (H2 : find_field obj_fields (unquote (encode_from Fresh (B "raw"))) = None)
    by (vm_compute; reflexivity).
  assert (H3 : find_field obj_fields (unquote (encode_from Fresh (B "parseError"))) = None)
    by (vm_compute; reflexivity).
  rewrite H1, H2, H3. reflexivity.
Qed.

Lemma parseRecord_wrapper r c raw e :
  wf (wrapper c raw e) -> (height (wrapper c raw e) <= maxNestingDepth)%Z ->
  parseRecord r (show (wrapper c raw e)) = Ok (r, rewrapped (wrapper c raw e)).
Proof.
  intros Hwf Hh. rewrite parseRecord_cases, (wrapper_envelope _ _ _ Hwf Hh). reflexivity.
Qed.

Lemma parseRecords_wrappers ws : forall r,
  Forall is_wrapper ws ->
  exists r', parseRecords r (map show ws) = Ok r' /\
             All r' = All r ++ map rewrapped ws /\ typed_all r' = typed_all r.
Proof.
  induction ws as [|w ws IH]; intros r Hws; simpl.
  - exists r. rewrite app_nil_r. auto.
  - inversion Hws as [|? ? (c & raw & e & -> & Hwf & Hh) Hws']; subst.
    rewrite (parseRecord_wrapper r _ _ _ Hwf (Z.lt_le_incl _ _ Hh)). simpl.
    destruct (IH (set_All (All r ++ [rewrapped (wrapper c raw e)]) r) Hws')
      as (r' & -> & HAll & Hty).
    exists r'. split; [reflexivity|]. simpl in HAll. rewrite HAll, <- app_assoc.
    split; [reflexivity|]. rewrite Hty. apply typed_all_set_All.
Qed.

(** The wrapper that [json.Marshal] writes for an entry decoded from a
    well-formed element. *)
Lemma marshal_DNSRecord_ok d v :
  Raw d = show v -> wf v -> (height v < maxNestingDepth - 1)%Z ->
  entry_error (ParseError d) ->
  exists e, marshal_parseError (ParseError d) = Ok e /\
            (ParseError d = None -> e = Null) /\
            marshal_DNSRecord d = Ok (wrapper (CommonFields d) (compact v) e) /\
            is_wrapper (wrapper (CommonFields d) (compact v) e).
Proof.
  intros HRaw Hwf Hh Herr.
  destruct (marshal_parseError_ok _ Herr) as (e & He & Hwfe & Hhe & Hnull).
  exists e. split; [exact He|]. split; [exact Hnull|].
  unfold marshal_DNSRecord. rewrite HRaw, marshal_RawMessage_show by (auto; lia).
  rewrite He. split; [reflexivity|]. unfold is_wrapper.
  exists (CommonFields d), (compact v), e. split; [reflexivity|]. split.
  - apply marshal_struct_wf.
    apply List.Forall_cons; [apply marshal_commonFields_wf|].
    apply List.Forall_cons; [apply (proj1 compact_wf), Hwf|].
    apply List.Forall_cons; [exact Hwfe|]. apply List.Forall_nil.
  - unfold wrapper. cbn [marshal_struct to_members height height_members].
    rewrite (proj1 compact_height), marshal_commonFields_height.
    pose proof (proj1 height_nonneg v). unfold maxNestingDepth in *. lia.
Qed.

Lemma marshal_all_ok ds : forall vs,
  Forall2 (fun d v => Raw d = show v /\ wf v /\ (height v < maxNestingDepth - 1)%Z /\
                      entry_error (ParseError d)) ds vs ->
  exists ws, marshal_all marshal_DNSRecord ds = Ok ws /\
             Forall is_wrapper ws /\
             Forall2 (fun d w => exists v e,
                        checkValid (Raw d) = Ok v /\
                        marshal_parseError (ParseError d) = Ok e /\
                        (ParseError d = None -> e = Null) /\
                        w = wrapper (CommonFields d) (compact v) e) ds ws.
Proof.
  induction ds as [|d ds IH]; intros vs H; inversion H as [|? v ? vs' (HRaw & Hwf & Hh & Herr) H']; subst.
  - exists []. repeat split; constructor.
  - destruct (marshal_DNSRecord_ok d v HRaw Hwf Hh Herr) as (e & He & Hnull & Hm & Hw).
    destruct (IH vs' H') as (ws & Hws & Hall & Hrel).
    exists (wrapper (CommonFields d) (compact v) e :: ws). simpl.
    rewrite Hm, Hws. simpl. repeat split; constructor; auto.
    exists v, e. repeat split; auto. rewrite HRaw. apply checkValid_show; auto; lia.
Qed.

Lemma entries_errors ds raws :
  Forall2 (fun d record => exists r0 r1, parseRecord r0 record = Ok (r1, d)) ds raws ->
  Forall (fun d => entry_error (ParseError d)) ds.
Proof.
  induction 1 as [|d record ds raws (r0 & r1 & H) _ IH]; constructor; auto.
  eapply parseRecord_error, H.
Qed.

Lemma entries_of_elements h ds : forall vs,
  map Raw ds = map json.show vs ->
  Forall wf vs -> Forall (fun v => (json.height v <= h)%Z) vs ->
  Forall (fun d => entry_error (ParseError d)) ds ->
  Forall2 (fun d v => Raw d = json.show v /\ wf v /\ (json.height v <= h)%Z /\
                      entry_error (ParseError d)) ds vs.
Proof.
  induction ds as [|d ds IH]; intros [|v vs] Hmap Hwf Hh Herr; try discriminate Hmap;
    constructor.
  - injection Hmap as H1 H2. inversion Hwf; inversion Hh; inversion Herr; subst. auto.
  - injection Hmap as H1 H2. inversion Hwf; inversion Hh; inversion Herr; subst. auto.
Qed.

(** ** The request layer *)

Lemma request_query_app q d opts1 opts2 :
  request_query q d (opts1 ++ opts2) =
  fold_left (fun q opt => opt q) opts2 (request_query q d opts1).
Proof. unfold request_query. apply fold_left_app. Qed.

(** The option that [Get] appends is applied last. *)
Lemma request_query_JSON q d opts :
  request_query q d (opts ++ [OptionOutputFormat "JSON"]) !! "outputFormat" = Some ["JSON"].
Proof.
  rewrite request_query_app. simpl. unfold OptionOutputFormat, Values_Set.
  rewrite lookup_insert_eq. reflexivity.
Qed.

(** A response that comes without an error holds the HTTP response. *)
Lemma request_ok_response service ctx d opts resp :
  request service ctx d opts = (Some resp, None) ->
  exists hr, Response_ resp = Some hr.
Proof.
  unfold request. destruct (newRequest service) as [req|e|msg]; try discriminate.
  unfold Do.
  destruct (http_Do _ ctx _) as [err|hr body [re|] ce]; try discriminate.
  destruct ce; intros [= <-]; simpl; eauto.
Qed.

(** What [request] returns, by what the HTTP client does. *)
Lemma request_exchange service ctx d opts req :
  newRequest service = Ok req ->
  request service ctx d opts =
  match http_Do (client (service_client service)) ctx (sent req d opts) with
  | Failed err =>
      (Some {| Response_ := None; Body := [] |},
       Some (Wrapped "cannot execute request" err))
  | Responded hr body (Some err) _ =>
      (Some {| Response_ := Some hr; Body := body |},
       Some (Wrapped "cannot read response" err))
  | Responded hr body None (Some rerr) =>
      (Some {| Response_ := Some hr; Body := body |},
       Some (Wrapped "cannot close response" rerr))
  | Responded hr body None None => (Some {| Response_ := Some hr; Body := body |}, None)
  end.
Proof.
  intros Hreq. unfold request, Do, sent. rewrite Hreq.
  destruct (http_Do _ ctx _) as [err|hr body [re|] [ce|]]; reflexivity.
Qed.

(** ** The test vectors of the package *)

(** models_test.go, [TestDNSRecords], first case *)
Example models_test_case_1 :
  result_bind (UnmarshalJSON DNSRecords_zero (B "[]")) MarshalJSON = Ok (B "[]").
Proof. vm_compute. reflexivity. Qed.

(** models_test.go, [TestDNSRecords], second case: the text that the test
    expects back is not the text it decoded. *)
Example models_test_case_2 :
  result_bind (UnmarshalJSON DNSRecords_zero models_test_input) MarshalJSON =
  Ok models_test_output.
Proof. vm_compute. reflexivity. Qed.

(** * The claims *)

(** C1, amended.  Take a collection decoded from a valid text whose nesting
    stays below the limit of the scanner.  Encoding it succeeds and writes an
    array with one object per entry of the flat list, in order: the envelope
    of the entry under CommonFields, the tree of its raw bytes, compacted,
    under raw, and its error under parseError, [null] when there is none.
    Decoding this array again succeeds and gives a flat list of the same
    length; its entries are not the original ones: each has the empty
    envelope, the text of the whole object as raw bytes and the error
    [ErrUnsupportedDNSType], and the typed lists are empty. *)
Theorem reencoded_entries_are_wrappers (data : bytes) (v : json.value) (r : DNSRecords) :
  json.checkValid data = Ok v ->
  (json.height v < json.maxNestingDepth)%Z ->
  UnmarshalJSON DNSRecords_zero data = Ok r ->
  exists ws r2,
    MarshalJSON r = Ok (json.show (json.Array [] (json.to_elems ws))) /\
    Forall2 (fun d w => exists tree e,
               json.checkValid (Raw d) = Ok tree /\
               marshal_parseError (ParseError d) = Ok e /\
               (ParseError d = None -> e = json.Null) /\
               w = wrapper (CommonFields d) (json.compact tree) e) (All r) ws /\
    UnmarshalJSON DNSRecords_zero (json.show (json.Array [] (json.to_elems ws))) = Ok r2 /\
    All r2 = map rewrapped ws /\
    length (All r2) = length (All r) /\
    typed_all r2 = [].
Proof.
  intros Hv Hh Hdec.
  assert (Hds : exists vs,
    Forall2 (fun d v => Raw d = json.show v /\ wf v /\
                        (json.height v < json.maxNestingDepth - 1)%Z /\
                        entry_error (ParseError d)) (All r) vs).
  { unfold UnmarshalJSON in Hdec. rewrite Unmarshal_raw, Hv in Hdec.
    destruct (checkValid_sound _ _ Hv) as (_ & _ & _ & _ & _ & Hwf & _ & _).
    destruct v; try discriminate Hdec.
    - injection Hdec as <-. exists []. constructor.
    - simpl in Hdec.
      destruct (parseRecords_ok (map json.show (values es)) DNSRecords_zero)
        as (r' & ds & Hp & HAll & HRaw & Hent & _).
      rewrite Hp in Hdec. injection Hdec as ->. simpl in HAll. subst ds.
      exists (values es).
      eapply Forall2_impl;
        [apply (entries_of_elements (json.height_elems es) _ _ HRaw)|].
      + apply values_wf, Hwf.
      + apply values_height.
      + eapply entries_errors, Hent.
      + simpl. intros d v0 (H1 & H2 & H3 & H4). simpl in Hh.
        repeat split; auto. lia. }
  destruct Hds as (vs & Hds).
  destruct (marshal_all_ok _ _ Hds) as (ws & Hws & Hall & Hrel).
  assert (Hlen : length ws = length (All r)).
  { symmetry. eapply Forall2_length, Hrel. }
  assert (Hwfa : wf (json.Array [] (json.to_elems ws))).
  { split; [reflexivity|]. apply to_elems_wf.
    eapply Forall_impl; [exact Hall|]. intros w (c & raw & e & _ & Hw & _). exact Hw. }
  assert (Hha : (json.height (json.Array [] (json.to_elems ws)) <= json.maxNestingDepth)%Z).
  { simpl. assert (H : (json.height_elems (json.to_elems ws) <= json.maxNestingDepth - 1)%Z).
    { apply to_elems_height; [unfold json.maxNestingDepth; lia|].
      eapply Forall_impl; [exact Hall|]. intros w (c & raw & e & _ & _ & Hw). lia. }
    lia. }
  destruct (parseRecords_wrappers ws DNSRecords_zero Hall) as (r2 & Hr2 & HAll2 & Hty2).
  change (All r2 = map rewrapped ws) in HAll2.
  exists ws, r2. split; [|split; [exact Hrel|split; [|split; [exact HAll2|split]]]].
  - unfold MarshalJSON. destruct (All r) as [|d ds] eqn:EAll.
    + destruct ws; [reflexivity|discriminate Hlen].
    + cbn [length Nat.eqb]. unfold json.marshal_slice. rewrite Hws. reflexivity.
  - unfold UnmarshalJSON. rewrite Unmarshal_raw, (checkValid_show _ Hwfa Hha).
    simpl. rewrite values_to_elems. exact Hr2.
  - rewrite HAll2, length_map. exact Hlen.
  - exact Hty2.
Qed.

(** The collection of [one_record], encoded and decoded again. *)
Lemma reencoded_entries_are_wrappers_witness :
  exists ws r2,
    MarshalJSON one_record_decoded = Ok (json.show (json.Array [] (json.to_elems ws))) /\
    UnmarshalJSON DNSRecords_zero (json.show (json.Array [] (json.to_elems ws))) = Ok r2 /\
    All r2 = map rewrapped ws /\
    typed_all r2 = [].
Proof.
  destruct (reencoded_entries_are_wrappers one_record
              (match json.checkValid one_record with Ok v => v | _ => json.Null end)
              one_record_decoded)
    as (ws & r2 & H1 & _ & H2 & H3 & _ & H4).
  - vm_compute. reflexivity.
  - vm_compute. reflexivity.
  - vm_compute. reflexivity.
  - exists ws, r2. auto.
Defined.

(** C1, as the claim states it, fails.  The array [one_record] decodes to one
    entry with the envelope and the bytes of its A record and no error; the
    collection encodes to [one_record_encoded]; decoding that gives one entry
    whose envelope is empty, whose raw bytes are those of the wrapping object
    and whose error is [ErrUnsupportedDNSType]: neither the envelopes nor the
    raw bytes are those of the original, and the absent error does not come
    back as no error. *)
Lemma round_trip_counterexample :
  UnmarshalJSON DNSRecords_zero one_record = Ok one_record_decoded /\
  MarshalJSON one_record_decoded = Ok one_record_encoded /\
  UnmarshalJSON DNSRecords_zero one_record_encoded = Ok one_record_redecoded /\
  map CommonFields (All one_record_redecoded) <> map CommonFields (All one_record_decoded) /\
  map Raw (All one_record_redecoded) <> map Raw (All one_record_decoded) /\
  map ParseError (All one_record_decoded) = [None] /\
  map ParseError (All one_record_redecoded) <> [None].
Proof.
  repeat split; try (vm_compute; reflexivity); vm_compute; discriminate.
Qed.

(** C2.  In a collection decoded from a JSON array into an empty receiver,
    the typed lists hold exactly the records of the elements whose envelope
    decoded, whose tag is in the table of [actualDNSType] and whose decode
    into the shape of the tag succeeded, each such element once; there are as
    many of them as entries without an error, so the typed lists together are
    no longer than the flat list. *)
Theorem typed_lists_hold_the_decoded_records (data : bytes) (raws : list bytes) :
  top_level_elements data = Some raws ->
  exists r',
    UnmarshalJSON DNSRecords_zero data = Ok r' /\
    map Raw (All r') = raws /\
    typed_all r' ≡ₚ omap decode_full raws /\
    (forall a', a' ∈ typed_all r' <->
       exists record c a,
         record ∈ raws /\ decode_envelope record = Ok c /\
         actualDNSType (DNSType c) = Some a /\ unmarshal_actual record a = Ok a') /\
    typed_total r' = length (filter (fun d => ParseError d = None) (All r')) /\
    (typed_total r' <= length (All r'))%nat.
Proof.
  intros Hraws. rewrite (UnmarshalJSON_array _ _ _ Hraws).
  destruct (parseRecords_ok raws DNSRecords_zero)
    as (r' & ds & Hp & HAll & HRaw & Hent & Hperm & Hcnt).
  simpl in HAll, Hperm. subst ds.
  exists r'. split; [exact Hp|]. split; [exact HRaw|]. split; [exact Hperm|].
  assert (Htot : typed_total r' = length (filter (λ d, ParseError d = None) (All r'))).
  { rewrite typed_total_length, Hperm. symmetry. exact Hcnt. }
  repeat split.
  - intros Hin. rewrite Hperm in Hin. apply list_elem_of_omap in Hin.
    destruct Hin as (record & Hin & Hd). apply decode_full_Some in Hd.
    destruct Hd as (c & a & ? & ? & ?). eauto 10.
  - intros (record & c & a & Hin & H1 & H2 & H3). rewrite Hperm.
    apply list_elem_of_omap. exists record. split; [exact Hin|].
    apply decode_full_Some. eauto.
  - exact Htot.
  - rewrite Htot. apply length_filter.
Qed.

(** [two_records]: an A record and a record of an unknown type. *)
Lemma typed_lists_hold_the_decoded_records_witness :
  exists r',
    UnmarshalJSON DNSRecords_zero two_records = Ok r' /\
    (typed_total r' <= length (All r'))%nat.
Proof.
  destruct (typed_lists_hold_the_decoded_records two_records
              (default [] (top_level_elements two_records)))
    as (r' & H1 & _ & _ & _ & _ & H2).
  - vm_compute. reflexivity.
  - exists r'. split; assumption.
Defined.

(** C3, amended.  For every input whose top level is a JSON array,
    [DNSRecords.UnmarshalJSON] appends exactly one entry per top-level
    element, in input order, each with the bytes of its element and each the
    entry [parseRecord] makes of it, whether its decode failed or not.  For an
    input that is not valid JSON the decode fails with the syntax error, for
    one whose top-level value is an object, a string, a number or a boolean
    it fails with a type error, and in both cases nothing is decoded; for
    the literal [null] the decode succeeds and changes nothing. *)
Theorem UnmarshalJSON_one_entry_per_element (data : bytes) (r : DNSRecords) :
  match json.checkValid data with
  | Ok (json.Array w es) =>
      top_level_elements data = Some (map json.show (values es)) /\
      exists r' ds,
        UnmarshalJSON r data = Ok r' /\ All r' = All r ++ ds /\
        length ds = length (values es) /\
        map Raw ds = map json.show (values es) /\
        Forall2 (fun d record => exists r0 r1, parseRecord r0 record = Ok (r1, d))
                ds (map json.show (values es))
  | Ok json.Null => top_level_elements data = None /\ UnmarshalJSON r data = Ok r
  | Ok v =>
      top_level_elements data = None /\
      exists off, UnmarshalJSON r data = Err (json.mismatch off v)
  | Err e => top_level_elements data = None /\ UnmarshalJSON r data = Err e
  | Panic _ => False
  end.
Proof.
  pose proof (UnmarshalJSON_array data) as Harr.
  unfold top_level_elements in *. unfold UnmarshalJSON. rewrite Unmarshal_raw.
  unfold json.checkValid in *.
  destruct (json.parse_document data) as [a|v rest]; [split; reflexivity|].
  destruct v; try (split; [reflexivity|]; simpl; eauto; fail).
  split; [reflexivity|]. simpl.
  destruct (parseRecords_ok (map json.show (values es)) r)
    as (r' & ds & Hp & HAll & HRaw & Hent & _).
  exists r', ds. repeat split; auto.
  apply (f_equal length) in HRaw. rewrite !length_map in HRaw. rewrite length_map in HRaw || idtac.
  exact HRaw.
Qed.

(** C3, as the claim states it, fails: the top level of the text [null] is
    not a JSON array, yet decoding it succeeds, with no entry and no error. *)
Lemma UnmarshalJSON_null_counterexample :
  top_level_elements (B "null") = None /\
  UnmarshalJSON DNSRecords_zero (B "null") = Ok DNSRecords_zero /\
  ~ exists e, UnmarshalJSON DNSRecords_zero (B "null") = Err e.
Proof.
  split; [vm_compute; reflexivity|]. split; [vm_compute; reflexivity|].
  intros [e H]. vm_compute in H. discriminate H.
Qed.

(** C4.  An element whose envelope decodes but whose tag is not in the
    table of [actualDNSType] gets, at its position of the flat list, the
    entry with the envelope, the bytes of the element and the error
    [ErrUnsupportedDNSType]; [parseRecord] returns the receiver as it was,
    and the typed lists of the collection are those of the array without
    the element. *)
Theorem unsupported_type_entry (data : bytes) (raws : list bytes) (i : nat)
    (record : bytes) (c : commonFields) (r : DNSRecords) :
  top_level_elements data = Some raws ->
  raws !! i = Some record ->
  decode_envelope record = Ok c ->
  actualDNSType (DNSType c) = None ->
  let entry := {| CommonFields := c; Raw := record;
                  ParseError := Some ErrUnsupportedDNSType |} in
  (forall r0, parseRecord r0 record = Ok (r0, entry)) /\
  exists r',
    UnmarshalJSON r data = Ok r' /\
    All r' !! (length (All r) + i)%nat = Some entry /\
    typed_all r' ≡ₚ typed_all r ++ omap decode_full (delete i raws).
Proof.
  intros Hraws Hi Henv Htag entry.
  assert (Hrec : forall r0, parseRecord r0 record = Ok (r0, entry)).
  { intros r0. rewrite parseRecord_cases, Henv, Htag. reflexivity. }
  split; [exact Hrec|].
  rewrite (UnmarshalJSON_array _ _ _ Hraws).
  destruct (parseRecords_ok raws r) as (r' & ds & Hp & HAll & HRaw & Hent & Hperm & _).
  exists r'. split; [exact Hp|]. split.
  - rewrite HAll, lookup_app_r by lia.
    replace (length (All r) + i - length (All r))%nat with i by lia.
    destruct (Forall2_lookup_r _ _ _ _ _ Hent Hi) as (d & Hd & r0 & r1 & Hpr).
    rewrite Hd. rewrite Hrec in Hpr. congruence.
  - rewrite Hperm. rewrite (omap_delete_None decode_full raws i record Hi); [reflexivity|].
    unfold decode_full. rewrite Henv, Htag. reflexivity.
Qed.

(** The second element of [two_records]. *)
Lemma unsupported_type_entry_witness :
  exists r',
    UnmarshalJSON DNSRecords_zero two_records = Ok r' /\
    All r' !! 1%nat =
      Some {| CommonFields := set_DNSType "XX" commonFields_zero;
              Raw := jq "{'dnsType':'XX'}";
              ParseError := Some ErrUnsupportedDNSType |} /\
    length (typed_all r') = 1%nat.
Proof.
  destruct (unsupported_type_entry two_records
              (default [] (top_level_elements two_records)) 1
              (jq "{'dnsType':'XX'}") (set_DNSType "XX" commonFields_zero)
              DNSRecords_zero)
    as (_ & r' & H1 & H2 & H3).
  - vm_compute. reflexivity.
  - vm_compute. reflexivity.
  - vm_compute. reflexivity.
  - vm_compute. reflexivity.
  - exists r'. split; [exact H1|]. split; [exact H2|].
    rewrite H3. vm_compute. reflexivity.
Defined.

(** C5.  Whatever options the caller gives, the query of the request that
    [Get] sends has the output format JSON: the option that [Get] appends is
    applied after the options of the caller; an HTTP client that reports the
    output format of the request it is given reports JSON; and [Get] gives
    the same results with any two HTTP clients that treat alike every request
    whose output format is JSON. *)
Theorem Get_forces_JSON (local : time.Zones) (key ua : string) (base : URL)
    (h1 h2 : http_Client) (ctx : Context) (domainName : string) (opts : list Option) :
  (forall q, request_query q domainName (opts ++ [OptionOutputFormat "JSON"])
               !! "outputFormat" = Some ["JSON"]) /\
  Get local (service_with key ua base reporting_format) ctx domainName opts =
    Ok (None, Some {| Response_ := None; Body := [] |},
        Some (Wrapped "cannot execute request" (TransportError "JSON"))) /\
  ((forall req, RawQuery (Request_URL req) !! "outputFormat" = Some ["JSON"] ->
                http_Do h1 ctx req = http_Do h2 ctx req) ->
   Get local (service_with key ua base h1) ctx domainName opts =
   Get local (service_with key ua base h2) ctx domainName opts).
Proof.
  split; [intros q; apply request_query_JSON|]. split.
  - unfold Get, request, Do. simpl. rewrite request_query_JSON. reflexivity.
  - intros Hsame. unfold Get, request.
    change (newRequest (service_with key ua base h2))
      with (newRequest (service_with key ua base h1)).
    destruct (newRequest (service_with key ua base h1)) as [req|e|msg]; try reflexivity.
    unfold Do. simpl. rewrite Hsame; [reflexivity|].
    simpl. apply request_query_JSON.
Qed.

(** A caller asks for XML; a server that answers nothing but JSON requests
    serves [Get] as a server that answers every request. *)
Lemma Get_forces_JSON_witness :
  Get utc_only (service_with "k" userAgent base_url (answering 200 data_body)) 0
      "example.com" [OptionOutputFormat "XML"] =
  Get utc_only (service_with "k" userAgent base_url (answering_JSON_only 200 data_body)) 0
      "example.com" [OptionOutputFormat "XML"].
Proof.
  apply (proj2 (proj2 (Get_forces_JSON utc_only "k" userAgent base_url
                         (answering 200 data_body) (answering_JSON_only 200 data_body) 0
                         "example.com" [OptionOutputFormat "XML"]))).
  intros req Hreq. simpl. rewrite bool_decide_eq_true_2 by exact Hreq. reflexivity.
Defined.

(** C6.  When the exchange and the parse succeed and the error envelope of
    the response has a code or a message, [Get] returns the error with this
    code and this message, and neither a lookup response nor a response. *)
Theorem Get_remote_error (local : time.Zones) (service : dnsLookupServiceOp)
    (ctx : Context) (domainName : string) (opts : list Option) (resp : Response)
    (ar : apiResponse) :
  request service ctx domainName (opts ++ [OptionOutputFormat "JSON"]) = (Some resp, None) ->
  parse local (Body resp) = Ok ar ->
  Code (api_ErrorMessage ar) <> "" \/ Message (api_ErrorMessage ar) <> "" ->
  Get local service ctx domainName opts =
    Ok (None, None,
        Some (ErrorMessageError (Code (api_ErrorMessage ar)) (Message (api_ErrorMessage ar)))).
Proof.
  intros Hreq Hparse Herr. unfold Get. rewrite Hreq, Hparse.
  destruct (String.eqb_spec (Message (api_ErrorMessage ar)) "") as [Hm|Hm];
    destruct (String.eqb_spec (Code (api_ErrorMessage ar)) "") as [Hc|Hc];
    simpl; try reflexivity.
  destruct Herr; contradiction.
Qed.

(** The error envelope of the tests of the package. *)
Lemma Get_remote_error_witness :
  Get utc_only (service_with "k" userAgent base_url (answering 499 error_body)) 0
      "example.com" [] =
    Ok (None, None, Some (ErrorMessageError "TEST_CODE" "test error message")).
Proof.
  apply (Get_remote_error utc_only _ 0 "example.com" []
           {| Response_ := Some {| StatusCode := 499 |}; Body := error_body |}
           {| api_DNSLookupResponse := DNSLookupResponse_zero;
              api_ErrorMessage := {| Code := "TEST_CODE"; Message := "test error message" |} |}).
  - reflexivity.
  - vm_compute. reflexivity.
  - left. simpl. discriminate.
Defined.

(** C7.  The empty string decodes to the zero timestamp; the literal
    2006-01-02 15:04:05 UTC decodes to a timestamp that encodes to the same
    literal; an ISO 8601 literal, with T between date and time, fails to
    decode with the error of [time.Parse] that names the text at T and the
    space of the layout it does not match.  This holds whatever the zone data
    of the process. *)
Theorem timestamp_codec (local : time.Zones) :
  (forall t, Time_UnmarshalJSON local (jq "''") t = Ok emptyTime) /\
  (exists t,
     Time_UnmarshalJSON local (jq "'2006-01-02 15:04:05 UTC'") emptyTime = Ok t /\
     Time_MarshalJSON local t = Ok (jq "'2006-01-02 15:04:05 UTC'")) /\
  Time_UnmarshalJSON local (jq "'2006-01-02T15:04:05-07:00'") emptyTime =
    Err (TimeParseError "2006-01-02 15:04:05 MST" "2006-01-02T15:04:05-07:00"
           " " "T15:04:05-07:00" "").
Proof.
  split; [intros t; vm_compute; reflexivity|]. split.
  - eexists. split.
    + vm_compute. reflexivity.
    + vm_compute. reflexivity.
  - vm_compute. reflexivity.
Qed.

(** C8, amended.  When the HTTP client answers, the body is read and the
    body is closed without error, [GetRaw] returns the response with its body,
    and with it the bad-status error, which holds the status code, exactly
    when the status code lies outside 200 to 299.  When closing the body
    fails, [GetRaw] returns the response with its body and the error of the
    close, whatever the status code: the status is not checked. *)
Theorem GetRaw_bad_status (service : dnsLookupServiceOp) (ctx : Context)
    (domainName : string) (opts : list Option) (req : Request) (hr : http_Response)
    (body : bytes) (closeErr : option error) :
  newRequest service = Ok req ->
  http_Do (client (service_client service)) ctx (sent req domainName opts) =
    Responded hr body None closeErr ->
  let resp := {| Response_ := Some hr; Body := body |} in
  match closeErr with
  | Some rerr =>
      GetRaw service ctx domainName opts =
        Ok (Some resp, Some (Wrapped "cannot close response" rerr))
  | None =>
      exists err,
        GetRaw service ctx domainName opts = Ok (Some resp, err) /\
        (err = None <-> (200 <= StatusCode hr <= 299)%Z) /\
        (err <> None -> err = Some (ErrorResponseError (StatusCode hr) ""))
  end.
Proof.
  intros Hreq Hdo resp. unfold GetRaw. rewrite (request_exchange _ _ _ _ _ Hreq), Hdo.
  destruct closeErr as [rerr|]; [reflexivity|]. simpl.
  destruct ((200 <=? StatusCode hr)%Z && (StatusCode hr <=? 299)%Z) eqn:E; simpl.
  - exists None. split; [reflexivity|]. split.
    + split; [intros _; lia|reflexivity].
    + intros H. contradiction.
  - exists (Some (ErrorResponseError (StatusCode hr) "")). split; [reflexivity|]. split.
    + split; [discriminate|intros H; lia].
    + reflexivity.
Qed.

(** Status 500 with a body that is not JSON. *)
Lemma GetRaw_bad_status_witness :
  exists err,
    GetRaw (service_with "k" userAgent base_url (answering 500 (B "<html>"))) 0
           "example.com" [] =
      Ok (Some {| Response_ := Some {| StatusCode := 500 |}; Body := B "<html>" |}, err) /\
    err = Some (ErrorResponseError 500 "").
Proof.
  destruct (GetRaw_bad_status
              (service_with "k" userAgent base_url (answering 500 (B "<html>"))) 0
              "example.com" []
              (match newRequest (service_with "k" userAgent base_url
                                   (answering 500 (B "<html>"))) with
               | Ok req => req
               | _ => {| Method := ""; Request_URL := base_url; Header := ∅ |}
               end)
              {| StatusCode := 500 |} (B "<html>") None)
    as (err & HGet & Hiff & Herr).
  - reflexivity.
  - reflexivity.
  - exists err. split; [exact HGet|].
    apply Herr. intros ->. destruct Hiff as [Hiff _]. specialize (Hiff eq_refl).
    simpl in Hiff. lia.
Defined.

(** C8, as the claim states it, fails.  The HTTP client answers with status
    500 and the body is read to its end, but closing the body fails:
    [GetRaw] returns the error of the close, and no bad-status error, although
    the status code lies outside 200 to 299. *)
Lemma GetRaw_close_failure_counterexample :
  Do {| client := closing_with 500 (B "<html>") (TransportError "close");
        client_userAgent := userAgent; apiKey := "k" |} 0
     {| Method := "GET"; Request_URL := base_url; Header := ∅ |} =
    (Some {| StatusCode := 500 |}, B "<html>",
     Some (Wrapped "cannot close response" (TransportError "close"))) /\
  GetRaw (service_with "k" userAgent base_url
            (closing_with 500 (B "<html>") (TransportError "close"))) 0
         "example.com" [] =
    Ok (Some {| Response_ := Some {| StatusCode := 500 |}; Body := B "<html>" |},
        Some (Wrapped "cannot close response" (TransportError "close"))) /\
  Wrapped "cannot close response" (TransportError "close") <> ErrorResponseError 500 "".
Proof. split; [reflexivity|]. split; [reflexivity|discriminate]. Qed.

(** C9.  Decoding the empty array gives the empty collection, and leaves any
    collection as it was; a collection whose flat list is empty encodes to
    the two bytes of the empty array, whatever its typed lists hold. *)
Theorem empty_array_codec :
  UnmarshalJSON DNSRecords_zero (B "[]") = Ok DNSRecords_zero /\
  (forall r, UnmarshalJSON r (B "[]") = Ok r) /\
  (forall r, All r = [] -> MarshalJSON r = Ok (B "[]")).
Proof.
  split; [vm_compute; reflexivity|]. split.
  - intros r. unfold UnmarshalJSON.
    replace (json.Unmarshal _ (B "[]") []) with (@Ok (list bytes) [])
      by (vm_compute; reflexivity).
    reflexivity.
  - intros r H. unfold MarshalJSON. rewrite H. reflexivity.
Qed.

(** A collection with a typed record and an empty flat list. *)
Lemma empty_array_codec_witness :
  MarshalJSON (set_A [ARecord_zero] DNSRecords_zero) = Ok (B "[]").
Proof.
  apply (proj2 (proj2 empty_array_codec)). vm_compute. reflexivity.
Defined.

(** C10, amended.  [Get] never looks at the status code: with the status
    code of every response replaced, [Get] returns the same lookup response
    and the same error, and the response with the new status code.  When the
    HTTP client answers, the body is read and closed without error, the parse
    succeeds and the error envelope is empty, [Get] returns the decoded
    lookup response and no error, whatever the status code; [GetRaw] on the
    same request returns the bad-status error when the status code lies
    outside 200 to 299. *)
Theorem Get_ignores_status (local : time.Zones) (key ua : string) (base : URL)
    (h : http_Client) (ctx : Context) (domainName : string) (opts : list Option) :
  (forall status,
     Get local (service_with key ua base (with_status status h)) ctx domainName opts =
     restatus status (Get local (service_with key ua base h) ctx domainName opts)) /\
  (forall req hr body ar,
     newRequest (service_with key ua base h) = Ok req ->
     http_Do h ctx (sent req domainName (opts ++ [OptionOutputFormat "JSON"])) =
       Responded hr body None None ->
     parse local body = Ok ar ->
     Code (api_ErrorMessage ar) = "" ->
     Message (api_ErrorMessage ar) = "" ->
     let resp := {| Response_ := Some hr; Body := body |} in
     Get local (service_with key ua base h) ctx domainName opts =
       Ok (Some (api_DNSLookupResponse ar), Some resp, None) /\
     (~ (200 <= StatusCode hr <= 299)%Z ->
      GetRaw (service_with key ua base h) ctx domainName
             (opts ++ [OptionOutputFormat "JSON"]) =
        Ok (Some resp, Some (ErrorResponseError (StatusCode hr) "")))).
Proof.
  split.
  - intros status. unfold Get.
    destruct (newRequest (service_with key ua base h)) as [req|e|msg] eqn:Hreq.
    + assert (Hreq' : newRequest (service_with key ua base (with_status status h)) = Ok req)
        by exact Hreq.
      rewrite (request_exchange _ _ _ _ _ Hreq), (request_exchange _ _ _ _ _ Hreq').
      simpl.
      destruct (http_Do h ctx _) as [err|hr body [re|] [ce|]]; try reflexivity.
      simpl. destruct (parse local body) as [ar|e|msg]; try reflexivity.
      destruct (negb _ || negb _); reflexivity.
    + unfold request.
      change (newRequest (service_with key ua base (with_status status h)))
        with (newRequest (service_with key ua base h)).
      rewrite Hreq. reflexivity.
    + unfold request.
      change (newRequest (service_with key ua base (with_status status h)))
        with (newRequest (service_with key ua base h)).
      rewrite Hreq. reflexivity.
  - intros req hr body ar Hreq Hdo Hparse Hc Hm resp. split.
    + unfold Get. rewrite (request_exchange _ _ _ _ _ Hreq). simpl. rewrite Hdo.
      simpl. rewrite Hparse, Hc, Hm. reflexivity.
    + intros Hst. unfold GetRaw. rewrite (request_exchange _ _ _ _ _ Hreq). simpl.
      rewrite Hdo. simpl.
      destruct ((200 <=? StatusCode hr)%Z && (StatusCode hr <=? 299)%Z) eqn:E;
        [lia|reflexivity].
Qed.

(** Status 500 with a well-formed lookup envelope. *)
Lemma Get_ignores_status_witness :
  exists lookup,
    Get utc_only (service_with "k" userAgent base_url (answering 500 data_body)) 0
        "example.com" [] =
      Ok (Some lookup,
          Some {| Response_ := Some {| StatusCode := 500 |}; Body := data_body |}, None) /\
    length (A (DNSRecords_ lookup)) = 1%nat /\
    GetRaw (service_with "k" userAgent base_url (answering 500 data_body)) 0
           "example.com" [OptionOutputFormat "JSON"] =
      Ok (Some {| Response_ := Some {| StatusCode := 500 |}; Body := data_body |},
          Some (ErrorResponseError 500 "")).
Proof.
  destruct (proj2 (Get_ignores_status utc_only "k" userAgent base_url
                     (answering 500 data_body) 0 "example.com" [])
              (match newRequest (service_with "k" userAgent base_url
                                   (answering 500 data_body)) with
               | Ok req => req
               | _ => {| Method := ""; Request_URL := base_url; Header := ∅ |}
               end)
              {| StatusCode := 500 |} data_body
              (match parse utc_only data_body with
               | Ok ar => ar
               | _ => apiResponse_zero
               end))
    as [HGet HRaw].
  - reflexivity.
  - reflexivity.
  - vm_compute. reflexivity.
  - vm_compute. reflexivity.
  - vm_compute. reflexivity.
  - eexists. split; [exact HGet|]. split.
    + vm_compute. reflexivity.
    + apply HRaw. simpl. lia.
Defined.

(** C10, as the claim states it, fails.  The body of the response is a
    well-formed lookup envelope with no error envelope, and it is read to its
    end, but closing the body fails: [Get] returns the error of the close and
    no lookup response. *)
Lemma Get_close_failure_counterexample :
  (exists ar, parse utc_only data_body = Ok ar /\
              Code (api_ErrorMessage ar) = "" /\ Message (api_ErrorMessage ar) = "") /\
  Get utc_only (service_with "k" userAgent base_url
                  (closing_with 500 data_body (TransportError "close"))) 0
      "example.com" [] =
    Ok (None,
        Some {| Response_ := Some {| StatusCode := 500 |}; Body := data_body |},
        Some (Wrapped "cannot close response" (TransportError "close"))).
Proof.
  split.
  - destruct (parse utc_only data_body) as [ar|e|msg] eqn:Hparse;
      [|vm_compute in Hparse; discriminate Hparse..].
    exists ar. split; [reflexivity|].
    vm_compute in Hparse. injection Hparse as <-. split; reflexivity.
  - reflexivity.
Qed.

(** * Further properties *)

(** ** The record decoder, further *)

Lemma DNSRecords_app_zero r : DNSRecords_app r DNSRecords_zero = r.
Proof. destruct r. unfold DNSRecords_app. simpl. rewrite !app_nil_r. reflexivity. Qed.

Lemma DNSRecords_app_set_All r0 r l :
  DNSRecords_app r0 (set_All l r) = set_All (All r0 ++ l) (DNSRecords_app r0 r).
Proof. reflexivity. Qed.

(** The case of [parseRecord] that appends a record appends it behind the
    records that the receiver holds. *)
Lemma append_typed_app tag a r0 r :
  append_typed tag a (DNSRecords_app r0 r) =
  result_map (DNSRecords_app r0) (append_typed tag a r).
Proof.
  unfold append_typed.
  repeat match goal with
         | |- context [if String.eqb tag ?k then _ else _] =>
             destruct (String.eqb tag k);
             [destruct a; try reflexivity;
              unfold DNSRecords_app; simpl; rewrite <- app_assoc; reflexivity|]
         end.
  reflexivity.
Qed.

Lemma parseRecord_app r0 r record :
  parseRecord (DNSRecords_app r0 r) record =
  result_map (fun '(r', d) => (DNSRecords_app r0 r', d)) (parseRecord r record).
Proof.
  rewrite !parseRecord_cases.
  destruct (decode_envelope record) as [c|e|msg]; try reflexivity.
  destruct (actualDNSType (DNSType c)) as [a|]; try reflexivity.
  destruct (unmarshal_actual record a) as [a'|e|msg]; try reflexivity.
  rewrite append_typed_app.
  destruct (append_typed (DNSType c) a' r); reflexivity.
Qed.

Lemma parseRecords_app_receiver raws : forall r0 r,
  parseRecords (DNSRecords_app r0 r) raws =
  result_map (DNSRecords_app r0) (parseRecords r raws).
Proof.
  induction raws as [|record raws IH]; intros r0 r; simpl; [reflexivity|].
  rewrite parseRecord_app.
  destruct (parseRecord r record) as [[r' d]|e|msg]; try reflexivity.
  simpl. rewrite <- IH. f_equal.
  unfold DNSRecords_app, set_All. simpl. rewrite app_assoc. reflexivity.
Qed.

Lemma parseRecords_concat raws1 : forall raws2 r,
  parseRecords r (raws1 ++ raws2) =
  result_bind (parseRecords r raws1) (fun r1 => parseRecords r1 raws2).
Proof.
  induction raws1 as [|record raws1 IH]; intros raws2 r; simpl; [reflexivity|].
  destruct (parseRecord r record) as [[r' d]|e|msg]; try reflexivity.
  simpl. apply IH.
Qed.

Lemma UnmarshalJSON_cases r data :
  UnmarshalJSON r data =
  match checkValid data with
  | Ok (Array _ es) => parseRecords r (map show (values es))
  | Ok Null => Ok r
  | Ok v => Err (mismatch (len (fst (span isSpace data))) v)
  | Err e => Err e
  | Panic msg => Panic msg
  end.
Proof.
  unfold UnmarshalJSON. rewrite Unmarshal_raw.
  destruct (checkValid data) as [v|e|msg]; try reflexivity. destruct v; reflexivity.
Qed.

(** What [UnmarshalJSON] returns: the receiver with entries appended, or a
    syntax error or a type error; the type assertions of [parseRecord] do not
    fail. *)
Lemma UnmarshalJSON_result r data :
  (exists r' ds, UnmarshalJSON r data = Ok r' /\ All r' = All r ++ ds) \/
  (exists e, UnmarshalJSON r data = Err e /\ decode_error e).
Proof.
  rewrite UnmarshalJSON_cases. unfold checkValid.
  destruct (parse_document data) as [a|v rest]; [right; eexists; split; [reflexivity|exact I]|].
  destruct v; try (right; eexists; split; [reflexivity|exact I]).
  - left. exists r, []. rewrite app_nil_r. auto.
  - left. destruct (parseRecords_ok (map show (values es)) r) as (r' & ds & Hp & HAll & _).
    exists r', ds. auto.
Qed.

(** X1.  [DNSRecords.UnmarshalJSON] never panics, whatever the bytes and the
    receiver: none of the 28 type assertions of the switch of [parseRecord]
    fails, because [actualDNSType] returns for every tag the record type that
    the case of the tag asserts.  It returns the receiver with entries
    appended to its flat list, or fails with a syntax error or a type error
    of [json.Unmarshal]. *)
Theorem UnmarshalJSON_never_panics (r : DNSRecords) (data : bytes) :
  (forall msg, UnmarshalJSON r data <> Panic msg) /\
  ((exists r' ds, UnmarshalJSON r data = Ok r' /\ All r' = All r ++ ds) \/
   (exists e, UnmarshalJSON r data = Err e /\
              match e with
              | SyntaxError _ | UnmarshalTypeError _ _ _ _ => True
              | _ => False
              end)).
Proof.
  split.
  - intros msg. destruct (UnmarshalJSON_result r data) as [(r' & ds & -> & _)|(e & -> & _)];
      discriminate.
  - exact (UnmarshalJSON_result r data).
Qed.

(** X2.  Decoding into a collection that already holds records appends to
    it: every list of the result, the flat list and each typed list, is the
    list of the receiver followed by the list that decoding the same bytes
    into an empty collection gives. *)
Theorem UnmarshalJSON_appends (r r0 : DNSRecords) (data : bytes) :
  UnmarshalJSON DNSRecords_zero data = Ok r0 ->
  UnmarshalJSON r data = Ok (DNSRecords_app r r0).
Proof.
  rewrite !UnmarshalJSON_cases.
  destruct (checkValid data) as [v|e|msg]; try discriminate.
  destruct v; try discriminate.
  - intros [= <-]. rewrite DNSRecords_app_zero. reflexivity.
  - intros H. rewrite <- (DNSRecords_app_zero r) at 1.
    rewrite parseRecords_app_receiver, H. reflexivity.
Qed.

(** X3.  Decoding keeps the order of the input, list by list: the
    collection of an array whose elements are those of a first array followed
    by those of a second holds, in every list, the records of the first
    array followed by the records of the second. *)
Theorem UnmarshalJSON_concat (d1 d2 d : bytes) (raws1 raws2 : list bytes)
    (r1 r2 : DNSRecords) :
  top_level_elements d1 = Some raws1 ->
  top_level_elements d2 = Some raws2 ->
  top_level_elements d = Some (raws1 ++ raws2) ->
  UnmarshalJSON DNSRecords_zero d1 = Ok r1 ->
  UnmarshalJSON DNSRecords_zero d2 = Ok r2 ->
  UnmarshalJSON DNSRecords_zero d = Ok (DNSRecords_app r1 r2).
Proof.
  intros H1 H2 H.
  rewrite (UnmarshalJSON_array _ _ _ H1), (UnmarshalJSON_array _ _ _ H2),
    (UnmarshalJSON_array _ _ _ H).
  intros Hr1 Hr2. rewrite parseRecords_concat, Hr1. simpl.
  rewrite <- (DNSRecords_app_zero r1) at 1.
  rewrite parseRecords_app_receiver, Hr2. reflexivity.
Qed.

Lemma UnmarshalJSON_appends_witness :
  UnmarshalJSON one_record_decoded two_records =
  Ok (DNSRecords_app one_record_decoded
        (match UnmarshalJSON DNSRecords_zero two_records with
         | Ok r0 => r0
         | _ => DNSRecords_zero
         end)).
Proof. apply UnmarshalJSON_appends. vm_compute. reflexivity. Defined.

Lemma UnmarshalJSON_concat_witness :
  UnmarshalJSON DNSRecords_zero
    (jq "[{'dnsType':'XX'},{'dnsType':'A','address':'192.0.2.1'},{'dnsType':'XX'}]") =
  Ok (DNSRecords_app
        (match UnmarshalJSON DNSRecords_zero (jq "[{'dnsType':'XX'}]") with
         | Ok r => r
         | _ => DNSRecords_zero
         end)
        (match UnmarshalJSON DNSRecords_zero
                 (jq "[ {'dnsType':'A','address':'192.0.2.1'} , {'dnsType':'XX'} ]") with
         | Ok r => r
         | _ => DNSRecords_zero
         end)).
Proof.
  apply (UnmarshalJSON_concat
           (jq "[{'dnsType':'XX'}]")
           (jq "[ {'dnsType':'A','address':'192.0.2.1'} , {'dnsType':'XX'} ]")
           _
           [jq "{'dnsType':'XX'}"]
           [jq "{'dnsType':'A','address':'192.0.2.1'}"; jq "{'dnsType':'XX'}"]);
    vm_compute; reflexivity.
Defined.

(** ** Neither fetch panics *)

Lemma total_safe {T} (st : store T) : total st -> safe st.
Proof.
  intros H c off v old s msg. destruct (H c off v old s) as (x & s' & -> & _). discriminate.
Qed.

Lemma safe_unmarshaler {T} (U : bytes -> T -> result T) :
  (forall data old msg, U data old <> Panic msg) -> safe (store_unmarshaler U).
Proof.
  intros H c off v old s msg. unfold store_unmarshaler.
  destruct (U (show v) old) as [x|e|m] eqn:E; try discriminate.
  exfalso. exact (H _ _ _ E).
Qed.

Lemma safe_lift {T X} (get : T -> X) set (st : store X) : safe st -> safe (lift get set st).
Proof.
  intros H c off v t s msg. unfold lift, dec_bind.
  destruct (st c off v (get t) s) as [[x s']|e|m] eqn:E; try discriminate.
  exfalso. exact (H _ _ _ _ _ _ E).
Qed.

Lemma safe_members {T} sname (fs : list (field T)) :
  safe_fields fs ->
  forall ms c off t s msg, store_members sname fs c off ms t s <> Panic msg.
Proof.
  intros Hfs. induction ms as [|key mid1 mid2 v post sep ms IH]; intros c off t s msg; simpl.
  - discriminate.
  - destruct (find_field fs (unquote key)) as [f|] eqn:Ef; [|apply IH].
    apply find_field_In in Ef.
    pose proof (proj1 (List.Forall_forall _ _) Hfs f Ef) as Hf.
    unfold dec_bind.
    match goal with |- context [f_store f ?c ?o v t s] =>
      destruct (f_store f c o v t s) as [[x s']|e|m] eqn:E end; simpl.
    + apply IH.
    + discriminate.
    + exfalso. exact (Hf _ _ _ _ _ _ E).
Qed.

Lemma safe_struct {T} sname (fs : list (field T)) : safe_fields fs -> safe (store_struct sname fs).
Proof.
  intros Hfs c off v old s msg. destruct v; simpl; try discriminate.
  apply safe_members, Hfs.
Qed.

Lemma Decode_safe {T} (st : store T) data old msg :
  safe st -> Decode st data old <> Panic msg.
Proof.
  intros Hst. unfold Decode, readValue.
  destruct (span isSpace data) as [w r]. destruct r as [|c r]; [discriminate|].
  destruct (parse_value _ 0 (c :: r)) as [[|a l]|v rest]; try discriminate.
  simpl. destruct (st no_context (len w) v old None) as [[x [e|]]|e|m] eqn:E;
    simpl; try discriminate.
  exfalso. exact (Hst _ _ _ _ _ _ E).
Qed.

Lemma Parse_no_panic local value msg : time.Parse local value <> Panic msg.
Proof.
  unfold time.Parse, time.out_of_range.
  repeat match goal with
         | |- context [match ?x with _ => _ end] => destruct x
         end; discriminate.
Qed.

Lemma Time_UnmarshalJSON_no_panic local data old msg :
  Time_UnmarshalJSON local data old <> Panic msg.
Proof.
  unfold Time_UnmarshalJSON, unmarshalString.
  destruct (Unmarshal_total store_string data "" total_string) as [[x ->]|(e & -> & _)];
    simpl; [|discriminate].
  destruct (String.eqb x ""); [discriminate|apply Parse_no_panic].
Qed.

Lemma UnmarshalJSON_no_panic r data msg : UnmarshalJSON r data <> Panic msg.
Proof.
  destruct (UnmarshalJSON_result r data) as [(r' & ds & -> & _)|(e & -> & _)];
    discriminate.
Qed.

Lemma parse_no_panic local raw msg : parse local raw <> Panic msg.
Proof.
  unfold parse.
  match goal with |- context [Decode ?st raw ?old] =>
    assert (Hst : safe st); [|pose proof (fun m => Decode_safe st raw old m Hst) as H;
                               destruct (Decode st raw old) as [x|e|m]; try discriminate;
                               exfalso; exact (H m eq_refl)]
  end.
  apply safe_struct. repeat constructor; unfold mkField; simpl; apply safe_lift.
  - apply safe_struct. repeat constructor; unfold mkField; simpl; apply safe_lift.
    + apply total_safe, total_string.
    + apply total_safe, total_slice, total_int.
    + apply total_safe, total_string.
    + apply safe_struct. repeat constructor; unfold mkField; simpl; apply safe_lift;
        apply safe_unmarshaler; intros; apply Time_UnmarshalJSON_no_panic.
    + apply safe_unmarshaler. intros. apply UnmarshalJSON_no_panic.
  - apply safe_struct. repeat constructor; unfold mkField; simpl; apply safe_lift;
      apply total_safe, total_string.
Qed.

(** What a request without an error returns. *)
Lemma request_no_error service ctx d opts resp :
  request service ctx d opts = (resp, None) ->
  exists hr body, resp = Some {| Response_ := Some hr; Body := body |}.
Proof.
  unfold request. destruct (newRequest service) as [req|e|msg]; try discriminate.
  unfold Do.
  destruct (http_Do _ ctx _) as [err|hr body [re|] [ce|]]; try discriminate.
  intros [= <-]. eauto.
Qed.


(** ** The request layer, further *)

(** X5.  When the HTTP client fails, when reading the body fails or when
    closing the body fails, [Get] and [GetRaw] return the same error, wrapped
    with the step that failed, and the response with the bytes read so far
    (no response behind it when the client failed); a read error hides a
    close error; [Get] returns no lookup response and does not parse the
    body, [GetRaw] does not check the status. *)
Theorem failed_exchange_is_returned (local : time.Zones) (service : dnsLookupServiceOp)
    (ctx : Context) (domainName : string) (opts : list Option) (req : Request) :
  newRequest service = Ok req ->
  let optsJSON := opts ++ [OptionOutputFormat "JSON"] in
  let both (resp : Response) (e : error) :=
    Get local service ctx domainName opts = Ok (None, Some resp, Some e) /\
    GetRaw service ctx domainName optsJSON = Ok (Some resp, Some e) in
  match http_Do (client (service_client service)) ctx (sent req domainName optsJSON) with
  | Failed err =>
      both {| Response_ := None; Body := [] |} (Wrapped "cannot execute request" err)
  | Responded hr body (Some err) _ =>
      both {| Response_ := Some hr; Body := body |} (Wrapped "cannot read response" err)
  | Responded hr body None (Some rerr) =>
      both {| Response_ := Some hr; Body := body |} (Wrapped "cannot close response" rerr)
  | Responded _ _ None None => True
  end.
Proof.
  intros Hreq optsJSON both. unfold both, Get, GetRaw. fold optsJSON.
  rewrite (request_exchange _ _ _ _ _ Hreq).
  destruct (http_Do _ ctx _) as [err|hr body [re|] [ce|]]; simpl; auto.
Qed.

Lemma failed_exchange_is_returned_witness :
  Get utc_only (service_with "k" userAgent base_url
                  (closing_with 200 data_body (TransportError "close"))) 0
      "example.com" [] =
    Ok (None, Some {| Response_ := Some {| StatusCode := 200 |}; Body := data_body |},
        Some (Wrapped "cannot close response" (TransportError "close"))).
Proof.
  exact (proj1 (failed_exchange_is_returned utc_only
                  (service_with "k" userAgent base_url
                     (closing_with 200 data_body (TransportError "close")))
                  0 "example.com" []
                  (match newRequest (service_with "k" userAgent base_url
                                       (closing_with 200 data_body (TransportError "close")))
                   with
                   | Ok req => req
                   | _ => {| Method := ""; Request_URL := base_url; Header := ∅ |}
                   end)
                  eq_refl)).
Defined.

(** [newRequest] does not fail, and the query of its request is the key. *)
Lemma newRequest_query service :
  exists req,
    newRequest service = Ok req /\
    RawQuery (Request_URL req) = {[ "apiKey" := [apiKey (service_client service)] ]}.
Proof. eexists. split; [reflexivity|]. simpl. apply insert_empty. Qed.


Lemma builtin_preserves o k q :
  builtin o -> k <> "outputFormat" -> k <> "type" -> k <> "callback" -> o q !! k = q !! k.
Proof.
  intros [v|v|v] H1 H2 H3; unfold OptionOutputFormat, OptionType, OptionCallback, Values_Set;
    apply lookup_insert_ne; congruence.
Qed.

Lemma builtin_fold opts : forall q k,
  Forall builtin opts -> k <> "outputFormat" -> k <> "type" -> k <> "callback" ->
  fold_left (fun q opt => opt q) opts q !! k = q !! k.
Proof.
  induction opts as [|o opts IH]; intros q k Hall H1 H2 H3; simpl; [reflexivity|].
  inversion Hall; subst. rewrite IH by assumption. apply builtin_preserves; assumption.
Qed.

Lemma builtin_fold_type opts : forall q t,
  Forall builtin opts -> q !! "type" = Some [t] ->
  exists t', fold_left (fun q opt => opt q) opts q !! "type" = Some [t'].
Proof.
  induction opts as [|o opts IH]; intros q t Hall Hq; simpl; [eauto|].
  inversion Hall as [|? ? Ho Hall']; subst.
  destruct Ho as [v|v|v].
  - apply (IH _ t Hall'). unfold OptionOutputFormat, Values_Set.
    rewrite lookup_insert_ne by discriminate. exact Hq.
  - apply (IH _ (ToUpper v) Hall'). unfold OptionType, Values_Set. apply lookup_insert_eq.
  - apply (IH _ t Hall'). unfold OptionCallback, Values_Set.
    rewrite lookup_insert_ne by discriminate. exact Hq.
Qed.

(** X7.  The options that the package makes never touch the API key nor the
    domain name: whatever such options the caller gives, in whatever order,
    the query of the request handed to the HTTP client has the key of the
    client and the domain name asked for.  It always has a type, and the type
    is [_all] when no option is a type option. *)
Theorem options_keep_key_and_domain (service : dnsLookupServiceOp) (req : Request)
    (domainName : string) (opts : list Option) :
  newRequest service = Ok req ->
  Forall builtin opts ->
  let query := RawQuery (Request_URL (sent req domainName opts)) in
  query !! "apiKey" = Some [apiKey (service_client service)] /\
  query !! "domainName" = Some [domainName] /\
  (exists t, query !! "type" = Some [t]) /\
  (Forall (fun o => forall v, o <> OptionType v) opts -> query !! "type" = Some ["_all"]).
Proof.
  intros Hreq Hall query.
  destruct (newRequest_query service) as (req' & Hreq' & Hq).
  rewrite Hreq in Hreq'. injection Hreq' as <-.
  unfold query, sent, request_query. simpl. rewrite Hq. unfold Values_Set.
  repeat split.
  - rewrite builtin_fold by (assumption || discriminate).
    rewrite !lookup_insert_ne by discriminate. apply lookup_insert_eq.
  - rewrite builtin_fold by (assumption || discriminate).
    rewrite lookup_insert_ne by discriminate. apply lookup_insert_eq.
  - eapply builtin_fold_type; [exact Hall|apply lookup_insert_eq].
  - intros Hno.
    assert (H : forall opts q, Forall builtin opts ->
              Forall (fun o => forall v, o <> OptionType v) opts ->
              fold_left (fun q opt => opt q) opts q !! "type" = q !! "type").
    { clear. induction opts as [|o opts IH]; intros q Hb Hn; simpl; [reflexivity|].
      inversion Hb as [|? ? Ho Hb']; inversion Hn as [|? ? Hn1 Hn']; subst.
      rewrite IH by assumption.
      destruct Ho as [v|v|v].
      - apply lookup_insert_ne. discriminate.
      - exfalso. exact (Hn1 v eq_refl).
      - apply lookup_insert_ne. discriminate. }
    rewrite H by assumption. apply lookup_insert_eq.
Qed.

Lemma options_keep_key_and_domain_witness :
  let query :=
    RawQuery (Request_URL
      (sent (match newRequest (service_with "k" userAgent base_url (answering 200 [])) with
             | Ok req => req
             | _ => {| Method := ""; Request_URL := base_url; Header := ∅ |}
             end)
            "example.com" [OptionCallback "apiKey"; OptionOutputFormat "xml"])) in
  query !! "apiKey" = Some ["k"] /\ query !! "domainName" = Some ["example.com"] /\
  query !! "type" = Some ["_all"].
Proof.
  destruct (options_keep_key_and_domain
              (service_with "k" userAgent base_url (answering 200 []))
              (match newRequest (service_with "k" userAgent base_url (answering 200 [])) with
               | Ok req => req
               | _ => {| Method := ""; Request_URL := base_url; Header := ∅ |}
               end)
              "example.com" [OptionCallback "apiKey"; OptionOutputFormat "xml"])
    as (H1 & H2 & _ & H4).
  - reflexivity.
  - repeat constructor.
  - intros query. split; [exact H1|]. split; [exact H2|]. apply H4.
    repeat constructor; intros v H;
      apply (f_equal (fun o : Option => o ∅ !! "type")) in H; vm_compute in H; discriminate H.
Defined.

(** ** Elements that are not objects, and bytes behind the body *)

(** X8.  An element that is valid JSON but not an object is recorded, never
    decoded: [parseRecord] leaves the receiver as it was and returns the entry
    with the empty envelope and the bytes of the element; its error is the
    type error of [json.Unmarshal] for an array, a string, a number or a
    boolean, and [ErrUnsupportedDNSType] for [null], which decodes into the
    struct without error and leaves the tag empty. *)
Theorem non_object_element (r : DNSRecords) (record : bytes) (v : value) :
  checkValid record = Ok v ->
  match v with Object _ _ => False | _ => True end ->
  parseRecord r record =
    Ok (r, {| CommonFields := commonFields_zero; Raw := record;
              ParseError := Some match v with
                                 | Null => ErrUnsupportedDNSType
                                 | _ => mismatch (len (fst (span isSpace record))) v
                                 end |}).
Proof.
  intros Hv Hkind. rewrite parseRecord_cases. unfold decode_envelope, Unmarshal.
  rewrite Hv. destruct v; try contradiction; reflexivity.
Qed.

Lemma non_object_element_witness :
  parseRecord DNSRecords_zero (B "[1]") =
    Ok (DNSRecords_zero,
        {| CommonFields := commonFields_zero; Raw := B "[1]";
           ParseError := Some (UnmarshalTypeError "array" 1 "" "") |}).
Proof.
  apply (non_object_element DNSRecords_zero (B "[1]")
           (Array [] (ECons (Number (B "1")) [] [] ENil))).
  - vm_compute. reflexivity.
  - exact I.
Defined.

Lemma readValue_show w v rest :
  all_ws w -> wf v -> (height v <= maxNestingDepth)%Z -> after_ok v rest ->
  readValue (w ++ show v ++ rest) = Ok (len w, v).
Proof.
  intros Hw Hwf Hh Hafter. unfold readValue.
  rewrite (span_complete isSpace w (show v ++ rest) Hw (no_space_head_value v rest Hwf)).
  assert (Hp : parse_value (2 * length (w ++ show v ++ rest) + 2) 0 (show v ++ rest) =
               Done v rest).
  { apply (proj1 (parse_complete _)); auto; try lia.
    pose proof (need_show v). rewrite !length_app. lia. }
  rewrite Hp.
  destruct (show_head v Hwf) as (c & t & Hshow & _). rewrite Hshow. reflexivity.
Qed.

(** The first value of a valid text is its value, whatever follows the
    text, if the value is not a number. *)
Lemma readValue_valid body rest v :
  checkValid body = Ok v ->
  match v with Number _ => False | _ => True end ->
  readValue (body ++ rest) = readValue body.
Proof.
  intros Hv Hkind.
  destruct (checkValid_sound _ _ Hv) as (w1 & w2 & -> & Hw1 & Hw2 & Hwf & Hh & _).
  assert (Hafter : forall r, after_ok v r) by (intros r; destruct v; try exact I; contradiction).
  rewrite <- !app_assoc.
  rewrite (readValue_show w1 v (w2 ++ rest) Hw1 Hwf Hh (Hafter _)).
  rewrite (readValue_show w1 v w2 Hw1 Hwf Hh (Hafter _)). reflexivity.
Qed.

(** X9.  [parse] reads the first JSON value of the body and nothing behind
    it: when the body is a valid JSON object, whatever bytes follow it change
    nothing in what [parse] returns. *)
Theorem parse_ignores_what_follows (local : time.Zones) (body rest : bytes)
    (w : bytes) (ms : members) :
  checkValid body = Ok (Object w ms) ->
  parse local (body ++ rest) = parse local body.
Proof.
  intros Hv. unfold parse, Decode. rewrite (readValue_valid body rest _ Hv I). reflexivity.
Qed.

Lemma parse_ignores_what_follows_witness :
  parse utc_only (error_body ++ B " trailing <b>text</b>") = parse utc_only error_body.
Proof.
  apply (parse_ignores_what_follows utc_only error_body (B " trailing <b>text</b>")
           (match checkValid error_body with Ok (Object w _) => w | _ => [] end)
           (match checkValid error_body with Ok (Object _ ms) => ms | _ => MNil end)).
  vm_compute. reflexivity.
Defined.

(** ** The envelope of a typed record *)

Lemma find_embed {T X} (get : T -> X) (set : X -> T -> T) (fs : list (field X))
    (p : string -> bool) :
  find (fun f => p (f_name f)) (embed get set fs) =
  option_map (fun f => Field (f_name f) (lift get set (f_store f)))
             (find (fun f => p (f_name f)) fs).
Proof.
  unfold embed. induction fs as [|f l IH]; simpl; [reflexivity|].
  destruct (p (f_name f)); [reflexivity|exact IH].
Qed.

Lemma find_app_or {A} (p : A -> bool) l1 l2 :
  find p (l1 ++ l2) = match find p l1 with Some x => Some x | None => find p l2 end.
Proof. induction l1 as [|a l1 IH]; simpl; [reflexivity|]. destruct (p a); auto. Qed.

Section Embedded.

Context {T X : Type} (get : T -> X) (set : X -> T -> T).

Variable fs0 : list (field X).

Variable extras : list (field T).

Hypothesis get_set : forall x t, get (set x t) = x.

(** The other fields leave the embedded struct alone. *)
Hypothesis extras_keep : Forall (fun f =>
  forall c off v t s y s', f_store f c off v t s = Ok (y, s') -> get y = get t) extras.

(** No other field has a name that folds to the name of an embedded field. *)
Hypothesis names_apart : Forall (fun e =>
  Forall (fun f => foldName (B (f_name e)) <> foldName (B (f_name f))) fs0) extras.

(** What an embedded field stores does not depend on the error context nor
    on the error saved so far. *)
Hypothesis context_free : Forall (fun f =>
  forall c c' off v old s s2 x s',
    f_store f c off v old s = Ok (x, s') ->
    exists s2', f_store f c' off v old s2 = Ok (x, s2')) fs0.

Lemma find_fold_extras key f :
  find (fun f => equalFold (f_name f) key) fs0 = Some f ->
  find (fun e => String.eqb (f_name e) key) extras = None.
Proof.
  intros Hf. apply find_some in Hf. destruct Hf as [Hin Hfold].
  unfold equalFold in Hfold. apply bool_decide_eq_true_1 in Hfold.
  destruct (find _ extras) as [e|] eqn:He; [|reflexivity].
  apply find_some in He. destruct He as [Hine Heq]. apply String.eqb_eq in Heq.
  pose proof (proj1 (List.Forall_forall _ _) names_apart e Hine) as Hne.
  pose proof (proj1 (List.Forall_forall _ _) Hne f Hin) as Hne'.
  exfalso. apply Hne'. rewrite Heq. symmetry. exact Hfold.
Qed.

(** The field that a key selects among the fields of the outer struct: the
    embedded field that it selects in the embedded struct, when it selects
    one; otherwise one of the other fields or none. *)
Lemma find_field_embed key :
  match find_field fs0 key with
  | Some f => find_field (embed get set fs0 ++ extras) key =
      Some (Field (f_name f) (lift get set (f_store f)))
  | None =>
      find_field (embed get set fs0 ++ extras) key = None \/
      exists e, In e extras /\ find_field (embed get set fs0 ++ extras) key = Some e
  end.
Proof.
  unfold find_field. rewrite !find_app_or.
  rewrite (find_embed get set fs0 (fun n => String.eqb n key)).
  rewrite (find_embed get set fs0 (fun n => equalFold n key)).
  destruct (find (fun f => String.eqb (f_name f) key) fs0) as [f|] eqn:E1; simpl.
  - reflexivity.
  - destruct (find (fun f => equalFold (f_name f) key) fs0) as [f|] eqn:E2; simpl.
    + rewrite (find_fold_extras key f E2). reflexivity.
    + destruct (find (fun f => String.eqb (f_name f) key) extras) as [e|] eqn:E3.
      * right. exists e. split; [|reflexivity]. apply find_some in E3. tauto.
      * destruct (find (fun f => equalFold (f_name f) key) extras) as [e|] eqn:E4.
        -- right. exists e. split; [|reflexivity]. apply find_some in E4. tauto.
        -- left. reflexivity.
Qed.

(** The members of an object, stored into the outer struct and into the
    embedded struct alone: the embedded struct comes out the same. *)
Lemma embedded_members sn sn0 ms : forall c c0 off t s s0 y s',
  store_members sn (embed get set fs0 ++ extras) c off ms t s = Ok (y, s') ->
  exists s0', store_members sn0 fs0 c0 off ms (get t) s0 = Ok (get y, s0').
Proof.
  induction ms as [|key mid1 mid2 v post sep ms IH]; intros c c0 off t s s0 y s' H.
  - simpl in *. unfold dec_ret in *. injection H as <- <-. eauto.
  - cbn [store_members] in *.
    pose proof (find_field_embed (unquote key)) as Hfind.
    destruct (find_field fs0 (unquote key)) as [f|] eqn:Ef.
    + rewrite Hfind in H. unfold dec_bind in H |- *. cbn [f_store f_name] in H.
      unfold lift at 1 in H. unfold dec_bind in H.
      match type of H with context [f_store f ?cc ?oo v (get t) s] =>
        destruct (f_store f cc oo v (get t) s) as [[x s1]|e|m] eqn:Est; try discriminate H;
        set (cT := cc) in * end.
      simpl in H. unfold dec_ret in H. simpl in H.
      apply find_field_In in Ef.
      pose proof (proj1 (List.Forall_forall _ _) context_free f Ef) as Hcf.
      match goal with |- context [f_store f ?cc ?oo v (get t) s0] =>
        destruct (Hcf cT cc _ _ _ _ s0 _ _ Est) as (s01 & ->) end.
      simpl.
      destruct (IH _ c0 _ _ _ s01 _ _ H) as (s0' & Hm).
      rewrite get_set in Hm. eauto.
    + destruct Hfind as [Hnone|(e & Hin & Hsome)].
      * rewrite Hnone in H. eapply IH, H.
      * rewrite Hsome in H. unfold dec_bind in H.
        match type of H with context [f_store e ?cc ?oo v t s] =>
          destruct (f_store e cc oo v t s) as [[t1 s1]|e'|m] eqn:Est; try discriminate H end.
        simpl in H.
        pose proof (proj1 (List.Forall_forall _ _) extras_keep e Hin _ _ _ _ _ _ _ Est) as Hk.
        rewrite <- Hk. eapply IH, H.
Qed.

Lemma embedded_struct sn sn0 c c0 off v t s s0 y s' :
  store_struct sn (embed get set fs0 ++ extras) c off v t s = Ok (y, s') ->
  exists s0', store_struct sn0 fs0 c0 off v (get t) s0 = Ok (get y, s0').
Proof.
  destruct v; simpl; try apply embedded_members;
    unfold reject, dec_bind, saveError, dec_ret; simpl; intros [= <- _]; eauto.
Qed.

End Embedded.

Lemma lift_context_free {T X} (get : T -> X) (set : X -> T -> T) (st : store X) :
  (forall c c' off v old s s2 x s',
     st c off v old s = Ok (x, s') -> exists s2', st c' off v old s2 = Ok (x, s2')) ->
  forall c c' off v old s s2 x s',
    lift get set st c off v old s = Ok (x, s') ->
    exists s2', lift get set st c' off v old s2 = Ok (x, s2').
Proof.
  intros Hst c c' off v old s s2 x s'. unfold lift, dec_bind.
  destruct (st c off v (get old) s) as [[x1 s1]|e|m] eqn:E; try discriminate.
  simpl. unfold dec_ret. intros [= <- <-].
  destruct (Hst _ c' _ _ _ _ s2 _ _ E) as (s2' & ->). simpl. eauto.
Qed.

Lemma store_int_context_free c c' off v old s s2 x s' :
  store_int c off v old s = Ok (x, s') -> exists s2', store_int c' off v old s2 = Ok (x, s2').
Proof.
  destruct v; simpl; try destruct (ParseInt _);
    unfold reject, bad_number, dec_bind, saveError, dec_ret; simpl; intros [= <- _]; eauto.
Qed.

Lemma store_string_context_free c c' off v old s s2 x s' :
  store_string c off v old s = Ok (x, s') ->
  exists s2', store_string c' off v old s2 = Ok (x, s2').
Proof.
  destruct v; simpl;
    unfold reject, bad_number, dec_bind, saveError, dec_ret; simpl; intros [= <- _]; eauto.
Qed.

Lemma commonFields_context_free :
  Forall (fun f =>
    forall c c' off v old s s2 x s',
      f_store f c off v old s = Ok (x, s') ->
      exists s2', f_store f c' off v old s2 = Ok (x, s2')) commonFields_fields.
Proof.
  unfold commonFields_fields, mkField.
  repeat (apply List.Forall_cons || apply List.Forall_nil); cbn [f_store];
    apply lift_context_free;
    (apply store_int_context_free || apply store_string_context_free).
Qed.

(** A field stored through its own setter leaves what the setter leaves. *)
Lemma lift_keeps {T X Y} (get : T -> X) (get' : T -> Y) (set' : Y -> T -> T) (st : store Y) :
  (forall x t, get (set' x t) = get t) ->
  forall c off v t s y s', lift get' set' st c off v t s = Ok (y, s') -> get y = get t.
Proof.
  intros Hk c off v t s y s'. unfold lift, dec_bind.
  destruct (st c off v (get' t) s) as [[x1 s1]|e|m]; try discriminate.
  simpl. unfold dec_ret. intros [= <- _]. apply Hk.
Qed.

Lemma Unmarshal_Ok {T} (st : store T) record old y :
  Unmarshal st record old = Ok y ->
  exists v, checkValid record = Ok v /\
            st no_context (len (fst (span isSpace record))) v old None = Ok (y, None).
Proof.
  unfold Unmarshal, result_bind, finish.
  destruct (checkValid record) as [v|e|m]; try discriminate.
  destruct (st _ _ v old None) as [[x [e|]]|e|m] eqn:E; simpl; try discriminate.
  intros [= <-]. exists v. split; [reflexivity|exact E].
Qed.

(** A struct that embeds [commonFields], decoded from a text from which the
    envelope alone decodes too, embeds that envelope. *)
Lemma embedded_envelope {T} (get : T -> commonFields) (set : commonFields -> T -> T)
    (extras : list (field T)) sn record (old y : T) c :
  (forall x t, get (set x t) = x) ->
  Forall (fun f =>
    forall c off v t s y s', f_store f c off v t s = Ok (y, s') -> get y = get t) extras ->
  Forall (fun e =>
    Forall (fun f => foldName (B (f_name e)) <> foldName (B (f_name f))) commonFields_fields)
    extras ->
  get old = commonFields_zero ->
  Unmarshal (store_struct sn (embed get set commonFields_fields ++ extras)) record old = Ok y ->
  decode_envelope record = Ok c ->
  get y = c.
Proof.
  intros Hgs Hkeep Hnames Hold Hy Hc.
  apply Unmarshal_Ok in Hy. destruct Hy as (v & Hv & Hy).
  unfold decode_envelope, result_map in Hc.
  destruct (Unmarshal _ record _) as [o|e|m] eqn:Ho; try discriminate.
  simpl in Hc. injection Hc as <-.
  apply Unmarshal_Ok in Ho. destruct Ho as (v' & Hv' & Ho).
  rewrite Hv in Hv'. injection Hv' as <-.
  destruct (embedded_struct get set commonFields_fields extras Hgs Hkeep Hnames
              commonFields_context_free sn "" no_context no_context _ _ _ _ None _ _ Hy)
    as (s1 & H1).
  unfold obj_fields in Ho.
  rewrite <- (app_nil_r (embed obj_commonFields _ _)) in Ho.
  destruct (embedded_struct obj_commonFields (fun x _ => {| obj_commonFields := x |})
              commonFields_fields [] (fun _ _ => eq_refl) (List.Forall_nil _)
              (List.Forall_nil _)
              commonFields_context_free "" "" no_context no_context _ _ _ _ None _ _ Ho)
    as (s2 & H2).
  rewrite Hold in H1. simpl in H2. rewrite H1 in H2. injection H2 as -> _. reflexivity.
Qed.

Ltac names_apart :=
  repeat (apply List.Forall_cons || apply List.Forall_nil);
  let H := fresh in intros H; vm_compute in H; discriminate H.

Ltac extras_keep :=
  repeat (apply List.Forall_cons || apply List.Forall_nil); cbn [f_store mkField];
  apply lift_keeps; reflexivity.

(** The record that the second decode of [parseRecord] fills embeds the
    envelope that the first decode gave, and the tag of the envelope is the
    tag of the record's type. *)
Lemma second_decode_keeps_envelope record c a a' :
  decode_envelope record = Ok c ->
  actualDNSType (DNSType c) = Some a ->
  unmarshal_actual record a = Ok a' ->
  envelope_of a' = c /\ DNSType c = tag_of a'.
Proof.
  unfold actualDNSType. intros Hc Htag Hdec.
  repeat
    match type of Htag with
    | (if String.eqb ?tag ?k then _ else _) = _ =>
        let E := fresh "E" in
        destruct (String.eqb tag k) eqn:E;
        [ apply String.eqb_eq in E; injection Htag as <-;
          simpl in Hdec; unfold result_map, result_bind in Hdec;
          match type of Hdec with
          | match ?u with _ => _ end = _ =>
              let Hu := fresh "Hu" in
              destruct u as [y|e|m] eqn:Hu; try discriminate Hdec;
              injection Hdec as <-; split; [|exact E];
              cbn [envelope_of];
              refine (embedded_envelope _ _ _ _ _ _ _ _ _ _ _ _ Hu Hc);
              [ reflexivity | extras_keep | names_apart | reflexivity ]
          end
        | clear E ]
    end.
  discriminate Htag.
Qed.

Lemma parseRecord_decoded r0 r1 record d a' :
  parseRecord r0 record = Ok (r1, d) ->
  decode_full record = Some a' ->
  Raw d = record /\ ParseError d = None /\ CommonFields d = envelope_of a' /\
  DNSType (envelope_of a') = tag_of a'.
Proof.
  intros Hp Hf. apply decode_full_Some in Hf. destruct Hf as (c & a & Hc & Ha & Hu).
  destruct (second_decode_keeps_envelope _ _ _ _ Hc Ha Hu) as [Henv Htag].
  rewrite parseRecord_cases, Hc, Ha, Hu in Hp.
  destruct (append_typed_ok _ _ _ _ r0 Ha Hu) as (r' & Hr' & _).
  rewrite Hr' in Hp. simpl in Hp. injection Hp as _ <-. simpl.
  rewrite Henv. repeat split; congruence.
Qed.

(** X10. Every record of a typed list of a collection decoded from JSON
    comes with an entry of the flat list: the entry has no error, its raw
    bytes decode in full to the record, and its envelope is the envelope
    that the record embeds; the [dnsType] of that envelope is the tag of
    the list the record is in. *)
Theorem typed_records_carry_their_envelope (data : bytes) (r' : DNSRecords) (a' : actual) :
  UnmarshalJSON DNSRecords_zero data = Ok r' ->
  a' ∈ typed_all r' ->
  DNSType (envelope_of a') = tag_of a' /\
  exists d, d ∈ All r' /\ ParseError d = None /\ CommonFields d = envelope_of a' /\
            decode_full (Raw d) = Some a'.
Proof.
  rewrite UnmarshalJSON_cases. intros Hr Ha.
  destruct (checkValid data) as [v|e|m]; try discriminate Hr.
  destruct v as [| | | | |w es|]; try discriminate Hr.
  - injection Hr as <-. vm_compute in Ha. inversion Ha.
  - destruct (parseRecords_ok (map show (values es)) DNSRecords_zero)
      as (r'' & ds & Hp & HAll & HRaw & Hent & Hperm & _).
    rewrite Hp in Hr. injection Hr as ->.
    rewrite Hperm in Ha. simpl in Ha, HAll.
    apply list_elem_of_omap in Ha. destruct Ha as (record & Hin & Hf).
    apply list_elem_of_lookup in Hin. destruct Hin as (i & Hi).
    destruct (Forall2_lookup_r _ _ _ _ _ Hent Hi) as (d & Hd & r0 & r1 & Hpr).
    destruct (parseRecord_decoded _ _ _ _ _ Hpr Hf) as (HR & HE & HC & HT).
    split; [exact HT|]. exists d. rewrite HAll, HR.
    repeat split; auto. eapply list_elem_of_lookup_2, Hd.
Qed.

Lemma typed_records_carry_their_envelope_witness :
  exists a' d,
    d ∈ All (match UnmarshalJSON DNSRecords_zero two_records with
             | Ok r => r
             | _ => DNSRecords_zero
             end) /\
    Name (CommonFields d) = "example.com." /\
    CommonFields d = envelope_of a' /\ tag_of a' = "A".
Proof.
  pose (r' := match UnmarshalJSON DNSRecords_zero two_records with
              | Ok r => r
              | _ => DNSRecords_zero
              end).
  pose (a' := hd (NULLRecordPtr NULLRecord_zero) (typed_all r')).
  destruct (typed_records_carry_their_envelope two_records r' a')
    as (Htag & d & Hd & _ & Henv & _).
  - vm_compute. reflexivity.
  - vm_compute. apply list_elem_of_here.
  - exists a', d. split; [exact Hd|]. split; [rewrite Henv; reflexivity|].
    split; [exact Henv|reflexivity].
Defined.
